(** * yagb: a shallow embedding of the emulator core

    The development follows the TypeScript sources component by component:
    - [Js]      the number, typed-array and exception conventions of the host
                language that the sources rely on;
    - [Mbc3]    [src/emulator/cartridges/CartridgeMbc3.ts];
    - [Ppu]     the PPU state machine, its bus handlers and OAM DMA;
    - [Bus]     [src/emulator/bus.ts];
    - [Instruction] and [Cpu]  the instruction table and [src/emulator/cpu.ts];
    - [SampleQueue]  [src/emulator/apu/sample-queue.ts];
    - [ClockCgb]  the clock that drives the devices.

    All definitions come first; the statements about them follow in the
    second half of the file. *)

From Stdlib Require Import ZArith Lia String Ascii List Bool.
From Stdlib Require HexString.
From stdpp Require Import base numbers list.
Import ListNotations.

Local Open Scope Z_scope.

(* ===================================================================== *)
(** * Host language conventions *)
(* ===================================================================== *)

Module Js.

(** A statement either completes normally or throws. *)
Inductive completion (A : Type) : Type :=
| Normal (a : A)
| Throw (message : string).
Arguments Normal {A} a.
Arguments Throw {A} message.

Definition bind {A B} (c : completion A) (k : A -> completion B) : completion B :=
  match c with
  | Normal a => k a
  | Throw m => Throw m
  end.

(** What an element read yields: a number, or [undefined] when the index is
    outside the array. *)
Inductive value : Type :=
| Num (z : Z)
| Undefined.

(** An integer-valued number that may be [NaN] (the result of [x % 0]). *)
Inductive number : Type :=
| Fin (z : Z)
| NaN.

(** ToInt32 / ToUint32 on integers. *)
Definition toInt32 (x : Z) : Z := (x + 2 ^ 31) mod 2 ^ 32 - 2 ^ 31.
Definition toUint32 (x : Z) : Z := x mod 2 ^ 32.
Definition toUint8 (x : Z) : Z := x mod 2 ^ 8.
Definition toUint16 (x : Z) : Z := x mod 2 ^ 16.

(** The bit operators: operands are converted with ToInt32 first. *)
Definition bitand (a b : Z) : Z := Z.land (toInt32 a) (toInt32 b).
Definition bitor (a b : Z) : Z := Z.lor (toInt32 a) (toInt32 b).
Definition bitxor (a b : Z) : Z := Z.lxor (toInt32 a) (toInt32 b).
Definition bitnot (a : Z) : Z := Z.lnot (toInt32 a).
Definition shl (a n : Z) : Z := toInt32 (Z.shiftl (toInt32 a) (toUint32 n mod 32)).
Definition shr (a n : Z) : Z := Z.shiftr (toInt32 a) (toUint32 n mod 32).
Definition ushr (a n : Z) : Z := Z.shiftr (toUint32 a) (toUint32 n mod 32).

(** [(a / b) | 0] for integers [a] and a non-zero integer [b]:
    the quotient truncated towards zero, then ToInt32. *)
Definition divTrunc (a b : Z) : Z := toInt32 (Z.quot a b).

(** [a % b]: the sign follows the dividend; [NaN] for [b = 0]. *)
Definition rem (a b : Z) : number :=
  if b =? 0 then NaN else Fin (Z.rem a b).

(** Storing a value into a [Uint8Array] cell. *)
Definition storeUint8 (v : value) : Z :=
  match v with
  | Num z => toUint8 z
  | Undefined => 0
  end.

(** Storing a value into a [Uint32Array] cell. *)
Definition storeUint32 (v : value) : Z :=
match v with
| Num z => toUint32 z
| Undefined => 0
end.

(** A value used as an operand of a bit operator ([undefined] counts as 0). *)
Definition asInt (v : value) : Z :=
match v with
| Num z => z
| Undefined => 0
end.

(** Typed arrays are lists of their elements. Reading outside the array
    yields [undefined]; writing outside is ignored. *)
Definition ta_get (a : list Z) (i : Z) : value :=
  if 0 <=? i then
    match a !! Z.to_nat i with
    | Some x => Num x
    | None => Undefined
    end
  else Undefined.

Definition ta_store (a : list Z) (i : Z) (x : Z) : list Z :=
  if 0 <=? i then <[Z.to_nat i := x]> a else a.

Definition ta_set8 (a : list Z) (i : Z) (v : Z) : list Z :=
  ta_store a i (toUint8 v).

(** [a.subarray(b, e)] shares storage with [a]: it is kept as a window
    (offset and length) onto the underlying array. *)
Record View : Type := { v_off : Z; v_len : Z }.

Definition clampIndex (len i : Z) : Z :=
  if i <? 0 then Z.max (len + i) 0 else Z.min i len.

Definition subarray (len b e : Z) : View :=
  let b' := clampIndex len b in
  let e' := clampIndex len e in
  {| v_off := b'; v_len := Z.max (e' - b') 0 |}.

Definition whole (len : Z) : View := {| v_off := 0; v_len := len |}.

Definition view_get (a : list Z) (w : View) (i : Z) : value :=
  if (0 <=? i) && (i <? v_len w) then ta_get a (v_off w + i) else Undefined.

Definition view_set8 (a : list Z) (w : View) (i : Z) (v : Z) : list Z :=
  if (0 <=? i) && (i <? v_len w) then ta_set8 a (v_off w + i) v else a.

(** [a.set(src)] for [src] no longer than [a]; longer sources throw. *)
Definition ta_setAll (a src : list Z) : completion (list Z) :=
  if (length src <=? length a)%nat
  then Normal (src ++ drop (length src) a)
  else Throw "RangeError: offset is out of bounds".

(** Indexing an ordinary array by a possibly-NaN number. *)
Definition arr_get {A} (a : list A) (i : number) : option A :=
  match i with
  | Fin z => if 0 <=? z then a !! Z.to_nat z else None
  | NaN => None
  end.

Definition len {A} (a : list A) : Z := Z.of_nat (length a).

End Js.

(* ===================================================================== *)
(** * The MBC3 cartridge controller (CartridgeMbc3.ts) *)
(* ===================================================================== *)

Module Mbc3.
Import Js.

(** The wall clock of the host: [Date_now k] is what the [k]-th call of
    [Date.now()] returns (milliseconds). *)
Class Host : Type := { Date_now : nat -> Z }.

(** Modelled from the spec: the cartridge kinds of [CartridgeType] (the
    enum is declared in CartridgeBase.ts, which is not part of the
    sources); every kind that is not an MBC3 variant is [other]. *)
Inductive CartridgeType : Type :=
| mbc3
| mbc3_ram
| mbc3_ram_battery
| mbc3_timer_battery
| mbc3_timer_ram_battery
| other.

(** What [CartridgeBase] provides: the image and the three header
    accessors [type()], [size()] and [ramSize()]. *)
Record CartridgeBase : Type := {
  image : list Z;
  type : CartridgeType;
  size : Z;
  ramSize : Z;
}.

Record Rtc : Type := {
  secondsLatched : Z;
  minutesLatched : Z;
  hoursLatched : Z;
  daysLatched : Z;
  secondsCurrent : Z;
  minutesCurrent : Z;
  hoursCurrent : Z;
  daysCurrent : Z;
}.

Record Banks : Type := {
  romBank1 : option View;
  romBankIndex : number;
  romBanks : list View;
  ramBanks : list View;
  ramBankIndex : number;
  ramBank : option View;
}.

Record t : Type := {
  cart : CartridgeBase;
  banks : Banks;
  ram : list Z;
  rtc : Rtc;
  halt : bool;
  ramEnable : bool;
  registerSelect : Z;
  lastLatch : Z;
  referenceTimestamp : Z;
  clockReads : nat;
}.

(** Field updates. *)
Definition with_banks (f : Banks -> Banks) (s : t) : t :=
  {| cart := cart s; banks := f (banks s); ram := ram s; rtc := rtc s;
     halt := halt s; ramEnable := ramEnable s;
     registerSelect := registerSelect s; lastLatch := lastLatch s;
     referenceTimestamp := referenceTimestamp s; clockReads := clockReads s |}.
Definition with_ram (v : list Z) (s : t) : t :=
  {| cart := cart s; banks := banks s; ram := v; rtc := rtc s;
     halt := halt s; ramEnable := ramEnable s;
     registerSelect := registerSelect s; lastLatch := lastLatch s;
     referenceTimestamp := referenceTimestamp s; clockReads := clockReads s |}.
Definition with_rtc (f : Rtc -> Rtc) (s : t) : t :=
  {| cart := cart s; banks := banks s; ram := ram s; rtc := f (rtc s);
     halt := halt s; ramEnable := ramEnable s;
     registerSelect := registerSelect s; lastLatch := lastLatch s;
     referenceTimestamp := referenceTimestamp s; clockReads := clockReads s |}.
Definition with_halt (v : bool) (s : t) : t :=
  {| cart := cart s; banks := banks s; ram := ram s; rtc := rtc s;
     halt := v; ramEnable := ramEnable s;
     registerSelect := registerSelect s; lastLatch := lastLatch s;
     referenceTimestamp := referenceTimestamp s; clockReads := clockReads s |}.
Definition with_ramEnable (v : bool) (s : t) : t :=
  {| cart := cart s; banks := banks s; ram := ram s; rtc := rtc s;
     halt := halt s; ramEnable := v;
     registerSelect := registerSelect s; lastLatch := lastLatch s;
     referenceTimestamp := referenceTimestamp s; clockReads := clockReads s |}.
Definition with_registerSelect (v : Z) (s : t) : t :=
  {| cart := cart s; banks := banks s; ram := ram s; rtc := rtc s;
     halt := halt s; ramEnable := ramEnable s;
     registerSelect := v; lastLatch := lastLatch s;
     referenceTimestamp := referenceTimestamp s; clockReads := clockReads s |}.
Definition with_lastLatch (v : Z) (s : t) : t :=
  {| cart := cart s; banks := banks s; ram := ram s; rtc := rtc s;
     halt := halt s; ramEnable := ramEnable s;
     registerSelect := registerSelect s; lastLatch := v;
     referenceTimestamp := referenceTimestamp s; clockReads := clockReads s |}.
Definition with_referenceTimestamp (v : Z) (s : t) : t :=
  {| cart := cart s; banks := banks s; ram := ram s; rtc := rtc s;
     halt := halt s; ramEnable := ramEnable s;
     registerSelect := registerSelect s; lastLatch := lastLatch s;
     referenceTimestamp := v; clockReads := clockReads s |}.

Definition set_rom (i : number) (b : Banks) : Banks :=
  {| romBank1 := arr_get (romBanks b) i; romBankIndex := i;
     romBanks := romBanks b; ramBanks := ramBanks b;
     ramBankIndex := ramBankIndex b; ramBank := ramBank b |}.
Definition set_ramBank (i : number) (v : option View) (b : Banks) : Banks :=
  {| romBank1 := romBank1 b; romBankIndex := romBankIndex b;
     romBanks := romBanks b; ramBanks := ramBanks b;
     ramBankIndex := i; ramBank := v |}.

Definition set_current (sec min hr day : Z) (r : Rtc) : Rtc :=
  {| secondsLatched := secondsLatched r; minutesLatched := minutesLatched r;
     hoursLatched := hoursLatched r; daysLatched := daysLatched r;
     secondsCurrent := sec; minutesCurrent := min;
     hoursCurrent := hr; daysCurrent := day |}.
Definition set_secondsCurrent (v : Z) (r : Rtc) : Rtc :=
  set_current v (minutesCurrent r) (hoursCurrent r) (daysCurrent r) r.
Definition set_minutesCurrent (v : Z) (r : Rtc) : Rtc :=
  set_current (secondsCurrent r) v (hoursCurrent r) (daysCurrent r) r.
Definition set_hoursCurrent (v : Z) (r : Rtc) : Rtc :=
  set_current (secondsCurrent r) (minutesCurrent r) v (daysCurrent r) r.
Definition set_daysCurrent (v : Z) (r : Rtc) : Rtc :=
  set_current (secondsCurrent r) (minutesCurrent r) (hoursCurrent r) v r.

(** [(Date.now() / 1000) | 0], consuming one reading of the wall clock. *)
Definition nowSeconds `{Host} (s : t) : Z * t :=
  (divTrunc (Date_now (clockReads s)) 1000,
   {| cart := cart s; banks := banks s; ram := ram s; rtc := rtc s;
      halt := halt s; ramEnable := ramEnable s;
      registerSelect := registerSelect s; lastLatch := lastLatch s;
      referenceTimestamp := referenceTimestamp s;
      clockReads := S (clockReads s) |}).

Definition isBattery (ty : CartridgeType) : bool :=
  match ty with
  | mbc3_ram_battery | mbc3_timer_battery | mbc3_timer_ram_battery => true
  | _ => false
  end.

(** The windows of [n] consecutive banks of [bank] bytes over an array of
    [total] bytes. *)
Definition bankViews (total bank : Z) (n : nat) : list View :=
  map (fun i : nat => subarray total (Z.of_nat i * bank) ((Z.of_nat i + 1) * bank))
      (seq 0 n).

Definition constructor `{Host} (c : CartridgeBase) (reads : nat) : completion t :=
  let romSize := size c in
  let ramSize := ramSize c in
  if negb (Z.rem romSize 0x4000 =? 0) || (2 * 1024 * 1024 <? romSize)
     || (romSize <? 2 * 0x4000)
  then Throw "invalid ROM size; not a MBC3 image"
  else if negb (Z.rem ramSize 0x2000 =? 0)
  then Throw "invalid RAM size; not a MBC3 image"
  else if ramSize <? 0
  then Throw "RangeError: Invalid typed array length"
  else
    let ram := replicate (Z.to_nat ramSize) 0 in
    let romBanks := bankViews (len (image c)) 0x4000
                      (Z.to_nat (divTrunc romSize 0x4000)) in
    let ramBanks := bankViews ramSize 0x2000
                      (Z.to_nat (divTrunc ramSize 0x2000)) in
    (* the field initialiser reads the clock before the constructor body *)
    let ref := divTrunc (Date_now reads) 1000 in
    Normal
      {| cart := c;
         banks :=
           {| romBank1 := arr_get romBanks (Fin 1); romBankIndex := Fin 1;
              romBanks := romBanks; ramBanks := ramBanks;
              ramBankIndex := Fin 0;
              ramBank := if 0 <? ramSize then arr_get ramBanks (Fin 0)
                         else Some (whole 0) |};
         ram := ram;
         rtc := {| secondsLatched := 0; minutesLatched := 0;
                   hoursLatched := 0; daysLatched := 0;
                   secondsCurrent := 0; minutesCurrent := 0;
                   hoursCurrent := 0; daysCurrent := 0 |};
         halt := false; ramEnable := false; registerSelect := 0;
         lastLatch := 0xff; referenceTimestamp := ref;
         clockReads := S reads |}.

Definition materializeClock `{Host} (s : t) : t :=
  let '(now, s) := nowSeconds s in
  let time := now - referenceTimestamp s in
  let time := if time <? 0 then 0 else time in
  let days := divTrunc time (24 * 3600) in
  let time := time - days * 24 * 3600 in
  let hours := divTrunc time 3600 in
  let time := time - days * 3600 in
  let minutes := divTrunc time 60 in
  let time := time - minutes * 60 in
  with_rtc (set_current time minutes hours days) s.

Definition latch `{Host} (s : t) : t :=
  let s := materializeClock s in
  with_rtc (fun r => set_current (secondsLatched r) (minutesLatched r)
                                 (hoursLatched r) (daysLatched r) r) s.

Definition updateClock `{Host} (s : t) : t :=
  let r := rtc s in
  let time := bitand (daysCurrent r) 0x01ff * 24 * 3600
              + Z.rem (hoursCurrent r) 24 * 3600
              + Z.rem (minutesCurrent r) 60 * 60
              + Z.rem (secondsCurrent r) 60 in
  let '(now, s) := nowSeconds s in
  with_referenceTimestamp (now - time) s.

Definition reset `{Host} (savedRam : option (list Z)) (s : t) : completion t :=
let s := with_banks (set_rom (Fin 0x01)) s in
let s := with_banks
           (fun b => set_ramBank (Fin 0x00)
                       (if 0 <? len (ram s) then arr_get (ramBanks b) (Fin 0x00)
                        else Some (whole (len (ram s)))) b) s in
let s := with_halt false s in
let s := with_lastLatch 0xff s in
let s := with_ramEnable false s in
let s := with_registerSelect 0 s in
let s := with_lastLatch 0xff s in
bind
  (if isBattery (type (cart s)) then
     let saveSize := len (ram s) + 4 in
     match savedRam with
     | Some saved =>
         if len saved =? saveSize then
           let n := len (ram s) in
           bind
             (if 0 <? n
              then bind (ta_setAll (ram s) (take (Z.to_nat n) saved))
                        (fun r => Normal (with_ram r s))
              else Normal s)
             (fun s =>
                Normal
                  (with_referenceTimestamp
                     (bitor
                        (bitor
                           (bitor (asInt (ta_get saved n))
                                  (shl (asInt (ta_get saved (n + 1))) 8))
                           (shl (asInt (ta_get saved (n + 2))) 16))
                        (shl (asInt (ta_get saved (n + 3))) 24))
                     s))
         else Normal s
     | None => Normal s
     end
   else
     let s := with_ram (replicate (length (ram s)) 0) s in
     let '(now, s) := nowSeconds s in
     Normal (with_referenceTimestamp now s))
  (fun s => Normal (latch s)).

Definition clearRam `{Host} (s : t) : t :=
let s := with_ram (replicate (length (ram s)) 0) s in
let '(now, s) := nowSeconds s in
with_referenceTimestamp now s.

Definition getRam (s : t) : option (list Z) :=
if isBattery (type (cart s)) then
  let n := len (ram s) in
  let save := replicate (length (ram s) + 4) 0 in
  let save := ram s ++ drop (length (ram s)) save in
  let save := ta_set8 save n (referenceTimestamp s) in
  let save := ta_set8 save (n + 1) (ushr (referenceTimestamp s) 8) in
  let save := ta_set8 save (n + 2) (ushr (referenceTimestamp s) 16) in
  let save := ta_set8 save (n + 3) (ushr (referenceTimestamp s) 24) in
  Some save
else None.

Definition readRegister (register : Z) (s : t) : Z :=
let r := rtc s in
if register =? 0x08 then secondsLatched r
else if register =? 0x09 then minutesLatched r
else if register =? 0x0a then hoursLatched r
else if register =? 0x0b then bitand (daysLatched r) 0xff
else if register =? 0x0c then
  bitor (bitor (ushr (bitand (daysLatched r) 0x0100) 8)
               (if halt s then 0x40 else 0))
        (if 0x01ff <? daysLatched r then 0x80 else 0)
else 0x00.

(** The shape shared by the five cases of [writeRegister]:
    materialise unless halted, change the state, update unless halted
    (the halt flag is re-read after the change). *)
Definition writeField `{Host} (change : t -> t) (s : t) : t :=
let s := if halt s then s else materializeClock s in
let s := change s in
if halt s then s else updateClock s.

Definition writeRegister `{Host} (register value : Z) (s : t) : t :=
if register =? 0x08 then
  writeField (with_rtc (set_secondsCurrent (bitand value 60))) s
else if register =? 0x09 then
  writeField (with_rtc (set_minutesCurrent (bitand value 60))) s
else if register =? 0x0a then
  writeField (with_rtc (set_hoursCurrent (bitand value 24))) s
else if register =? 0x0b then
  writeField
    (with_rtc (fun r => set_daysCurrent
                          (bitor (bitand (daysCurrent r) (bitnot 0xff)) value) r)) s
else if register =? 0x0c then
  writeField
    (fun s =>
       let s := with_halt (negb (bitand value 0x40 =? 0)) s in
       with_rtc (fun r => set_daysCurrent
                            (bitor (bitand (daysCurrent r) 0xff)
                                   (shl (bitand value 0x01) 8)) r) s) s
else s.

(** The save format in the spec's words: the RAM bytes, then the reference
    timestamp as 32 bits, little-endian. *)
Definition le32 (x : Z) : list Z :=
[x mod 256; (x / 2 ^ 8) mod 256; (x / 2 ^ 16) mod 256; (x / 2 ^ 24) mod 256].

Definition saveFormat (s : t) : list Z := ram s ++ le32 (referenceTimestamp s).

(** The four latched fields, which [readRegister] reports. *)
Definition latched (s : t) : Z * Z * Z * Z :=
(secondsLatched (rtc s), minutesLatched (rtc s), hoursLatched (rtc s), daysLatched (rtc s)).

(** ** Bus handlers *)

Definition readBank0 (address : Z) (s : t) : value :=
ta_get (image (cart s)) address.

Definition readBank1 (address : Z) (s : t) : completion value :=
match romBank1 (banks s) with
| Some w => Normal (view_get (image (cart s)) w (bitand address 0x3fff))
| None => Throw "TypeError: cannot read properties of undefined"
end.

Definition readBankRam (address : Z) (s : t) : completion value :=
if negb (ramEnable s) then Normal (Num 0xff)
else if 0 <? registerSelect s then Normal (Num (readRegister (registerSelect s) s))
else match ramBank (banks s) with
     | Some w => Normal (view_get (ram s) w (address - 0xa000))
     | None => Throw "TypeError: cannot read properties of undefined"
     end.

Definition writeRamEnable (_ value : Z) (s : t) : t :=
with_ramEnable ((value =? 0x0a) && (0 <? len (ram s))) s.

Definition writeRomBankIndex (_ value : Z) (s : t) : t :=
with_banks
  (fun b => set_rom (if value =? 0x00 then Fin 0x01
                     else rem value (len (romBanks b))) b) s.

Definition writeRamBankIndex (_ value : Z) (s : t) : t :=
if value <=? 0x03 then
  let s := with_banks
             (fun b => let i := rem value (len (ramBanks b)) in
                       set_ramBank i (arr_get (ramBanks b) i) b) s in
  with_registerSelect 0 s
else with_registerSelect value s.

Definition writeLatch `{Host} (_ value : Z) (s : t) : t :=
let s := if (value =? 0x01) && (lastLatch s =? 0x00) then latch s else s in
with_lastLatch value s.

Definition writeBankRam `{Host} (address value : Z) (s : t) : completion t :=
if negb (ramEnable s) then Normal s
else if 0 <? registerSelect s then Normal (writeRegister (registerSelect s) value s)
else match ramBank (banks s) with
     | Some w => Normal (with_ram (view_set8 (ram s) w (address - 0xa000) value) s)
     | None => Throw "TypeError: cannot set properties of undefined"
     end.

(** [install]: which handler pair serves an address of the cartridge. *)
Inductive Region : Type :=
| RamEnableRegion      (* 0x0000..0x1fff: readBank0 / writeRamEnable *)
| RomBankIndexRegion   (* 0x2000..0x3fff: readBank0 / writeRomBankIndex *)
| RamBankIndexRegion   (* 0x4000..0x5fff: readBank1 / writeRamBankIndex *)
| LatchRegion          (* 0x6000..0x7fff: readBank1 / writeLatch *)
| BankRamRegion.       (* 0xa000..0xbfff: readBankRam / writeBankRam *)

Definition install (address : Z) : option Region :=
if (0x0000 <=? address) && (address <? 0x2000) then Some RamEnableRegion
else if (0x2000 <=? address) && (address <? 0x4000) then Some RomBankIndexRegion
else if (0x4000 <=? address) && (address <? 0x6000) then Some RamBankIndexRegion
else if (0x6000 <=? address) && (address <? 0x8000) then Some LatchRegion
else if (0xa000 <=? address) && (address <? 0xc000) then Some BankRamRegion
else None.

Definition busRead (address : Z) (s : t) : option (completion value) :=
match install address with
| Some RamEnableRegion | Some RomBankIndexRegion => Some (Normal (readBank0 address s))
| Some RamBankIndexRegion | Some LatchRegion => Some (readBank1 address s)
| Some BankRamRegion => Some (readBankRam address s)
| None => None
end.

Definition busWrite `{Host} (address value : Z) (s : t) : option (completion t) :=
match install address with
| Some RamEnableRegion => Some (Normal (writeRamEnable address value s))
| Some RomBankIndexRegion => Some (Normal (writeRomBankIndex address value s))
| Some RamBankIndexRegion => Some (Normal (writeRamBankIndex address value s))
| Some LatchRegion => Some (Normal (writeLatch address value s))
| Some BankRamRegion => Some (writeBankRam address value s)
| None => None
end.

End Mbc3.

(* ===================================================================== *)
(** * The PPU: mode state machine, bus handlers, OAM DMA *)
(* ===================================================================== *)

Module Ppu.
Import Js.

(** The indices of the register file ([const enum reg], without [base]). *)
Inductive reg : Type :=
| lcdc | stat | scy | scx | ly | lyc | dma | bgp | obp0 | obp1 | wy | wx.

Definition reg_base : Z := 0xff40.

Definition reg_index (r : reg) : Z :=
match r with
| lcdc => 0x00 | stat => 0x01 | scy => 0x02 | scx => 0x03
| ly => 0x04 | lyc => 0x05 | dma => 0x06 | bgp => 0x07
| obp0 => 0x08 | obp1 => 0x09 | wy => 0x0a | wx => 0x0b
end.

Definition reg_of_index (i : Z) : option reg :=
if i =? 0x00 then Some lcdc else if i =? 0x01 then Some stat
else if i =? 0x02 then Some scy else if i =? 0x03 then Some scx
else if i =? 0x04 then Some ly else if i =? 0x05 then Some lyc
else if i =? 0x06 then Some dma else if i =? 0x07 then Some bgp
else if i =? 0x08 then Some obp0 else if i =? 0x09 then Some obp1
else if i =? 0x0a then Some wy else if i =? 0x0b then Some wx
else None.

Inductive ppuMode : Type :=
| hblank | vblank | oamScan | draw.

Definition ppuMode_value (m : ppuMode) : Z :=
match m with
| hblank => 0 | vblank => 1 | oamScan => 2 | draw => 3
end.

Definition ppuMode_eqb (a b : ppuMode) : bool :=
ppuMode_value a =? ppuMode_value b.

(** [const enum lcdc] and [const enum stat]. *)
Definition lcdc_enable : Z := 0x80.
Definition lcdc_bgTileDataArea : Z := 0x10.
Definition lcdc_bgTileMapArea : Z := 0x08.
Definition stat_sourceLY : Z := 0x40.
Definition stat_sourceModeOAM : Z := 0x20.
Definition stat_sourceModeVblank : Z := 0x10.
Definition stat_sourceModeHblank : Z := 0x08.

(** Modelled from the spec: the interrupt kinds of interrupt.ts (not part of
    the sources), with the bit each one owns in IE and IF. *)
Inductive irq : Type :=
| irq_vblank | irq_stat | irq_timer | irq_serial | irq_joypad.

Definition irq_eqb (a b : irq) : bool :=
match a, b with
| irq_vblank, irq_vblank | irq_stat, irq_stat | irq_timer, irq_timer
| irq_serial, irq_serial | irq_joypad, irq_joypad => true
| _, _ => false
end.

(** The colours of palette.ts (not part of the sources). *)
Class Palette : Type := { PALETTE_CLASSIC : list Z }.

(** The register file is a [Uint8Array] of fixed length 12: a total map
    from the twelve indices. *)
Definition Registers : Type := reg -> Z.

Definition reg_set (r : reg) (v : Z) (f : Registers) : Registers :=
fun r' => if reg_index r' =? reg_index r then toUint8 v else f r'.

Record Timing : Type := {
  mode : ppuMode;
  clockInMode : Z;
  scanline : Z;
}.

Record Video : Type := {
  frame : Z;
  skipFrame : bool;
  paletteBG : list Z;
  frontBuffer : list Z;
  backBuffer : list Z;
}.

Record t : Type := {
  timing : Timing;
  video : Video;
  vram : list Z;
  oam : list Z;
  stat_line : bool;          (* the field [stat] *)
  dmaInProgress : bool;
  dmaCycle : Z;
  regs : Registers;          (* the field [reg] *)
}.

Definition with_timing (v : Timing) (s : t) : t :=
{| timing := v; video := video s; vram := vram s; oam := oam s;
   stat_line := stat_line s; dmaInProgress := dmaInProgress s;
   dmaCycle := dmaCycle s; regs := regs s |}.
Definition with_video (v : Video) (s : t) : t :=
{| timing := timing s; video := v; vram := vram s; oam := oam s;
   stat_line := stat_line s; dmaInProgress := dmaInProgress s;
   dmaCycle := dmaCycle s; regs := regs s |}.
Definition with_vram (v : list Z) (s : t) : t :=
{| timing := timing s; video := video s; vram := v; oam := oam s;
   stat_line := stat_line s; dmaInProgress := dmaInProgress s;
   dmaCycle := dmaCycle s; regs := regs s |}.
Definition with_oam (v : list Z) (s : t) : t :=
{| timing := timing s; video := video s; vram := vram s; oam := v;
   stat_line := stat_line s; dmaInProgress := dmaInProgress s;
   dmaCycle := dmaCycle s; regs := regs s |}.
Definition with_stat_line (v : bool) (s : t) : t :=
{| timing := timing s; video := video s; vram := vram s; oam := oam s;
   stat_line := v; dmaInProgress := dmaInProgress s;
   dmaCycle := dmaCycle s; regs := regs s |}.
Definition with_dma (inProgress : bool) (cycle : Z) (s : t) : t :=
{| timing := timing s; video := video s; vram := vram s; oam := oam s;
   stat_line := stat_line s; dmaInProgress := inProgress;
   dmaCycle := cycle; regs := regs s |}.
Definition with_regs (v : Registers) (s : t) : t :=
{| timing := timing s; video := video s; vram := vram s; oam := oam s;
   stat_line := stat_line s; dmaInProgress := dmaInProgress s;
   dmaCycle := dmaCycle s; regs := v |}.

Definition with_backBuffer (b : list Z) (v : Video) : Video :=
{| frame := frame v; skipFrame := skipFrame v; paletteBG := paletteBG v;
   frontBuffer := frontBuffer v; backBuffer := b |}.
Definition with_skipFrame (b : bool) (v : Video) : Video :=
{| frame := frame v; skipFrame := b; paletteBG := paletteBG v;
   frontBuffer := frontBuffer v; backBuffer := backBuffer v |}.
Definition with_paletteBG (p : list Z) (v : Video) : Video :=
{| frame := frame v; skipFrame := skipFrame v; paletteBG := p;
   frontBuffer := frontBuffer v; backBuffer := backBuffer v |}.

(** ** The world a PPU lives in

    Besides the PPU itself: the lock of the bus, the interrupts raised so
    far (most recent first), and the state [E] of whatever else is mapped
    on the bus. *)
Class Devices (E : Type) : Type := { ext_read : Z -> E -> value * E }.

Record World (E : Type) : Type := {
  ppu : t;
  busLocked : bool;
  raised : list irq;
  ext : E;
}.
Arguments ppu {E} _.
Arguments busLocked {E} _.
Arguments raised {E} _.
Arguments ext {E} _.

Definition with_ppu {E} (f : t -> t) (w : World E) : World E :=
{| ppu := f (ppu w); busLocked := busLocked w; raised := raised w; ext := ext w |}.
Definition with_ext {E} (e : E) (w : World E) : World E :=
{| ppu := ppu w; busLocked := busLocked w; raised := raised w; ext := e |}.

(** [interrupt.raise], [bus.lock], [bus.unlock]. *)
Definition interrupt_raise {E} (i : irq) (w : World E) : World E :=
{| ppu := ppu w; busLocked := busLocked w; raised := i :: raised w; ext := ext w |}.
Definition bus_lock {E} (w : World E) : World E :=
{| ppu := ppu w; busLocked := true; raised := raised w; ext := ext w |}.
Definition bus_unlock {E} (w : World E) : World E :=
{| ppu := ppu w; busLocked := false; raised := raised w; ext := ext w |}.

Definition lcdEnabled (s : t) : bool :=
negb (bitand (regs s lcdc) lcdc_enable =? 0).

(** ** Rendering *)

(** [vram16]: the 16-bit view of the VRAM buffer (little-endian host, as the
    source assumes). *)
Definition vram16 (s : t) (k : Z) : value :=
match ta_get (vram s) (2 * k), ta_get (vram s) (2 * k + 1) with
| Num lo, Num hi => Num (Z.lor lo (Z.shiftl hi 8))
| _, _ => Undefined
end.

Definition backgroundTileData (nx ny y : Z) (s : t) : value :=
let tileMapBase :=
  if negb (bitand (regs s lcdc) lcdc_bgTileMapArea =? 0) then 0x1c00 else 0x1800 in
match ta_get (vram s) (tileMapBase + Z.rem ny 32 * 32 + Z.rem nx 32) with
| Undefined => Undefined
| Num index =>
    if 0x80 <=? index then vram16 s (0x0400 + 8 * (index - 0x80) + y)
    else
      let tildeDataBase :=
        if negb (bitand (regs s lcdc) lcdc_bgTileDataArea =? 0) then 0x0000 else 0x800 in
      vram16 s (tildeDataBase + 8 * index + y)
end.

(** The loop variables of [renderLine]. *)
Record LineState : Type := {
  bgTileData : value;
  bgTileX : Z;
  bgTileNX : Z;
  pixelAddress : Z;
  pixels : list Z;
}.

Definition renderPixel (bgTileNY bgTileY : Z) (s : t) (l : LineState) : LineState :=
let d := asInt (bgTileData l) in
let indexedBG := bitor (ushr (bitand d 0x8000) 14) (ushr (bitand d 0x80) 7) in
let pixels := ta_store (pixels l) (pixelAddress l)
                (storeUint32 (ta_get (paletteBG (video s)) indexedBG)) in
if bgTileX l =? 7 then
  {| bgTileData := backgroundTileData (bgTileNX l + 1) bgTileNY bgTileY s;
     bgTileX := 0; bgTileNX := bgTileNX l + 1;
     pixelAddress := pixelAddress l + 1; pixels := pixels |}
else
  {| bgTileData := Num (shl d 1);
     bgTileX := bgTileX l + 1; bgTileNX := bgTileNX l;
     pixelAddress := pixelAddress l + 1; pixels := pixels |}.

Definition renderLine (s : t) : t :=
let backgroundX := regs s scx in
let backgroundY := regs s scy + scanline (timing s) in
let bgTileNY := divTrunc backgroundY 8 in
let bgTileY := Z.rem backgroundY 8 in
let bgTileX := Z.rem backgroundX 8 in
let bgTileNX := divTrunc backgroundX 8 in
let l0 :=
  {| bgTileData := Num (shl (asInt (backgroundTileData bgTileNX bgTileNY bgTileY s)) bgTileX);
     bgTileX := bgTileX; bgTileNX := bgTileNX;
     pixelAddress := 160 * scanline (timing s);
     pixels := backBuffer (video s) |} in
let l := Nat.iter 160 (renderPixel bgTileNY bgTileY s) l0 in
with_video (with_backBuffer (pixels l) (video s)) s.

Definition swapBuffers (s : t) : t :=
let v := video s in
with_video
  {| frame := toInt32 (frame v + 1); skipFrame := skipFrame v;
     paletteBG := paletteBG v;
     frontBuffer := backBuffer v; backBuffer := frontBuffer v |} s.

(** ** The mode state machine *)

Definition set_timing (m : ppuMode) (c ly : Z) (s : t) : t :=
with_timing {| mode := m; clockInMode := c; scanline := ly |} s.

Definition consumeClocks {E} (clocks : Z) (w : World E) : Z * World E :=
let s := ppu w in
let tm := timing s in
match mode tm with
| oamScan =>
    if 80 <=? clocks + clockInMode tm then
      let consumed := 80 - clockInMode tm in
      (consumed, with_ppu (set_timing draw 0 (scanline tm)) w)
    else (clocks, with_ppu (set_timing oamScan (clockInMode tm + clocks) (scanline tm)) w)
| draw =>
    if 172 <=? clocks + clockInMode tm then
      let consumed := 172 - clockInMode tm in
      (consumed, with_ppu (fun s => renderLine (set_timing hblank 0 (scanline tm) s)) w)
    else (clocks, with_ppu (set_timing draw (clockInMode tm + clocks) (scanline tm)) w)
| hblank =>
    if 204 <=? clocks + clockInMode tm then
      let consumed := 204 - clockInMode tm in
      let ly := scanline tm + 1 in
      if ly =? 144 then
        (consumed, interrupt_raise irq_vblank (with_ppu (set_timing vblank 0 ly) w))
      else (consumed, with_ppu (set_timing oamScan 0 ly) w)
    else (clocks, with_ppu (set_timing hblank (clockInMode tm + clocks) (scanline tm)) w)
| vblank =>
    if 4560 <=? clocks + clockInMode tm then
      let consumed := 4560 - clockInMode tm in
      (consumed,
       with_ppu
         (fun s =>
            let s := set_timing oamScan 0 0 s in
            let s := if negb (skipFrame (video s)) then swapBuffers s else s in
            with_video (with_skipFrame false (video s)) s) w)
    else
      let c := clockInMode tm + clocks in
      (clocks, with_ppu (set_timing vblank c (144 + divTrunc c 456)) w)
end.

Definition updateStat {E} (w : World E) : World E :=
let s := ppu w in
let oldStat := stat_line s in
let statval := regs s stat in
let line :=
  lcdEnabled s &&
  ((negb (bitand statval stat_sourceLY =? 0) && (scanline (timing s) =? regs s lyc))
   || (negb (bitand statval stat_sourceModeOAM =? 0) && ppuMode_eqb (mode (timing s)) oamScan)
   || (negb (bitand statval stat_sourceModeVblank =? 0) && ppuMode_eqb (mode (timing s)) vblank)
   || (negb (bitand statval stat_sourceModeHblank =? 0) && ppuMode_eqb (mode (timing s)) hblank)) in
let w := with_ppu (with_stat_line line) w in
if line && negb oldStat && lcdEnabled s then interrupt_raise irq_stat w else w.

(** ** Read handlers *)

Definition vramRead (address : Z) (s : t) : value :=
if negb (lcdEnabled s) || negb (ppuMode_eqb (mode (timing s)) draw)
then ta_get (vram s) (bitand address 0x1fff)
else Num 0xff.

Definition oamRead (address : Z) (s : t) : value :=
if negb (lcdEnabled s)
   || (negb (ppuMode_eqb (mode (timing s)) draw)
       && negb (ppuMode_eqb (mode (timing s)) oamScan))
then ta_get (oam s) (bitand address 0xff)
else Num 0xff.

Definition registerRead (address : Z) (s : t) : value :=
match reg_of_index (address - reg_base) with
| Some r => Num (regs s r)
| None => Undefined
end.

Definition statRead (_ : Z) (s : t) : value :=
Num (bitor (bitor (bitand (regs s stat) 0xf8)
                  (if regs s lyc =? scanline (timing s) then 0x04 else 0))
           (ppuMode_value (mode (timing s)))).

Definition lyRead (_ : Z) (s : t) : value := Num (scanline (timing s)).

(** [install]: the read handler the PPU maps on an address, if any. The
    later [bus.map] calls for LY and STAT replace [registerRead] there. *)
Definition installedRead (address : Z) : option (Z -> t -> value) :=
if (0x8000 <=? address) && (address <? 0xa000) then Some vramRead
else if (0xfe00 <=? address) && (address <? 0xfea0) then Some oamRead
else if address =? reg_base + reg_index ly then Some lyRead
else if address =? reg_base + reg_index stat then Some statRead
else if (reg_base <=? address) && (address <=? reg_base + reg_index wx) then Some registerRead
else None.

(** Modelled from the spec: [bus.read] (bus.ts carries no [read] in the
    sources) dispatches to the pair installed for the address: one of the
    PPU's own handlers above, or else a handler of another device. The
    reads of the PPU itself are not subject to the bus lock. *)
Definition bus_read {E} `{Devices E} (address : Z) (w : World E) : value * World E :=
match installedRead address with
| Some h => (h address (ppu w), w)
| None => let '(v, e) := ext_read address (ext w) in (v, with_ext e w)
end.

(** ** OAM DMA *)

Definition dmaBase (s : t) : Z := shl (Z.rem (regs s dma) 0xe0) 8.

(** [for (let i = ...; i < 160; i++) this.oam[i] = this.bus.read(base + i)],
    with [n] iterations left. *)
Fixpoint dmaCopy {E} `{Devices E} (n : nat) (i base : Z) (w : World E) : World E :=
match n with
| O => w
| S n' =>
    let '(v, w) := bus_read (base + i) w in
    let w := with_ppu (fun s => with_oam (ta_store (oam s) i (storeUint8 v)) s) w in
    dmaCopy n' (i + 1) base w
end.

Definition executeDma {E} `{Devices E} (w : World E) : World E :=
let w := bus_unlock w in
let w := with_ppu (with_dma false 0) w in
dmaCopy 160 0 (dmaBase (ppu w)) w.

(** ** [cycle] *)

(** The body of the first loop of [cycle], apart from [systemClocks--]. *)
Definition dmaTick {E} `{Devices E} (w : World E) : World E :=
let w := with_ppu (fun s => with_dma (dmaInProgress s) (dmaCycle s + 1) s) w in
let w := if 640 <? dmaCycle (ppu w) then executeDma w else w in
if lcdEnabled (ppu w) then snd (consumeClocks 1 w) else w.

(** The first loop of [cycle]. Every iteration takes one clock off
    [systemClocks], so [n = systemClocks] iterations always suffice. *)
Fixpoint dmaLoop {E} `{Devices E} (n : nat) (systemClocks : Z) (w : World E)
  : Z * World E :=
match n with
| O => (systemClocks, w)
| S n' =>
    if dmaInProgress (ppu w) && (0 <? systemClocks)
    then dmaLoop n' (systemClocks - 1) (dmaTick w)
    else (systemClocks, w)
end.

(** The second loop of [cycle]; [None] when [fuel] iterations were not
    enough to use up [systemClocks]. *)
Fixpoint modeLoop {E} (fuel : nat) (systemClocks : Z) (w : World E)
  : option (World E) :=
if 0 <? systemClocks then
  match fuel with
  | O => None
  | S fuel' =>
      let '(consumed, w) := consumeClocks systemClocks w in
      modeLoop fuel' (systemClocks - consumed) (updateStat w)
  end
else Some w.

Definition cycle {E} `{Devices E} (fuel : nat) (systemClocks : Z) (w : World E)
  : option (World E) :=
let '(systemClocks, w) := dmaLoop (Z.to_nat systemClocks) systemClocks w in
if negb (lcdEnabled (ppu w)) then Some w
else modeLoop fuel systemClocks w.

(** ** Write handlers *)

Definition stubWrite {E} (_ _ : Z) (w : World E) : World E := w.

Definition vramWrite (address value : Z) (s : t) : t :=
if negb (lcdEnabled s) || negb (ppuMode_eqb (mode (timing s)) draw)
then with_vram (ta_set8 (vram s) (bitand address 0x1fff) value) s
else s.

Definition oamWrite (address value : Z) (s : t) : t :=
if negb (lcdEnabled s)
   || (negb (ppuMode_eqb (mode (timing s)) draw)
       && negb (ppuMode_eqb (mode (timing s)) oamScan))
then with_oam (ta_set8 (oam s) (bitand address 0xff) value) s
else s.

Definition registerWrite {E} (address value : Z) (w : World E) : World E :=
let w :=
  match reg_of_index (address - reg_base) with
  | Some r => with_ppu (fun s => with_regs (reg_set r value (regs s)) s) w
  | None => w
  end in
updateStat w.

Definition dmaWrite {E} (_ value : Z) (w : World E) : World E :=
let w := with_ppu (fun s => with_regs (reg_set dma value (regs s)) s) w in
let w := with_ppu (with_dma true 0) w in
bus_lock w.

Definition bgpWrite `{Palette} (_ value : Z) (s : t) : t :=
let value := bitand value 0xff in
let s := with_regs (reg_set bgp value (regs s)) s in
let entry (i : Z) (p : list Z) : list Z :=
  ta_store p i (storeUint32 (ta_get PALETTE_CLASSIC (bitand (shr value (2 * i)) 0x03))) in
with_video (with_paletteBG (entry 3 (entry 2 (entry 1 (entry 0 (paletteBG (video s)))))) (video s)) s.

Definition lcdcWrite `{Palette} (_ value : Z) (s : t) : t :=
let oldValue := regs s lcdc in
let s := with_regs (reg_set lcdc value (regs s)) s in
let s :=
  if negb (bitand (bitand (bitnot oldValue) (regs s lcdc)) lcdc_enable =? 0)
  then with_video (with_skipFrame true (video s)) s else s in
if negb (bitand (bitand oldValue (bitnot (regs s lcdc))) lcdc_enable =? 0) then
  let fill := replicate (length (backBuffer (video s)))
                (storeUint32 (ta_get PALETTE_CLASSIC 4)) in
  swapBuffers (with_video (with_backBuffer fill (video s)) s)
else s.

(** [install]: the write handler the PPU maps on an address, if any (the
    handlers of LCDC, LY, DMA and BGP replace [registerWrite] there). *)
Definition installedWrite {E} `{Palette} (address : Z)
  : option (Z -> Z -> World E -> World E) :=
if (0x8000 <=? address) && (address <? 0xa000)
then Some (fun a v => with_ppu (vramWrite a v))
else if (0xfe00 <=? address) && (address <? 0xfea0)
then Some (fun a v => with_ppu (oamWrite a v))
else if address =? reg_base + reg_index lcdc then Some (fun a v => with_ppu (lcdcWrite a v))
else if address =? reg_base + reg_index ly then Some stubWrite
else if address =? reg_base + reg_index dma then Some dmaWrite
else if address =? reg_base + reg_index bgp then Some (fun a v => with_ppu (bgpWrite a v))
else if (reg_base <=? address) && (address <=? reg_base + reg_index wx) then Some registerWrite
else None.

(** ** Construction and reset *)

Definition create `{Palette} : t :=
{| timing := {| mode := oamScan; clockInMode := 0; scanline := 0 |};
   video := {| frame := 0; skipFrame := false; paletteBG := PALETTE_CLASSIC;
               frontBuffer := replicate (160 * 144) 0;
               backBuffer := replicate (160 * 144) 0 |};
   vram := replicate 0x2000 0;
   oam := replicate 0xa0 0;
   stat_line := false;
   dmaInProgress := false;
   dmaCycle := 0;
   regs := fun _ => 0 |}.

Definition reset `{Palette} (s : t) : completion t :=
bind (ta_setAll (paletteBG (video s)) (take 4 PALETTE_CLASSIC))
  (fun palette =>
     let fill := storeUint32 (ta_get PALETTE_CLASSIC 4) in
     Normal
       {| timing := {| mode := oamScan; clockInMode := 0; scanline := 0 |};
          video := {| frame := 0; skipFrame := false; paletteBG := palette;
                      frontBuffer := replicate (length (frontBuffer (video s))) fill;
                      backBuffer := replicate (length (backBuffer (video s))) fill |};
          vram := replicate (length (vram s)) 0;
          oam := replicate (length (oam s)) 0;
          stat_line := false;
          dmaInProgress := false;
          dmaCycle := 0;
          regs := reg_set lcdc lcdc_enable (fun _ => 0) |}).

(** ** The frame in the spec's words

    One scanline is 456 clocks: OAM-scan 80, Draw 172, HBlank 204. After
    the HBlank of scanline 143 comes VBlank for 10 x 456 = 4560 clocks, LY
    counting 144..153; the frame then restarts at LY = 0 in OAM-scan. *)

Definition scanlineClocks : Z := 80 + 172 + 204.
Definition vblankStart : Z := 144 * scanlineClocks.
Definition frameClocks : Z := vblankStart + 4560.

(** Mode, clock in mode and LY at clock [t] of a frame, [0 <= t < frameClocks]. *)
Definition timingAt (t : Z) : Timing :=
if t <? vblankStart then
  let x := t mod scanlineClocks in
  let ly := t / scanlineClocks in
  if x <? 80 then {| mode := oamScan; clockInMode := x; scanline := ly |}
  else if x <? 80 + 172 then {| mode := draw; clockInMode := x - 80; scanline := ly |}
  else {| mode := hblank; clockInMode := x - (80 + 172); scanline := ly |}
else {| mode := vblank; clockInMode := t - vblankStart; scanline := t / scanlineClocks |}.

(** How often VBlank is entered while the clock goes from [t] to [t + n]:
    the number of [k] with [t < vblankStart + k * frameClocks <= t + n]. *)
Definition vblankEntries (t n : Z) : Z :=
(t + n + 4560) / frameClocks - (t + 4560) / frameClocks.

(** The clock of the frame a state of the machine stands at. *)
Definition position (tm : Timing) : Z :=
match mode tm with
| oamScan => scanline tm * scanlineClocks + clockInMode tm
| draw => scanline tm * scanlineClocks + 80 + clockInMode tm
| hblank => scanline tm * scanlineClocks + (80 + 172) + clockInMode tm
| vblank => vblankStart + clockInMode tm
end.

(** The states the machine can be in between two calls of [cycle]. *)
Definition wfTiming (tm : Timing) : Prop :=
match mode tm with
| oamScan => 0 <= clockInMode tm < 80 /\ 0 <= scanline tm < 144
| draw => 0 <= clockInMode tm < 172 /\ 0 <= scanline tm < 144
| hblank => 0 <= clockInMode tm < 204 /\ 0 <= scanline tm < 144
| vblank => 0 <= clockInMode tm < 4560
            /\ scanline tm = 144 + clockInMode tm / scanlineClocks
end.

(** What the mode machine leaves alone: registers, memories, the state of
    a transfer, the bus lock and the other devices. *)
Definition outsideMachine {E} (w : World E)
  : Registers * list Z * list Z * bool * Z * bool * E :=
(regs (ppu w), vram (ppu w), oam (ppu w), dmaInProgress (ppu w), dmaCycle (ppu w),
 busLocked w, ext w).

(** What a transfer leaves alone, and what a bus read below the OAM can
    depend on. *)
Definition outsideDma {E} (w : World E) : Timing * Video * list Z * bool * Registers * list irq :=
(timing (ppu w), video (ppu w), vram (ppu w), stat_line (ppu w), regs (ppu w), raised w).

Definition readView {E} (w : World E) : Timing * Registers * list Z * E :=
(timing (ppu w), regs (ppu w), vram (ppu w), ext w).

(** The vblank interrupts among the raised ones. *)
Definition vblankCount (l : list irq) : Z :=
Z.of_nat (length (filter (fun i => irq_eqb i irq_vblank = true) l)).

(** ** The source of a transfer

    What [bus.read] returns for [n] consecutive addresses from [a] on. *)
Fixpoint busBlock {E} `{Devices E} (n : nat) (a : Z) (w : World E) : list value * World E :=
match n with
| O => ([], w)
| S n' =>
    let '(v, w) := bus_read a w in
    let '(vs, w) := busBlock n' (a + 1) w in
    (v :: vs, w)
end.

End Ppu.

(* ===================================================================== *)
(** * The bus (bus.ts) *)
(* ===================================================================== *)

Module Bus.
Import Js.

(** The host services a bus is constructed with; only [break] is used. *)
Class SystemInterface (W : Type) : Type := { system_break : string -> W -> W }.

(** Handlers are closures over the emulator state [W]. *)
Definition ReadHandler (W : Type) : Type := Z -> W -> Z * W.
Definition WriteHandler (W : Type) : Type := Z -> Z -> W -> W.

(** The two handler tables; [None] is a hole of [new Array(0x10000)]. *)
Record t (W : Type) : Type := {
  readMap : list (option (ReadHandler W));
  writeMap : list (option (WriteHandler W));
}.
Arguments readMap {W} _.
Arguments writeMap {W} _.

(** [n.toString(16)] for an integer [n]. *)
Definition toString16 (n : Z) : string :=
match n with
| Z0 => "0"
| Zpos p => HexString.Raw.of_pos p ""
| Zneg p => String "-" (HexString.Raw.of_pos p "")
end.

Fixpoint repeatChar (n : nat) (c : ascii) (s : string) : string :=
match n with
| O => s
| S n' => String c (repeatChar n' c s)
end.

(** [s.padStart(targetLength, c)] for a one-character pad string. *)
Definition padStart (targetLength : nat) (c : ascii) (s : string) : string :=
repeatChar (targetLength - String.length s) c s.

Definition hex4 (address : Z) : string := padStart 4 "0" (toString16 address).

Definition invalidRead {W} `{SystemInterface W} : ReadHandler W :=
fun address w =>
  (0, system_break (String.append "invalid read from 0x" (hex4 address)) w).

Definition invalidWrite {W} `{SystemInterface W} : WriteHandler W :=
fun address _ w =>
  system_break (String.append "invalid write to 0x" (hex4 address)) w.

(** [a[i] = x] on an ordinary array: past the end the array grows. *)
Definition arr_set {A} (a : list (option A)) (i : nat) (x : A) : list (option A) :=
if (i <? length a)%nat then <[i := Some x]> a
else a ++ replicate (i - length a) None ++ [Some x].

(** The constructor's loop, from index [i] with [n] iterations left. *)
Fixpoint fill {W} `{SystemInterface W} (n i : nat) (b : t W) : t W :=
match n with
| O => b
| S n' =>
    fill n' (S i)
      {| readMap := arr_set (readMap b) i invalidRead;
         writeMap := arr_set (writeMap b) i invalidWrite |}
end.

Definition size : nat := Z.to_nat 0x10000.

Definition constructor {W} `{SystemInterface W} : t W :=
fill size 0 {| readMap := replicate size None; writeMap := replicate size None |}.

(** Modelled from the spec: [map], [read] and [write] (the class in the
    sources stops after the two tables). [map(address, read, write)]
    installs a pair for one address; [read(a)] and [write(a, v)]
    dispatch to the installed pair. Calling a hole throws. *)
Definition map {W} (address : Z) (read : ReadHandler W) (write : WriteHandler W)
  (b : t W) : t W :=
if 0 <=? address then
  {| readMap := arr_set (readMap b) (Z.to_nat address) read;
     writeMap := arr_set (writeMap b) (Z.to_nat address) write |}
else b.

Definition read {W} (b : t W) (address : Z) (w : W) : completion (Z * W) :=
match (if 0 <=? address then readMap b !! Z.to_nat address else None) with
| Some (Some h) => Normal (h address w)
| _ => Throw "TypeError: this.readMap[address] is not a function"
end.

Definition write {W} (b : t W) (address value : Z) (w : W) : completion W :=
match (if 0 <=? address then writeMap b !! Z.to_nat address else None) with
| Some (Some h) => Normal (h address value w)
| _ => Throw "TypeError: this.writeMap[address] is not a function"
end.

(** Modelled from the spec: the [map] calls the devices make when they are
    installed on the bus, in order, each with its address and handler
    pair. *)
Definition mapAll {W} (pairs : list (Z * (ReadHandler W * WriteHandler W))) (b : t W) : t W :=
fold_left (fun b m => map (fst m) (fst (snd m)) (snd (snd m)) b) pairs b.

(** No address of the bus is a hole. *)
Definition complete {W} (b : t W) : Prop :=
(size <= length (readMap b))%nat /\ (size <= length (writeMap b))%nat
/\ forall j : nat,
     (j < size)%nat ->
     (exists h, readMap b !! j = Some (Some h))
     /\ (exists h, writeMap b !! j = Some (Some h)).

End Bus.

(* ===================================================================== *)
(** * Register indices and flags (cpu.ts) *)
(* ===================================================================== *)

Module r8.
Definition f : Z := 0.
Definition a : Z := 1.
Definition c : Z := 2.
Definition b : Z := 3.
Definition e : Z := 4.
Definition d : Z := 5.
Definition l : Z := 6.
Definition h : Z := 7.
End r8.

Module r16.
Definition af : Z := 0.
Definition bc : Z := 1.
Definition de : Z := 2.
Definition hl : Z := 3.
Definition sp : Z := 4.
End r16.

Module flag.
Definition z : Z := 0x80.
Definition n : Z := 0x40.
Definition h : Z := 0x20.
Definition c : Z := 0x10.
End flag.

(* ===================================================================== *)
(** * The instruction table *)
(* ===================================================================== *)

Module Instruction.
Import Js.

(** [const enum Operation]. [Operation_ldh] is named by the dispatcher of
    cpu.ts only: the enum next to the table does not declare it, and no
    table entry carries it. *)
Inductive Operation : Type :=
| Operation_invalid | Operation_and | Operation_call | Operation_cp
| Operation_cpl | Operation_dec | Operation_di | Operation_ei
| Operation_inc | Operation_jp | Operation_jrnz | Operation_ld
| Operation_ldd | Operation_ldi | Operation_nop | Operation_or
| Operation_pop | Operation_push | Operation_ret | Operation_xor
| Operation_ldh.

(** [const enum AddressingMode]. [AddressingMode_ind_reg8] is named by
    cpu.ts only, like [Operation_ldh]. *)
Inductive AddressingMode : Type :=
| AddressingMode_implicit | AddressingMode_imm16 | AddressingMode_imm8
| AddressingMode_reg8 | AddressingMode_reg16 | AddressingMode_reg16_imm16
| AddressingMode_reg8_imm8 | AddressingMode_imm8_reg8
| AddressingMode_immind8_reg8 | AddressingMode_ind8_reg8
| AddressingMode_ind8_imm8 | AddressingMode_reg8_ind8
| AddressingMode_reg8_reg8 | AddressingMode_imm8io_reg8
| AddressingMode_reg8_imm8io | AddressingMode_reg8io_reg8
| AddressingMode_reg8_reg8io
| AddressingMode_ind_reg8.

Record Instruction : Type := {
  opcode : Z;
  operation : Operation;
  addressingMode : AddressingMode;
  par1 : Z;
  par2 : Z;
  cycles : Z;
  len : Z;
}.

(** [Partial<Instruction>]: the fields an [apply] call names. *)
Record Partial : Type := {
  operation' : option Operation;
  addressingMode' : option AddressingMode;
  par1' : option Z;
  par2' : option Z;
  cycles' : option Z;
  len' : option Z;
}.

Definition partial (op : Operation) (mode : option AddressingMode)
  (p1 p2 : option Z) (cy ln : Z) : Partial :=
{| operation' := Some op; addressingMode' := mode; par1' := p1; par2' := p2;
   cycles' := Some cy; len' := Some ln |}.

(** [{ ...instruction, par1: reg }] *)
Definition withPar1 (reg : Z) (p : Partial) : Partial :=
{| operation' := operation' p; addressingMode' := addressingMode' p;
   par1' := Some reg; par2' := par2' p; cycles' := cycles' p; len' := len' p |}.

(** [{ ...instructions[opcode], ...instruction, opcode }] *)
Definition merge (opcode : Z) (old : Instruction) (p : Partial) : Instruction :=
{| opcode := opcode;
   operation := default (operation old) (operation' p);
   addressingMode := default (addressingMode old) (addressingMode' p);
   par1 := default (par1 old) (par1' p);
   par2 := default (par2 old) (par2' p);
   cycles := default (cycles old) (cycles' p);
   len := default (len old) (len' p) |}.

(** One [apply] call (every opcode of the table lies inside the array). *)
Definition apply (opcode : Z) (p : Partial) (tbl : list Instruction)
  : list Instruction :=
match tbl !! Z.to_nat opcode with
| Some old => <[Z.to_nat opcode := merge opcode old p]> tbl
| None => tbl
end.

(** [xs.forEach((x, i) => ...)]: the element with its index. *)
Definition indexed {A} (xs : list A) : list (A * Z) :=
imap (fun i x => (x, Z.of_nat i)) xs.

Definition applySeriesR8_1 (baseB baseC : Z) (p : Partial) : list (Z * Partial) :=
List.map (fun '(reg, i) => (baseB + shl i 4, withPar1 reg p)) (indexed [r8.b; r8.d; r8.h])
++ List.map (fun '(reg, i) => (baseC + shl i 4, withPar1 reg p))
     (indexed [r8.c; r8.e; r8.l; r8.a]).

Definition initial : list Instruction :=
List.map (fun i : nat =>
            {| opcode := Z.of_nat i; operation := Operation_invalid;
               addressingMode := AddressingMode_implicit;
               par1 := 0; par2 := 0; cycles := 0; len := 1 |})
         (seq 0 0x100).

(** The [apply] calls of the module body, in source order. *)
Definition script : list (Z * Partial) :=
[ (0, partial Operation_nop None None None 1 1);
  (0xc3, partial Operation_jp (Some AddressingMode_imm16) None None 4 3);
  (0xa8, partial Operation_xor (Some AddressingMode_reg8) (Some r8.b) None 1 1);
  (0xa9, partial Operation_xor (Some AddressingMode_reg8) (Some r8.c) None 1 1);
  (0xaa, partial Operation_xor (Some AddressingMode_reg8) (Some r8.d) None 1 1);
  (0xab, partial Operation_xor (Some AddressingMode_reg8) (Some r8.e) None 1 1);
  (0xac, partial Operation_xor (Some AddressingMode_reg8) (Some r8.h) None 1 1);
  (0xad, partial Operation_xor (Some AddressingMode_reg8) (Some r8.l) None 1 1);
  (0xaf, partial Operation_xor (Some AddressingMode_reg8) (Some r8.a) None 1 1);
  (0x31, partial Operation_ld (Some AddressingMode_reg16_imm16) (Some r16.sp) None 3 3);
  (0x21, partial Operation_ld (Some AddressingMode_reg16_imm16) (Some r16.hl) None 3 3);
  (0x11, partial Operation_ld (Some AddressingMode_reg16_imm16) (Some r16.de) None 3 3);
  (0x01, partial Operation_ld (Some AddressingMode_reg16_imm16) (Some r16.bc) None 3 3);
  (0x36, partial Operation_ld (Some AddressingMode_ind8_imm8) (Some r16.hl) None 3 2);
  (0xea, partial Operation_ld (Some AddressingMode_immind8_reg8) None (Some r8.a) 4 3);
  (0xf0, partial Operation_ld (Some AddressingMode_reg8_imm8io) (Some r8.a) None 3 2);
  (0xe0, partial Operation_ld (Some AddressingMode_imm8io_reg8) None (Some r8.a) 3 2);
  (0xe2, partial Operation_ld (Some AddressingMode_reg8io_reg8) (Some r8.c) None 2 1);
  (0xf2, partial Operation_ld (Some AddressingMode_reg8_reg8io) None (Some r8.c) 2 1) ]
++ flat_map
     (fun '(reg1, i1) =>
        flat_map
          (fun '(reg2, i2) =>
             if negb (reg1 =? reg2) then
               [ (bitor (shl (4 + i1) 4) (7 + i2),
                  partial Operation_ld (Some AddressingMode_reg8_reg8)
                    (Some reg1) (Some reg2) 1 1) ]
             else [])
          (indexed [r8.a; r8.b; r8.c; r8.d; r8.e; r8.h; r8.l]))
     (indexed [r8.c; r8.e; r8.l; r8.a])
++ applySeriesR8_1 0x06 0x0e
     (partial Operation_ld (Some AddressingMode_reg8_imm8) None None 2 2)
++ [ (0x22, partial Operation_ldi (Some AddressingMode_ind8_reg8) (Some r16.hl) (Some r8.a) 2 1);
     (0x32, partial Operation_ldd (Some AddressingMode_ind8_reg8) (Some r16.hl) (Some r8.a) 2 1);
     (0x2a, partial Operation_ldi (Some AddressingMode_reg8_ind8) (Some r8.a) (Some r16.hl) 2 1);
     (0x3a, partial Operation_ldd (Some AddressingMode_reg8_ind8) (Some r8.a) (Some r16.hl) 2 1) ]
++ applySeriesR8_1 0x04 0x0c
     (partial Operation_inc (Some AddressingMode_reg8) None None 1 1)
++ applySeriesR8_1 0x05 0x0d
     (partial Operation_dec (Some AddressingMode_reg8) None None 1 1)
++ flat_map
     (fun '(reg, i) =>
        [ (bitor (shl i 4) 0x0b,
           partial Operation_dec (Some AddressingMode_reg16) (Some reg) None 2 1);
          (bitor (shl i 4) 0x03,
           partial Operation_inc (Some AddressingMode_reg16) (Some reg) None 2 1) ])
     (indexed [r16.bc; r16.de; r16.hl; r16.sp])
++ [ (0x20, partial Operation_jrnz (Some AddressingMode_imm8) None None 2 2);
     (0xf3, partial Operation_di (Some AddressingMode_implicit) None None 1 1);
     (0xfb, partial Operation_ei (Some AddressingMode_implicit) None None 1 1);
     (0xfe, partial Operation_cp (Some AddressingMode_imm8) None None 2 2);
     (0xcd, partial Operation_call (Some AddressingMode_imm16) None None 8 3) ]
++ flat_map
     (fun '(reg, i) =>
        [ (0xb0 + i, partial Operation_or (Some AddressingMode_reg8) (Some reg) None 1 1);
          (0xa0 + i, partial Operation_and (Some AddressingMode_reg8) (Some reg) None 1 1) ])
     (indexed [r8.b; r8.c; r8.d; r8.e; r8.h; r8.l])
++ [ (0xb7, partial Operation_or (Some AddressingMode_reg8) (Some r8.a) None 1 1);
     (0xa7, partial Operation_and (Some AddressingMode_reg8) (Some r8.a) None 1 1);
     (0xc9, partial Operation_ret (Some AddressingMode_implicit) None None 4 1);
     (0x2f, partial Operation_cpl (Some AddressingMode_implicit) None None 1 1) ]
++ flat_map
     (fun '(reg, i) =>
        [ (bitor (shl (i + 0xc) 4) 0x05,
           partial Operation_push (Some AddressingMode_reg16) (Some reg) None 4 1);
          (bitor (shl (i + 0xc) 4) 0x01,
           partial Operation_pop (Some AddressingMode_reg16) (Some reg) None 3 1) ])
     (indexed [r16.bc; r16.de; r16.hl; r16.af]).

Definition instructions : list Instruction :=
fold_left (fun tbl '(opcode, p) => apply opcode p tbl) script initial.

(** [instructions[opcode]] *)
Definition lookup (opcode : Z) : option Instruction :=
if 0 <=? opcode then instructions !! Z.to_nat opcode else None.

End Instruction.

(* ===================================================================== *)
(** * The CPU (cpu.ts) *)
(* ===================================================================== *)

Module Cpu.
Import Js Instruction.

(** The collaborators the CPU is constructed with: the bus, the clock and
    the host's break sink, all acting on the rest of the machine [W]. *)
Class Environment (W : Type) : Type := {
  bus_read : Z -> W -> Z * W;
  bus_read16 : Z -> W -> Z * W;
  bus_write : Z -> Z -> W -> W;
  clock_increment : Z -> W -> W;
  system_break : string -> W -> W;
}.

(** [CpuState]. [r8] and [r16] are two views of one 10-byte buffer
    ([new Uint8Array(r16.buffer)]), kept here as that buffer. *)
Record CpuState : Type := {
  buffer : list Z;
  p : Z;
  enableInterrupts : bool;
}.

Definition with_buffer (b : list Z) (s : CpuState) : CpuState :=
{| buffer := b; p := p s; enableInterrupts := enableInterrupts s |}.
Definition with_p (v : Z) (s : CpuState) : CpuState :=
{| buffer := buffer s; p := v; enableInterrupts := enableInterrupts s |}.
Definition with_enableInterrupts (v : bool) (s : CpuState) : CpuState :=
{| buffer := buffer s; p := p s; enableInterrupts := v |}.

(** [state.r8[i]] and [state.r16[i]] (little-endian host). *)
Definition get_r8 (s : CpuState) (i : Z) : value := ta_get (buffer s) i.

Definition get_r16 (s : CpuState) (i : Z) : value :=
match ta_get (buffer s) (2 * i), ta_get (buffer s) (2 * i + 1) with
| Num lo, Num hi => Num (Z.lor lo (Z.shiftl hi 8))
| _, _ => Undefined
end.

Definition set_r8 (i v : Z) (s : CpuState) : CpuState :=
with_buffer (ta_set8 (buffer s) i v) s.

Definition set_r16 (i v : Z) (s : CpuState) : CpuState :=
if (0 <=? i) && (2 * i + 1 <? Js.len (buffer s)) then
  with_buffer
    (ta_store (ta_store (buffer s) (2 * i) (toUint8 v))
       (2 * i + 1) (toUint8 (Z.shiftr (toUint16 v) 8)))
    s
else s.

(** The registers read as numbers. Every register index of the table is
    inside the buffer (see [table_registers_in_file]); for an index outside
    it the source would carry [undefined] on, which the model reports as an
    exception instead. *)
Definition number_of (v : value) : completion Z :=
match v with
| Num z => Normal z
| Undefined => Throw "undefined register"
end.

Definition constructor : CpuState :=
{| buffer := replicate 10 0; p := 0; enableInterrupts := false |}.

Definition reset (s : CpuState) : CpuState :=
let s := set_r16 r16.af 0x0100 s in
let s := set_r16 r16.bc 0x0013 s in
let s := set_r16 r16.de 0x00d8 s in
let s := set_r16 r16.hl 0x014d s in
let s := with_p 0x0100 s in
let s := set_r16 r16.sp 0xfffe s in
with_enableInterrupts false s.

Definition extendSign8 (x : Z) : Z :=
if negb (bitand x 0x80 =? 0) then - bitand (bitnot x + 1) 0xff else x.

Section Dispatch.
Context {W : Type} `{Environment W}.

(** The CPU together with the rest of the machine. *)
Definition Machine : Type := CpuState * W.

Definition getArg1 (instruction : Instruction) (m : Machine) : completion (Z * W) :=
let '(s, w) := m in
match addressingMode instruction with
| AddressingMode_imm8 | AddressingMode_imm8_reg8 =>
    Normal (bus_read (bitand (p s + par1 instruction) 0xffff) w)
| AddressingMode_imm16 =>
    Normal (bus_read16 (bitand (p s + par1 instruction) 0xffff) w)
| AddressingMode_reg8 =>
    bind (number_of (get_r8 s (par1 instruction))) (fun v => Normal (v, w))
| AddressingMode_reg16_imm16 =>
    bind (number_of (get_r16 s (par1 instruction))) (fun v => Normal (v, w))
| AddressingMode_reg8_imm8 =>
    bind (number_of (get_r8 s (par1 instruction))) (fun v => Normal (v, w))
| AddressingMode_ind_reg8 =>
    bind (number_of (get_r16 s (par1 instruction)))
      (fun a => Normal (bus_read a w))
| _ => Throw "bad addressing mode"
end.

Definition setArg1 (instruction : Instruction) (value : Z) (m : Machine)
  : completion Machine :=
let '(s, w) := m in
match addressingMode instruction with
| AddressingMode_reg8 => Normal (set_r8 (par1 instruction) value s, w)
| AddressingMode_reg16_imm16 => Normal (set_r16 (par1 instruction) value s, w)
| AddressingMode_reg8_imm8 => Normal (set_r8 (par1 instruction) value s, w)
| AddressingMode_ind_reg8 =>
    bind (number_of (get_r16 s (par1 instruction)))
      (fun a => Normal (s, bus_write a (bitand value 0xff) w))
| _ => Throw "bad addressing mode"
end.

Definition getArg2 (instruction : Instruction) (m : Machine) : completion (Z * W) :=
let '(s, w) := m in
match addressingMode instruction with
| AddressingMode_reg16_imm16 =>
    Normal (bus_read16 (bitand (p s + par2 instruction) 0xffff) w)
| AddressingMode_reg8_imm8 =>
    Normal (bus_read (bitand (p s + par2 instruction) 0xffff) w)
| AddressingMode_ind_reg8 | AddressingMode_imm8_reg8 =>
    bind (number_of (get_r8 s (par2 instruction))) (fun v => Normal (v, w))
| _ => Throw "bad addressing mode"
end.

(** [this.state.p = (this.state.p + instruction.len) & 0xffff] *)
Definition advance (instruction : Instruction) (s : CpuState) : CpuState :=
with_p (bitand (p s + len instruction) 0xffff) s.

Definition flags (s : CpuState) : completion Z := number_of (get_r8 s r8.f).

(** [dispatch] returns the cycles it reports and the machine it leaves. *)
Definition dispatch (instruction : Instruction) (m : Machine)
  : completion (Z * Machine) :=
let '(s, w) := m in
match operation instruction with
| Operation_dec =>
    let w := clock_increment (cycles instruction) w in
    bind (getArg1 instruction (s, w)) (fun '(operand, w) =>
    let result := operand - 1 in
    bind (setArg1 instruction result (s, w)) (fun '(s, w) =>
    bind (flags s) (fun f =>
    let s := set_r8 r8.f
               (bitor (bitor (bitor (bitand f flag.c) flag.n)
                             (if bitand result 0xff =? 0 then flag.z else 0))
                      (if 0 <? bitand (bitand operand 0x0f - 1) 0xf0 then flag.h else 0))
               s in
    Normal (cycles instruction, (advance instruction s, w)))))
| Operation_di =>
    let w := clock_increment (cycles instruction) w in
    let s := with_enableInterrupts false s in
    Normal (cycles instruction, (advance instruction s, w))
| Operation_inc =>
    let w := clock_increment (cycles instruction) w in
    bind (getArg1 instruction (s, w)) (fun '(operand, w) =>
    let result := operand + 1 in
    bind (setArg1 instruction result (s, w)) (fun '(s, w) =>
    bind (flags s) (fun f =>
    let s := set_r8 r8.f
               (bitor (bitor (bitand f flag.c)
                             (if bitand result 0xff =? 0 then flag.z else 0))
                      (if 0 <? bitand (bitand operand 0x0f + 1) 0xf0 then flag.h else 0))
               s in
    Normal (cycles instruction, (advance instruction s, w)))))
| Operation_jp =>
    let w := clock_increment (cycles instruction) w in
    bind (getArg1 instruction (s, w)) (fun '(target, w) =>
    Normal (cycles instruction, (with_p target s, w)))
| Operation_jrnz =>
    bind (flags s) (fun f =>
    let condition := bitand f flag.z =? 0 in
    let cycles := cycles instruction + (if condition then 1 else 0) in
    let w := clock_increment cycles w in
    bind (getArg1 instruction (s, w)) (fun '(arg, w) =>
    let displacement := extendSign8 arg in
    let s := advance instruction s in
    let s := if condition then with_p (bitand (p s + displacement) 0xffff) s else s in
    Normal (cycles, (s, w))))
| Operation_ld =>
    let w := clock_increment (cycles instruction) w in
    bind (getArg2 instruction (s, w)) (fun '(v, w) =>
    bind (setArg1 instruction v (s, w)) (fun '(s, w) =>
    Normal (cycles instruction, (advance instruction s, w))))
| Operation_ldd =>
    let w := clock_increment (cycles instruction) w in
    bind (getArg2 instruction (s, w)) (fun '(v, w) =>
    bind (setArg1 instruction v (s, w)) (fun '(s, w) =>
    bind (number_of (get_r16 s r16.hl)) (fun hl =>
    let s := set_r16 r16.hl (bitand (hl - 1) 0xffff) s in
    Normal (cycles instruction, (advance instruction s, w)))))
| Operation_ldh =>
    let w := clock_increment (cycles instruction) w in
    bind (getArg1 instruction (s, w)) (fun '(a, w) =>
    bind (getArg2 instruction (s, w)) (fun '(v, w) =>
    let w := bus_write (bitand (0xff00 + a) 0xffff) v w in
    Normal (cycles instruction, (advance instruction s, w))))
| Operation_ldi =>
    let w := clock_increment (cycles instruction) w in
    bind (getArg2 instruction (s, w)) (fun '(v, w) =>
    bind (setArg1 instruction v (s, w)) (fun '(s, w) =>
    bind (number_of (get_r16 s r16.hl)) (fun hl =>
    let s := set_r16 r16.hl (bitand (hl + 1) 0xffff) s in
    Normal (cycles instruction, (advance instruction s, w)))))
| Operation_nop =>
    let w := clock_increment (cycles instruction) w in
    Normal (cycles instruction, (advance instruction s, w))
| Operation_xor =>
    let w := clock_increment (cycles instruction) w in
    bind (number_of (get_r8 s r8.a)) (fun a =>
    bind (getArg1 instruction (s, w)) (fun '(arg, w) =>
    let s := set_r8 r8.a (bitxor a arg) s in
    bind (number_of (get_r8 s r8.a)) (fun a' =>
    let s := set_r8 r8.f (if negb (a' =? 0) then 0 else flag.z) s in
    Normal (cycles instruction, (advance instruction s, w)))))
| _ =>
    let w := system_break "invalid instruction" w in
    Normal (0, (s, w))
end.

(** [decodeInstruction(bus, address)] *)
Definition decodeInstruction (address : Z) (w : W) : option Instruction * W :=
let '(opcode, w) := bus_read address w in
(Instruction.lookup opcode, w).

Fixpoint step (count : nat) (m : Machine) : completion Machine :=
match count with
| O => Normal m
| S count' =>
    let '(s, w) := m in
    let '(instruction, w) := decodeInstruction (p s) w in
    match instruction with
    | Some instruction =>
        bind (dispatch instruction (s, w)) (fun '(_, m) => step count' m)
    | None => Throw "TypeError: cannot read properties of undefined"
    end
end.

End Dispatch.

End Cpu.

(* ===================================================================== *)
(** * The audio sample queue (apu/sample-queue.ts) *)
(* ===================================================================== *)

Module SampleQueue.
Import Js.

(** What a [Float32Array] does to the numbers stored in it: [fround] is the
    rounding to single precision ([Math.fround]), which leaves a number that
    is already single precision alone; [zero] is the content of a fresh
    array; [nan] is what storing [undefined] leaves. *)
Class Float32 (A : Type) : Type := {
  fround : A -> A;
  zero : A;
  nan : A;
  fround_fround : forall x : A, fround (fround x) = fround x;
  fround_zero : fround zero = zero;
}.

(** [capacity] is [sampleRate / 2], which is not an integer for an odd
    sample rate; [nextSample] and the read index of [fill] are computed from
    it. These numbers are kept as twice their value; [HalfNaN] is [NaN]. *)
Inductive half : Type :=
| Twice (z : Z)
| HalfNaN.

Definition int (n : Z) : half := Twice (2 * n).

Definition add (a b : half) : half :=
match a, b with
| Twice x, Twice y => Twice (x + y)
| _, _ => HalfNaN
end.

Definition sub (a b : half) : half :=
match a, b with
| Twice x, Twice y => Twice (x - y)
| _, _ => HalfNaN
end.

(** [a % b] *)
Definition rem (a b : half) : half :=
match a, b with
| Twice x, Twice y => if y =? 0 then HalfNaN else Twice (Z.rem x y)
| _, _ => HalfNaN
end.

(** [a < b] *)
Definition lt (a b : half) : bool :=
match a, b with
| Twice x, Twice y => x <? y
| _, _ => false
end.

(** The array index a number denotes: only a non-negative integer is one. *)
Definition index (a : half) : option nat :=
match a with
| Twice x => if Z.even x && (0 <=? x) then Some (Z.to_nat (x / 2)) else None
| HalfNaN => None
end.

(** The length [new Float32Array(a)] gets: the number truncated towards
    zero; a negative one is refused. *)
Definition toIndex (a : half) : completion nat :=
match a with
| Twice x =>
    if Z.quot x 2 <? 0 then Throw "RangeError: Invalid typed array length"
    else Normal (Z.to_nat (Z.quot x 2))
| HalfNaN => Normal 0%nat
end.

Section Samples.
Context {A : Type} `{Float32 A}.

(** [a[i]]: [None] is [undefined]. *)
Definition f32_get (a : list A) (i : half) : option A :=
match index i with
| Some k => a !! k
| None => None
end.

(** [a[i] = v]: ignored unless [i] is an index inside the array. *)
Definition f32_set (a : list A) (i : half) (v : option A) : list A :=
match index i with
| Some k => <[k := match v with Some x => fround x | None => nan end]> a
| None => a
end.

Record t : Type := {
  sampleRate : Z;
  capacity : half;
  channelLeftData : list A;
  channelRightData : list A;
  length : Z;
  nextSample : half;
}.

Definition constructor (sampleRate : Z) : completion t :=
let capacity := Twice sampleRate in
bind (toIndex capacity) (fun n =>
Normal {| sampleRate := sampleRate; capacity := capacity;
          channelLeftData := replicate n zero;
          channelRightData := replicate n zero;
          length := 0; nextSample := int 0 |}).

Definition reset (q : t) : t :=
{| sampleRate := sampleRate q; capacity := capacity q;
   channelLeftData := replicate (List.length (channelLeftData q)) zero;
   channelRightData := replicate (List.length (channelRightData q)) zero;
   length := 0; nextSample := int 0 |}.

Definition push (left right : A) (q : t) : t :=
{| sampleRate := sampleRate q; capacity := capacity q;
   channelLeftData := f32_set (channelLeftData q) (nextSample q) (Some left);
   channelRightData := f32_set (channelRightData q) (nextSample q) (Some right);
   length := if lt (int (length q)) (capacity q) then length q + 1 else length q;
   nextSample := rem (add (nextSample q) (int 1)) (capacity q) |}.

Definition getLength (q : t) : Z := length q.

(** An [AudioBuffer] of the Web Audio API: [buffer_length] sample frames in
    each of its channels. *)
Record AudioBuffer : Type := {
  buffer_length : Z;
  channels : list (list A);
}.

(** [buffer.getChannelData(c)] throws for a channel the buffer lacks. *)
Definition getChannelData (buffer : AudioBuffer) (c : nat) : completion (list A) :=
match channels buffer !! c with
| Some d => Normal d
| None => Throw "IndexSizeError"
end.

Definition with_length (n : Z) (q : t) : t :=
{| sampleRate := sampleRate q; capacity := capacity q;
   channelLeftData := channelLeftData q;
   channelRightData := channelRightData q;
   length := n; nextSample := nextSample q |}.

(** The loop of [fill]. Every iteration takes one off [length], which the
    loop condition keeps positive, so [n = length] iterations always
    suffice. *)
Fixpoint fillLoop (n : nat) (frames iOut : Z) (iIn : half)
  (channelLeft channelRight : list A) (q : t) : list A * list A * t :=
match n with
| O => (channelLeft, channelRight, q)
| S n' =>
    if (iOut <? frames) && (0 <? length q) then
      let channelLeft := f32_set channelLeft (int iOut) (f32_get (channelLeftData q) iIn) in
      let channelRight := f32_set channelRight (int iOut) (f32_get (channelRightData q) iIn) in
      let iIn := rem (add iIn (int 1)) (capacity q) in
      fillLoop n' frames (iOut + 1) iIn channelLeft channelRight
        (with_length (length q - 1) q)
    else (channelLeft, channelRight, q)
end.

Definition fill (buffer : AudioBuffer) (q : t) : completion (AudioBuffer * t) :=
let iIn := rem (add (sub (nextSample q) (int (length q))) (capacity q)) (capacity q) in
bind (getChannelData buffer 0) (fun channelLeft =>
bind (getChannelData buffer 1) (fun channelRight =>
let '(channelLeft, channelRight, q) :=
  fillLoop (Z.to_nat (length q)) (buffer_length buffer) 0 iIn channelLeft channelRight q in
Normal ({| buffer_length := buffer_length buffer;
           channels := <[1%nat := channelRight]> (<[0%nat := channelLeft]> (channels buffer)) |},
        q))).

(** A pair of samples as a [Float32Array] keeps it. *)
Definition rounded (s : A * A) : A * A := (fround (fst s), fround (snd s)).

(** [push] for each pair of a list, in order. *)
Definition pushAll (samples : list (A * A)) (q : t) : t :=
fold_left (fun q '(l, r) => push l r q) samples q.

(** The samples a queue holds, oldest first: the [length] cells that end
    just before [nextSample], going round the storage. *)
Definition rotated (k : nat) (data : list A) : list A := drop k data ++ take k data.

Definition held (data : list A) (q : t) : list A :=
match index (nextSample q) with
| Some k => drop (List.length data - Z.to_nat (length q)) (rotated k data)
| None => []
end.

Definition contents (q : t) : list (A * A) :=
zip (held (channelLeftData q) q) (held (channelRightData q) q).

(** The queues [constructor] and [push] produce for an even sample rate
    [2 * C]: [C] cells per channel, the write position [k] inside them. *)
Definition ring (C : Z) (q : t) : Prop :=
0 < C
/\ capacity q = int C
/\ List.length (channelLeftData q) = Z.to_nat C
/\ List.length (channelRightData q) = Z.to_nat C
/\ 0 <= length q <= C
/\ exists k : Z, 0 <= k < C /\ nextSample q = int k.

End Samples.

Arguments t A : clear implicits.
Arguments AudioBuffer A : clear implicits.

End SampleQueue.

(* ===================================================================== *)
(** * The clock of the CGB (ClockCgb) *)
(* ===================================================================== *)

Module ClockCgb.
Import Js.

(** The cycle counts are integers, as the CPU passes them. *)
Record t : Type := {
  cpuCycles : Z;
  extraCpuCycles : Z;
  dividerAccCycles : Z;
  doubleSpeed : bool;
  speedSwitchPending : bool;
}.

Definition with_cpuCycles (v : Z) (c : t) : t :=
{| cpuCycles := v; extraCpuCycles := extraCpuCycles c;
   dividerAccCycles := dividerAccCycles c; doubleSpeed := doubleSpeed c;
   speedSwitchPending := speedSwitchPending c |}.
Definition with_extraCpuCycles (v : Z) (c : t) : t :=
{| cpuCycles := cpuCycles c; extraCpuCycles := v;
   dividerAccCycles := dividerAccCycles c; doubleSpeed := doubleSpeed c;
   speedSwitchPending := speedSwitchPending c |}.
Definition with_dividerAccCycles (v : Z) (c : t) : t :=
{| cpuCycles := cpuCycles c; extraCpuCycles := extraCpuCycles c;
   dividerAccCycles := v; doubleSpeed := doubleSpeed c;
   speedSwitchPending := speedSwitchPending c |}.
Definition with_doubleSpeed (v : bool) (c : t) : t :=
{| cpuCycles := cpuCycles c; extraCpuCycles := extraCpuCycles c;
   dividerAccCycles := dividerAccCycles c; doubleSpeed := v;
   speedSwitchPending := speedSwitchPending c |}.
Definition with_speedSwitchPending (v : bool) (c : t) : t :=
{| cpuCycles := cpuCycles c; extraCpuCycles := extraCpuCycles c;
   dividerAccCycles := dividerAccCycles c; doubleSpeed := doubleSpeed c;
   speedSwitchPending := v |}.

(** The field initialisers. *)
Definition create : t :=
{| cpuCycles := 0; extraCpuCycles := 0; dividerAccCycles := 0;
   doubleSpeed := false; speedSwitchPending := false |}.

(** The four devices the clock drives. Each [cycle] acts on the rest of
    the machine [W]; a device may also call back into the clock (to pause
    the CPU, say), so it is given the clock as well. *)
Class Devices (W : Type) : Type := {
  ppu_cycle : Z -> t * W -> t * W;
  timer_cycle : Z -> t * W -> t * W;
  serial_cycle : Z -> t * W -> t * W;
  apu_cycle : Z -> t * W -> t * W;
}.

Definition reset (c : t) : t :=
{| cpuCycles := 0; extraCpuCycles := 0; dividerAccCycles := 0;
   doubleSpeed := false; speedSwitchPending := false |}.

Definition pauseCpu (oneMHzCyles : Z) (c : t) : t :=
with_extraCpuCycles
  (extraCpuCycles c + (if doubleSpeed c then 2 else 1) * oneMHzCyles) c.

Definition resetCpuCycles (c : t) : t := with_cpuCycles 0 c.

Definition isDoubleSpeed (c : t) : bool := doubleSpeed c.

Definition key1Read (_ : Z) (c : t) : Z :=
bitor (bitor 0x7e (if doubleSpeed c then 0x80 else 0x00))
      (if speedSwitchPending c then 0x01 else 0x00).

Definition key1Write (_ value : Z) (c : t) : t :=
with_speedSwitchPending (negb (bitand value 0x01 =? 0)) c.

Section Machine.
Context {W : Type} `{Devices W}.

Definition on_clock (f : t -> t) (m : t * W) : t * W := (f (fst m), snd m).

Definition incrementImpl (cpuCycles' : Z) (m : t * W) : t * W :=
if doubleSpeed (fst m) then
  let m := on_clock (fun c => with_dividerAccCycles (dividerAccCycles c + cpuCycles') c) m in
  let oneMHzCycles := ushr (dividerAccCycles (fst m)) 1 in
  let m := on_clock (fun c => with_dividerAccCycles (bitand (dividerAccCycles c) 0x01) c) m in
  let m := ppu_cycle (2 * cpuCycles') m in
  let m := timer_cycle cpuCycles' m in
  let m := serial_cycle cpuCycles' m in
  let m := apu_cycle oneMHzCycles m in
  on_clock (fun c => with_cpuCycles (cpuCycles c + cpuCycles') c) m
else
  let m := ppu_cycle (4 * cpuCycles') m in
  let m := timer_cycle cpuCycles' m in
  let m := serial_cycle cpuCycles' m in
  let m := apu_cycle cpuCycles' m in
  on_clock (fun c => with_cpuCycles (cpuCycles c + 2 * cpuCycles') c) m.

(** The loop of [increment]; [None] when [fuel] iterations did not bring
    [extraCpuCycles] to zero. *)
Fixpoint drain (fuel : nat) (m : t * W) : option (t * W) :=
if extraCpuCycles (fst m) =? 0 then Some m
else
  match fuel with
  | O => None
  | S fuel' =>
      let cycles := extraCpuCycles (fst m) in
      let m := on_clock (with_extraCpuCycles 0) m in
      drain fuel' (incrementImpl cycles m)
  end.

Definition increment (fuel : nat) (cpuCycles' : Z) (m : t * W) : option (t * W) :=
drain fuel (incrementImpl cpuCycles' m).

Definition notifyStop (m : t * W) : t * W :=
if negb (speedSwitchPending (fst m)) then m
else
  let m := on_clock (fun c => with_doubleSpeed (negb (doubleSpeed c)) c) m in
  let m := incrementImpl 130996 m in
  let m := on_clock (with_dividerAccCycles 0) m in
  on_clock (with_speedSwitchPending false) m.

(** [increment] for each count of a list, in order. *)
Fixpoint incrementAll (fuel : nat) (counts : list Z) (m : t * W) : option (t * W) :=
match counts with
| [] => Some m
| n :: counts' =>
    match increment fuel n m with
    | Some m' => incrementAll fuel counts' m'
    | None => None
    end
end.

End Machine.

(** Devices that leave the clock alone. *)
Definition quiet {W : Type} `{Devices W} : Prop :=
forall (n : Z) (m : t * W),
  fst (ppu_cycle n m) = fst m /\ fst (timer_cycle n m) = fst m
  /\ fst (serial_cycle n m) = fst m /\ fst (apu_cycle n m) = fst m.

(** Devices that only count the cycles they are given. *)
Record Ledger : Type := {
  ppuClocks : Z;
  timerCycles : Z;
  serialCycles : Z;
  apuCycles : Z;
}.

Definition counting : Devices Ledger :=
{| ppu_cycle := fun n '(c, l) =>
     (c, {| ppuClocks := ppuClocks l + n; timerCycles := timerCycles l;
            serialCycles := serialCycles l; apuCycles := apuCycles l |});
   timer_cycle := fun n '(c, l) =>
     (c, {| ppuClocks := ppuClocks l; timerCycles := timerCycles l + n;
            serialCycles := serialCycles l; apuCycles := apuCycles l |});
   serial_cycle := fun n '(c, l) =>
     (c, {| ppuClocks := ppuClocks l; timerCycles := timerCycles l;
            serialCycles := serialCycles l + n; apuCycles := apuCycles l |});
   apu_cycle := fun n '(c, l) =>
     (c, {| ppuClocks := ppuClocks l; timerCycles := timerCycles l;
            serialCycles := serialCycles l; apuCycles := apuCycles l + n |}) |}.

(** The sum of a list of counts. *)
Definition total (counts : list Z) : Z := fold_right Z.add 0 counts.

End ClockCgb.

(* ===================================================================== *)
(** * The register file and the outcomes of dispatch *)
(* ===================================================================== *)

Module Registers.
Import Js Instruction Cpu.

(** The register file as the constructor allocates it: ten bytes. *)
Definition wellFormed (s : CpuState) : Prop :=
length (buffer s) = 10%nat /\ Forall (fun b => 0 <= b < 256) (buffer s).

(** An 8-bit operand read as a signed displacement. *)
Definition signed8 (x : Z) : Z := if x <? 0x80 then x else x - 0x100.

(** The addressing modes each accessor of cpu.ts has a case for. *)
Definition getArg1_has (m : AddressingMode) : bool :=
match m with
| AddressingMode_imm8 | AddressingMode_imm8_reg8 | AddressingMode_imm16
| AddressingMode_reg8 | AddressingMode_reg16_imm16 | AddressingMode_reg8_imm8
| AddressingMode_ind_reg8 => true
| _ => false
end.

Definition setArg1_has (m : AddressingMode) : bool :=
match m with
| AddressingMode_reg8 | AddressingMode_reg16_imm16 | AddressingMode_reg8_imm8
| AddressingMode_ind_reg8 => true
| _ => false
end.

Definition getArg2_has (m : AddressingMode) : bool :=
match m with
| AddressingMode_reg16_imm16 | AddressingMode_reg8_imm8
| AddressingMode_ind_reg8 | AddressingMode_imm8_reg8 => true
| _ => false
end.

(** What [dispatch] does with an instruction: carry it out, report it to
    the break sink as invalid, or throw on its addressing mode. *)
Inductive Outcome : Type :=
| Executes
| Breaks
| Throws.

Definition outcome (i : Instruction) : Outcome :=
let m := addressingMode i in
match operation i with
| Operation_nop | Operation_di => Executes
| Operation_dec | Operation_inc =>
    if getArg1_has m && setArg1_has m then Executes else Throws
| Operation_jp | Operation_jrnz | Operation_xor =>
    if getArg1_has m then Executes else Throws
| Operation_ld | Operation_ldd | Operation_ldi =>
    if getArg2_has m && setArg1_has m then Executes else Throws
| Operation_ldh =>
    if getArg1_has m && getArg2_has m then Executes else Throws
| _ => Breaks
end.

(** The register operands an instruction names are inside the register
    file: an 8-bit index below 8, a 16-bit index below 5. *)
Definition inFile (i : Instruction) : bool :=
match addressingMode i with
| AddressingMode_reg8 => (0 <=? par1 i) && (par1 i <? 8)
| AddressingMode_reg16 | AddressingMode_reg16_imm16 => (0 <=? par1 i) && (par1 i <? 5)
| AddressingMode_reg8_imm8 | AddressingMode_reg8_imm8io => (0 <=? par1 i) && (par1 i <? 8)
| AddressingMode_imm8_reg8 | AddressingMode_immind8_reg8
| AddressingMode_imm8io_reg8 => (0 <=? par2 i) && (par2 i <? 8)
| AddressingMode_ind8_reg8 =>
    (0 <=? par1 i) && (par1 i <? 5) && (0 <=? par2 i) && (par2 i <? 8)
| AddressingMode_reg8_ind8 =>
    (0 <=? par1 i) && (par1 i <? 8) && (0 <=? par2 i) && (par2 i <? 5)
| AddressingMode_ind8_imm8 => (0 <=? par1 i) && (par1 i <? 5)
| AddressingMode_reg8_reg8 | AddressingMode_reg8io_reg8 | AddressingMode_reg8_reg8io =>
    (0 <=? par1 i) && (par1 i <? 8) && (0 <=? par2 i) && (par2 i <? 8)
| AddressingMode_ind_reg8 =>
    (0 <=? par1 i) && (par1 i <? 5) && (0 <=? par2 i) && (par2 i <? 8)
| AddressingMode_implicit | AddressingMode_imm16 | AddressingMode_imm8 => true
end.

(** The opcodes of the table with a given outcome. *)
Definition opcodesWith (o : Outcome) : list Z :=
List.map opcode
  (List.filter (fun i => match outcome i, o with
                         | Executes, Executes | Breaks, Breaks | Throws, Throws => true
                         | _, _ => false
                         end) instructions).

Section Effects.
Context {W : Type} `{Environment W}.

(** [afterBus w w']: the rest of the machine went from [w] to [w'] by reads
    and writes of the bus alone; neither the clock nor the break sink was
    called on the way. *)
Inductive afterBus (w : W) : W -> Prop :=
| afterBus_here : afterBus w w
| afterBus_read (a : Z) (w' : W) : afterBus w w' -> afterBus w (snd (bus_read a w'))
| afterBus_read16 (a : Z) (w' : W) : afterBus w w' -> afterBus w (snd (bus_read16 a w'))
| afterBus_write (a v : Z) (w' : W) : afterBus w w' -> afterBus w (bus_write a v w').

End Effects.

End Registers.

(* ===================================================================== *)
(** * Views of the PPU *)
(* ===================================================================== *)

Module PpuViews.
Import Js Ppu.

(** The STAT line as [updateStat] computes it. *)
Definition statLine (s : t) : bool :=
lcdEnabled s &&
((negb (bitand (regs s stat) stat_sourceLY =? 0) && (scanline (timing s) =? regs s lyc))
 || (negb (bitand (regs s stat) stat_sourceModeOAM =? 0) && ppuMode_eqb (mode (timing s)) oamScan)
 || (negb (bitand (regs s stat) stat_sourceModeVblank =? 0) && ppuMode_eqb (mode (timing s)) vblank)
 || (negb (bitand (regs s stat) stat_sourceModeHblank =? 0) && ppuMode_eqb (mode (timing s)) hblank)).

(** The colour [fill] leaves in a buffer: [PALETTE_CLASSIC[4]] as a
    [Uint32Array] keeps it. *)
Definition blank `{Palette} : Z := storeUint32 (ta_get PALETTE_CLASSIC 4).

(** The register file holds bytes. *)
Definition byteRegisters (s : t) : Prop := forall r : reg, 0 <= regs s r < 0x100.

(** The registers that [install] leaves with [registerRead] and
    [registerWrite]. *)
Definition plain (r : reg) : bool :=
match r with
| scy | scx | lyc | obp0 | obp1 | wy | wx => true
| _ => false
end.

End PpuViews.

(* ===================================================================== *)
(** * Sequences of writes to the cartridge *)
(* ===================================================================== *)

Module Mbc3Runs.
Import Js Mbc3.

(** A sequence of bus writes, each an address and a value; [None] when an
    address is not one the cartridge maps. The sequence stops at the first
    write that throws. *)
Fixpoint busWrites `{Host} (ws : list (Z * Z)) (s : t) : option (completion t) :=
match ws with
| [] => Some (Normal s)
| (address, value) :: ws' =>
    match busWrite address value s with
    | Some (Normal s') => busWrites ws' s'
    | r => r
    end
end.

(** The bank windows as the constructor lays them out over an image of at
    least [n] banks. *)
Definition romLayout (s : t) (n : Z) : Prop :=
2 <= n
/\ romBanks (banks s) = bankViews (len (image (cart s))) 0x4000 (Z.to_nat n)
/\ n * 0x4000 <= len (image (cart s)).

End Mbc3Runs.

(* ===================================================================== *)
(** * Sequences of calls of the PPU *)
(* ===================================================================== *)

Module PpuRuns.
Import Js Ppu.

(** The clock drives the PPU by calling [cycle] again and again: one call
    for each entry of [counts], with that many clocks. *)
Fixpoint cycles {E} `{Devices E} (fuel : nat) (counts : list Z) (w : World E)
  : option (World E) :=
match counts with
| [] => Some w
| n :: rest =>
    match cycle fuel n w with
    | Some w' => cycles fuel rest w'
    | None => None
    end
end.

(** The clocks the calls add up to. *)
Definition clocks (counts : list Z) : Z := fold_right Z.add 0 counts.

End PpuRuns.

(* ===================================================================== *)
(** * The environment of the CPU tests (newEnvironment) *)
(* ===================================================================== *)

Module TestBench.
Import Js.

(** What the tests put around a CPU: 64 KiB of memory mapped at
    0x0000..0x7fff, the interrupt registers, a clock and a break sink. *)
Record World : Type := {
  memory : list Z;
  reg_ie : Z;
  reg_if : Z;
  clockCycles : Z;
  breaks : list string;
}.

Definition with_memory (v : list Z) (w : World) : World :=
{| memory := v; reg_ie := reg_ie w; reg_if := reg_if w;
   clockCycles := clockCycles w; breaks := breaks w |}.
Definition with_ie (v : Z) (w : World) : World :=
{| memory := memory w; reg_ie := v; reg_if := reg_if w;
   clockCycles := clockCycles w; breaks := breaks w |}.
Definition with_if (v : Z) (w : World) : World :=
{| memory := memory w; reg_ie := reg_ie w; reg_if := v;
   clockCycles := clockCycles w; breaks := breaks w |}.

(** The break sink of the bench keeps the message and returns, so that a
    run can be looked at afterwards. The handler [newEnvironment] registers
    throws an [Error] with the message instead, which ends the run at the
    first break; the bench follows it up to that break. *)
Definition break (message : string) (w : World) : World :=
{| memory := memory w; reg_ie := reg_ie w; reg_if := reg_if w;
   clockCycles := clockCycles w; breaks := message :: breaks w |}.

#[global] Instance system : Bus.SystemInterface World := {| Bus.system_break := break |}.

(** Modelled from the spec: the interrupt controller of interrupt.ts (not
    part of the sources) installs handlers for IF at 0xFF0F and IE at
    0xFFFF; the upper three bits of IF read back as 1. *)
Definition address_if : Z := 0xff0f.
Definition address_ie : Z := 0xffff.

(** [bus.read]: the handler the bench mapped on the address, or the
    bus's own [invalidRead]. *)
Definition read (address : Z) (w : World) : Z * World :=
if (0 <=? address) && (address <? 0x8000) then (asInt (ta_get (memory w) address), w)
else if address =? address_if then (bitor (reg_if w) 0xe0, w)
else if address =? address_ie then (reg_ie w, w)
else Bus.invalidRead address w.

Definition write (address value : Z) (w : World) : World :=
if (0 <=? address) && (address <? 0x8000) then with_memory (ta_set8 (memory w) address value) w
else if address =? address_if then with_if (toUint8 value) w
else if address =? address_ie then with_ie (toUint8 value) w
else Bus.invalidWrite address value w.

(** Modelled from the spec: [read16(a)] reads little-endian from [a] and
    [a + 1], wrapping at 16 bits. *)
Definition read16 (address : Z) (w : World) : Z * World :=
let '(lo, w) := read address w in
let '(hi, w) := read (bitand (address + 1) 0xffff) w in
(bitor lo (shl hi 8), w).

(** The clock of the bench only counts the cycles it is given. *)
Definition increment (cycles : Z) (w : World) : World :=
{| memory := memory w; reg_ie := reg_ie w; reg_if := reg_if w;
   clockCycles := clockCycles w + cycles; breaks := breaks w |}.

#[global] Instance environment : Cpu.Environment World :=
{| Cpu.bus_read := read;
   Cpu.bus_read16 := read16;
   Cpu.bus_write := write;
   Cpu.clock_increment := increment;
   Cpu.system_break := break |}.

(** [newEnvironment(code)]: the code sits at 0x0100, the CPU is reset. *)
Definition newEnvironment (code : list Z) : Cpu.CpuState * World :=
let memory := replicate (Z.to_nat 0x10000) 0 in
let memory := take 0x100 memory ++ code ++ drop (0x100 + length code) memory in
(Cpu.reset Cpu.constructor,
 {| memory := memory; reg_ie := 0; reg_if := 0; clockCycles := 0; breaks := [] |}).

(** [setup(enableInterrupts, iflag, iena)] of the interrupt dispatch tests,
    around the program [code]. *)
Definition setup (code : list Z) (enableInterrupts : bool) (iflag iena : Z)
  : Cpu.CpuState * World :=
let '(cpu, w) := newEnvironment code in
let w := write address_if iflag w in
let w := write address_ie iena w in
let cpu := Cpu.with_enableInterrupts enableInterrupts cpu in
let cpu := Cpu.set_r16 r16.sp 0x1000 cpu in
(cpu, w).

(** What the tests look at after a run: PC, IME, SP, IF, the cycles the
    clock was given, the messages sent to the break sink, and the two
    bytes below the initial stack pointer 0x1000. *)
Record Observation : Type := {
  obs_p : Z;
  obs_ime : bool;
  obs_sp : value;
  obs_a : value;
  obs_if : Z;
  obs_cycles : Z;
  obs_breaks : list string;
  obs_stack : value * value;     (* memory[0x0fff], memory[0x0ffe] *)
}.

Definition observe (r : completion (Cpu.CpuState * World)) : option Observation :=
match r with
| Normal (cpu, w) =>
    Some {| obs_p := Cpu.p cpu;
            obs_ime := Cpu.enableInterrupts cpu;
            obs_sp := Cpu.get_r16 cpu r16.sp;
            obs_a := Cpu.get_r8 cpu r8.a;
            obs_if := reg_if w;
            obs_cycles := clockCycles w;
            obs_breaks := breaks w;
            obs_stack := (ta_get (memory w) 0x0fff, ta_get (memory w) 0x0ffe) |}
| Throw _ => None
end.

(** The setups of spec scenarios 8 (interrupt dispatch: IME on, IE = 0x1F,
    IF = vblank, a NOP at 0x0100) and 6 (OR D with A = 0x15, D = 0x32). *)
Definition scenario8 : Cpu.CpuState * World := setup [0x00] true 0x01 0x1f.

Definition scenario6 : Cpu.CpuState * World :=
let '(cpu, w) := newEnvironment [0xb2] in
(Cpu.set_r8 r8.d 0x32 (Cpu.set_r8 r8.a 0x15 cpu), w).

(** JP 0x1234 at 0x0100. *)
Definition jumpProgram : Cpu.CpuState * World := newEnvironment [0xc3; 0x34; 0x12].

End TestBench.

(* ===================================================================== *)
(** * Concrete machines used as examples *)
(* ===================================================================== *)

Module Mbc3Sample.
Import Js Mbc3.

(** A wall clock that starts on 2023-11-14 and advances by one second from
    one reading to the next. *)
Definition host : Host :=
{| Date_now := fun k => 1700000000000 + 1000 * Z.of_nat k |}.

(** A 32 KiB cartridge with one 8 KiB bank of battery-backed RAM and a
    timer. *)
Definition cartridge : CartridgeBase :=
{| image := []; type := mbc3_timer_ram_battery; size := 0x8000; ramSize := 0x2000 |}.

(** Construct the controller, then reset it with the saved RAM. *)
Definition powerOn (c : CartridgeBase) (savedRam : option (list Z)) : completion t :=
bind (@constructor host c 0) (@reset host savedRam).

(** The state [powerOn cartridge None] leaves. *)
Definition fresh : t :=
{| cart := cartridge;
   banks := {| romBank1 := Some {| v_off := 0; v_len := 0 |};
               romBankIndex := Fin 1;
               romBanks := [{| v_off := 0; v_len := 0 |}; {| v_off := 0; v_len := 0 |}];
               ramBanks := [{| v_off := 0; v_len := 0x2000 |}];
               ramBankIndex := Fin 0;
               ramBank := Some {| v_off := 0; v_len := 0x2000 |} |};
   ram := replicate (Z.to_nat 0x2000) 0;
   rtc := {| secondsLatched := 0; minutesLatched := 0; hoursLatched := 0;
             daysLatched := 0; secondsCurrent := 0; minutesCurrent := 0;
             hoursCurrent := 0; daysCurrent := 0 |};
   halt := false; ramEnable := false; registerSelect := 0; lastLatch := 0xff;
   referenceTimestamp := 1700000000; clockReads := 2 |}.

(** [fresh] after 0x0A was written to 0x0000, and after 0x08 (the seconds
    register) was then written to 0x4000. *)
Definition ramOn : t := with_ramEnable true fresh.
Definition secondsSelected : t := with_registerSelect 0x08 ramOn.

(** [ramOn] after 0x42 was written to 0xA000. *)
Definition played : t := with_ram (<[0%nat := 0x42]> (ram ramOn)) ramOn.

(** A sequence of bus writes. *)
Fixpoint writes (ws : list (Z * Z)) (s : t) : option (completion t) :=
match ws with
| [] => Some (Normal s)
| (address, value) :: ws' =>
    match @busWrite host address value s with
    | Some (Normal s') => writes ws' s'
    | r => r
    end
end.

End Mbc3Sample.

Module PpuSample.
Import Js Ppu.

Definition palette : Palette :=
{| PALETTE_CLASSIC := [0xffffffff; 0xffaaaaaa; 0xff555555; 0xff000000; 0xffd0f8e0] |}.

(** Devices whose every address [a] reads as [a mod 251]. *)
Definition pattern : Devices unit :=
{| ext_read := fun a e => (Num (a mod 251), e) |}.

(** A PPU after [reset], on an unlocked bus, with no interrupt raised. *)
Definition afterReset : t :=
match @reset palette (@create palette) with
| Normal s => s
| Throw _ => @create palette
end.

Definition world : World unit :=
{| ppu := afterReset; busLocked := false; raised := []; ext := tt |}.

End PpuSample.

Module SampleQueueSample.
Import Js SampleQueue.

(** Samples that are single precision already, as integers. *)
Definition exact : Float32 Z :=
{| fround := fun x => x; zero := 0; nan := -1;
   fround_fround := fun _ => eq_refl; fround_zero := eq_refl |}.

(** A queue for a sample rate of 8 (so four cells per channel) after six
    pushes, and a stereo buffer of three frames. *)
Definition pushed : list (Z * Z) :=
[(1, 10); (2, 20); (3, 30); (4, 40); (5, 50); (6, 60)].

Definition queue : t Z :=
match @constructor Z exact 8 with
| Normal q => @pushAll Z exact pushed q
| Throw _ =>
    {| sampleRate := 8; capacity := int 4; channelLeftData := [];
       channelRightData := []; length := 0; nextSample := int 0 |}
end.

Definition silence : AudioBuffer Z :=
{| buffer_length := 3; channels := [[0; 0; 0]; [0; 0; 0]] |}.

(** A queue for the odd sample rate 7 (a capacity of 3.5, three cells per
    channel) after five pushes, and a stereo buffer of five frames. *)
Definition oddQueue : t Z :=
match @constructor Z exact 7 with
| Normal q => @pushAll Z exact [(1, 11); (2, 12); (3, 13); (4, 14); (5, 15)] q
| Throw _ =>
    {| sampleRate := 7; capacity := Twice 7; channelLeftData := [];
       channelRightData := []; length := 0; nextSample := int 0 |}
end.

Definition fiveFrames : AudioBuffer Z :=
{| buffer_length := 5; channels := [[0; 0; 0; 0; 0]; [0; 0; 0; 0; 0]] |}.

End SampleQueueSample.

Module ClockSample.
Import ClockCgb.

(** A clock in double speed, one with a speed switch asked for, and devices
    that were given nothing yet. *)
Definition doubleClock : t := with_doubleSpeed true create.

Definition switching : t := key1Write 0xff4d 0x01 create.

Definition noCycles : Ledger :=
{| ppuClocks := 0; timerCycles := 0; serialCycles := 0; apuCycles := 0 |}.

End ClockSample.

Module CpuSample.
Import Js Instruction.

(** The registers after [reset], and a bench whose memory holds [code] from
    0x0100 on. *)
Definition boot : Cpu.CpuState := Cpu.reset Cpu.constructor.

Definition bench (code : list Z) : TestBench.World :=
{| TestBench.memory := replicate 0x100 0 ++ code;
   TestBench.reg_ie := 0; TestBench.reg_if := 0;
   TestBench.clockCycles := 0; TestBench.breaks := [] |}.

(** The table's entries for INC B, DEC B, XOR A, JR NZ and OR D. *)
Definition inc_b : Instruction :=
{| opcode := 0x04; operation := Operation_inc; addressingMode := AddressingMode_reg8;
   par1 := r8.b; par2 := 0; cycles := 1; len := 1 |}.

Definition dec_b : Instruction :=
{| opcode := 0x05; operation := Operation_dec; addressingMode := AddressingMode_reg8;
   par1 := r8.b; par2 := 0; cycles := 1; len := 1 |}.

Definition xor_a : Instruction :=
{| opcode := 0xaf; operation := Operation_xor; addressingMode := AddressingMode_reg8;
   par1 := r8.a; par2 := 0; cycles := 1; len := 1 |}.

Definition jr_nz : Instruction :=
{| opcode := 0x20; operation := Operation_jrnz; addressingMode := AddressingMode_imm8;
   par1 := 0; par2 := 0; cycles := 2; len := 2 |}.

Definition or_d : Instruction :=
{| opcode := 0xb2; operation := Operation_or; addressingMode := AddressingMode_reg8;
   par1 := r8.d; par2 := 0; cycles := 1; len := 1 |}.

(** The machine of the interrupt dispatch tests on such a bench: interrupts
    enabled, SP = 0x1000, IE = 0x1F, the vblank bit set in IF, a NOP at
    0x0100. *)
Definition armed : Cpu.CpuState :=
Cpu.with_enableInterrupts true (Cpu.set_r16 r16.sp 0x1000 boot).

Definition pendingVblank : TestBench.World :=
{| TestBench.memory := replicate 0x100 0 ++ [0x00];
   TestBench.reg_ie := 0x1f; TestBench.reg_if := 0x01;
   TestBench.clockCycles := 0; TestBench.breaks := [] |}.

(** The registers of the OR D tests: A = 0x15, D = 0x32. *)
Definition beforeOr : Cpu.CpuState := Cpu.set_r8 r8.d 0x32 (Cpu.set_r8 r8.a 0x15 boot).

End CpuSample.

Module PpuTiny.
Import Js Ppu.

(** A PPU with buffers of two pixels, the LCD on, in its seventh frame;
    the same PPU with the LCD off, on an idle bus. *)
Definition lit : t :=
{| timing := {| mode := oamScan; clockInMode := 0; scanline := 0 |};
   video := {| frame := 7; skipFrame := false; paletteBG := [1; 2; 3; 4];
               frontBuffer := [10; 11]; backBuffer := [20; 21] |};
   vram := []; oam := []; stat_line := false;
   dmaInProgress := false; dmaCycle := 0;
   regs := fun r => match r with lcdc => 0x80 | _ => 0 end |}.

Definition dark : World unit :=
{| ppu := with_regs (fun _ => 0) lit; busLocked := false; raised := []; ext := tt |}.

End PpuTiny.

Module Mbc3RunSample.
Import Js Mbc3 Mbc3Runs.

(** The state the constructor leaves for the cartridge of [Mbc3Sample],
    and the state after RAM was enabled, the seconds register selected and
    the clock latched (0 then 1 written to 0x6000). *)
Definition built : t :=
match @constructor Mbc3Sample.host Mbc3Sample.cartridge 0 with
| Normal s => s
| Throw _ => Mbc3Sample.fresh
end.

Definition latching : list (Z * Z) :=
[(0x0000, 0x0a); (0x4000, 0x08); (0x6000, 0x00); (0x6000, 0x01)].

Definition latchedOnce : t :=
match @busWrites Mbc3Sample.host latching Mbc3Sample.fresh with
| Some (Normal s) => s
| _ => Mbc3Sample.fresh
end.

(** A cartridge of two ROM banks, the first filled with 0x11 and the second
    with 0x22, without RAM and without a battery. *)
Definition twoBanks : CartridgeBase :=
{| image := replicate (Z.to_nat 0x4000) 0x11 ++ replicate (Z.to_nat 0x4000) 0x22;
   type := mbc3; size := 0x8000; ramSize := 0 |}.

Definition twoBanksBuilt : t :=
match @constructor Mbc3Sample.host twoBanks 0 with
| Normal s => s
| Throw _ => Mbc3Sample.fresh
end.

End Mbc3RunSample.


(* ===================================================================== *)
(** * Statements *)
(* ===================================================================== *)

(** Case analysis on the integer comparisons of a goal. *)
Ltac zcases :=
  repeat match goal with
         | |- context [?a <=? ?b] => destruct (Z.leb_spec a b)
         | |- context [?a <? ?b] => destruct (Z.ltb_spec a b)
         | |- context [?a =? ?b] => destruct (Z.eqb_spec a b)
         end;
  simpl; try lia.

(* --------------------------------------------------------------------- *)
(** ** Facts about the host language conventions *)
(* --------------------------------------------------------------------- *)

Module JsFacts.
Import Js.

Lemma toInt32_small (x : Z) : - 2 ^ 31 <= x < 2 ^ 31 -> toInt32 x = x.
Proof. intros Hx. unfold toInt32. rewrite Z.mod_small; lia. Qed.

Lemma toInt32_range (x : Z) : - 2 ^ 31 <= toInt32 x < 2 ^ 31.
Proof.
  unfold toInt32.
  pose proof (Z.mod_pos_bound (x + 2 ^ 31) (2 ^ 32) ltac:(lia)). lia.
Qed.

Lemma toUint32_toInt32 (x : Z) : toUint32 (toInt32 x) = toUint32 x.
Proof.
  unfold toUint32, toInt32.
  rewrite <- Zminus_mod_idemp_l.
  replace ((x + 2 ^ 31) mod 2 ^ 32 mod 2 ^ 32) with ((x + 2 ^ 31) mod 2 ^ 32)
    by (symmetry; apply Z.mod_mod; lia).
  rewrite Zminus_mod_idemp_l. f_equal. lia.
Qed.

Lemma toUint8_toUint32 (x : Z) : toUint8 (toUint32 x) = toUint8 x.
Proof.
  unfold toUint8, toUint32.
  apply Z.mod_mod_divide.
  exists (2 ^ 24). reflexivity.
Qed.

Lemma toUint8_small (x : Z) : 0 <= x < 256 -> toUint8 x = x.
Proof. intros Hx. unfold toUint8. apply Z.mod_small. lia. Qed.

Lemma toUint8_range (x : Z) : 0 <= toUint8 x < 256.
Proof. unfold toUint8. apply Z.mod_pos_bound. lia. Qed.

(** Disjoint bit ranges: or-ing is adding. *)
Lemma lor_shiftl_add (x y k : Z) :
  0 <= k -> 0 <= x < 2 ^ k -> Z.lor x (Z.shiftl y k) = x + Z.shiftl y k.
Proof.
  intros Hk Hx.
  assert (Hdisj : Z.land x (Z.shiftl y k) = 0).
  { apply Z.bits_inj'; intros i Hi. rewrite Z.land_spec, Z.bits_0.
    destruct (Z.lt_ge_cases i k) as [Hlt | Hge].
    - rewrite Z.shiftl_spec_low by lia. apply andb_false_r.
    - destruct (Z.eq_dec x 0) as [-> | Hne]; [now rewrite Z.bits_0 |].
      rewrite (Z.bits_above_log2 x i); [reflexivity | lia |].
      apply Z.lt_le_trans with k; [apply Z.log2_lt_pow2; lia | lia]. }
  rewrite Z.add_nocarry_lxor by exact Hdisj.
  symmetry. now apply Z.lxor_lor.
Qed.

Lemma ta_get_lookup (a : list Z) (i : nat) :
  ta_get a (Z.of_nat i) = match a !! i with Some x => Num x | None => Undefined end.
Proof.
  unfold ta_get. destruct (Z.leb_spec 0 (Z.of_nat i)); [| lia].
  now rewrite Nat2Z.id.
Qed.

Lemma lor_mul_pow2_add (x y k : Z) :
  0 <= k -> 0 <= x < 2 ^ k -> Z.lor x (y * 2 ^ k) = x + y * 2 ^ k.
Proof. intros Hk Hx. rewrite <- Z.shiftl_mul_pow2 by lia. now apply lor_shiftl_add. Qed.

Lemma toInt32_mod (x : Z) : toInt32 (x mod 2 ^ 32) = toInt32 x.
Proof. unfold toInt32. f_equal. rewrite Zplus_mod_idemp_l. reflexivity. Qed.

Lemma shl_byte (b k : Z) : 0 <= b < 256 -> 0 <= k <= 16 -> shl b k = b * 2 ^ k.
Proof.
  intros Hb Hk. unfold shl.
  assert (toUint32 k mod 32 = k) as ->.
  { unfold toUint32. rewrite (Z.mod_small k) by lia. apply Z.mod_small. lia. }
  rewrite (toInt32_small b) by lia.
  rewrite Z.shiftl_mul_pow2 by lia.
  apply toInt32_small.
  assert (2 ^ k <= 2 ^ 16) by (apply Z.pow_le_mono_r; lia).
  assert (0 < 2 ^ k) by (apply Z.pow_pos_nonneg; lia).
  nia.
Qed.

Lemma shl_byte_24 (b : Z) :
  0 <= b < 256 -> shl b 24 = Z.shiftl (if b <? 128 then b else b - 256) 24.
Proof.
  intros Hb. unfold shl.
  change (toUint32 24 mod 32) with 24.
  rewrite (toInt32_small b) by lia.
  rewrite !Z.shiftl_mul_pow2 by lia.
  unfold toInt32. destruct (Z.ltb_spec b 128).
  - rewrite Z.mod_small; lia.
  - replace (b * 2 ^ 24 + 2 ^ 31) with ((b * 2 ^ 24 - 2 ^ 31) + 1 * 2 ^ 32) by lia.
    rewrite Z.mod_add by lia. rewrite Z.mod_small; lia.
Qed.

(** Four bytes or-ed together as [b0 | b1 << 8 | b2 << 16 | b3 << 24]. *)
Lemma decode_bytes (b0 b1 b2 b3 : Z) :
  0 <= b0 < 256 -> 0 <= b1 < 256 -> 0 <= b2 < 256 -> 0 <= b3 < 256 ->
  bitor (bitor (bitor b0 (shl b1 8)) (shl b2 16)) (shl b3 24)
  = toInt32 (b0 + b1 * 2 ^ 8 + b2 * 2 ^ 16 + b3 * 2 ^ 24).
Proof.
  intros H0 H1 H2 H3.
  rewrite (shl_byte b1 8), (shl_byte b2 16), shl_byte_24 by lia.
  assert (E1 : bitor b0 (b1 * 2 ^ 8) = b0 + b1 * 2 ^ 8).
  { unfold bitor. rewrite !toInt32_small by lia. apply lor_mul_pow2_add; lia. }
  rewrite E1.
  assert (E2 : bitor (b0 + b1 * 2 ^ 8) (b2 * 2 ^ 16) = b0 + b1 * 2 ^ 8 + b2 * 2 ^ 16).
  { unfold bitor. rewrite !toInt32_small by lia. apply lor_mul_pow2_add; lia. }
  rewrite E2.
  set (y := if b3 <? 128 then b3 else b3 - 256).
  assert (Hy : -128 <= y < 128) by (subst y; destruct (Z.ltb_spec b3 128); lia).
  unfold bitor. rewrite (toInt32_small (b0 + _ + _)) by lia.
  rewrite (toInt32_small (Z.shiftl y 24)) by (rewrite Z.shiftl_mul_pow2 by lia; lia).
  rewrite lor_shiftl_add by lia.
  rewrite Z.shiftl_mul_pow2 by lia.
  subst y. unfold toInt32. destruct (Z.ltb_spec b3 128).
  - rewrite Z.mod_small; lia.
  - replace (b0 + b1 * 2 ^ 8 + b2 * 2 ^ 16 + b3 * 2 ^ 24 + 2 ^ 31)
      with ((b0 + b1 * 2 ^ 8 + b2 * 2 ^ 16 + b3 * 2 ^ 24 - 2 ^ 31) + 1 * 2 ^ 32) by lia.
    rewrite Z.mod_add by lia. rewrite Z.mod_small; lia.
Qed.

(** The byte a [Uint8Array] keeps of [x >>> k]. *)
Lemma ushr_byte (x k : Z) :
  0 <= k <= 24 -> toUint8 (ushr x k) = (x / 2 ^ k) mod 256.
Proof.
  intros Hk. unfold toUint8, ushr, toUint32.
  rewrite (Z.mod_small k (2 ^ 32)) by lia.
  rewrite (Z.mod_small k 32) by lia.
  rewrite Z.shiftr_div_pow2 by lia.
  change (2 ^ 8) with 256.
  assert (Hp : 2 ^ 32 = 2 ^ (24 - k) * 256 * 2 ^ k).
  { change 256 with (2 ^ 8). rewrite <- !Z.pow_add_r by lia. f_equal. lia. }
  assert (0 < 2 ^ k) by (apply Z.pow_pos_nonneg; lia).
  rewrite (Z.div_mod x (2 ^ 32)) at 2 by lia.
  rewrite Hp at 2.
  replace (2 ^ (24 - k) * 256 * 2 ^ k * (x / 2 ^ 32) + x mod 2 ^ 32)
    with (x mod 2 ^ 32 + (2 ^ (24 - k) * (x / 2 ^ 32) * 256) * 2 ^ k) by lia.
  rewrite Z.div_add by lia.
  rewrite Z.mod_add by lia. reflexivity.
Qed.

Lemma ta_get_app_r (a b : list Z) (i : Z) :
  0 <= i -> ta_get (a ++ b) (len a + i) = ta_get b i.
Proof.
  intros Hi. unfold ta_get, len.
  destruct (Z.leb_spec 0 (Z.of_nat (length a) + i)); [| lia].
  destruct (Z.leb_spec 0 i); [| lia].
  rewrite lookup_app_r by lia.
  replace (Z.to_nat (Z.of_nat (length a) + i) - length a)%nat with (Z.to_nat i) by lia.
  reflexivity.
Qed.

Lemma ta_store_app_r (a b : list Z) (i x : Z) :
  0 <= i -> ta_store (a ++ b) (len a + i) x = a ++ ta_store b i x.
Proof.
  intros Hi. unfold ta_store, len.
  destruct (Z.leb_spec 0 (Z.of_nat (length a) + i)); [| lia].
  destruct (Z.leb_spec 0 i); [| lia].
  replace (Z.to_nat (Z.of_nat (length a) + i)) with (length a + Z.to_nat i)%nat by lia.
  apply insert_app_r.
Qed.

Lemma ta_setAll_same_length (a src : list Z) :
  length src = length a -> ta_setAll a src = Normal src.
Proof.
  intros Hl. unfold ta_setAll.
  destruct (Nat.leb_spec (length src) (length a)); [| lia].
  rewrite drop_ge by lia. now rewrite app_nil_r.
Qed.

End JsFacts.

(* --------------------------------------------------------------------- *)
(** ** MBC3 *)
(* --------------------------------------------------------------------- *)

Module Mbc3Facts.
Import Js Mbc3 JsFacts.

(** *** The save format *)

Lemma le32_sum (x : Z) :
  x mod 256 + (x / 2 ^ 8) mod 256 * 2 ^ 8 + (x / 2 ^ 16) mod 256 * 2 ^ 16
  + (x / 2 ^ 24) mod 256 * 2 ^ 24 = x mod 2 ^ 32.
Proof.
  pose proof (Z.div_mod x (2 ^ 8) ltac:(lia)).
  pose proof (Z.div_mod (x / 2 ^ 8) (2 ^ 8) ltac:(lia)).
  pose proof (Z.div_mod (x / 2 ^ 8 / 2 ^ 8) (2 ^ 8) ltac:(lia)).
  pose proof (Z.div_mod (x / 2 ^ 8 / 2 ^ 8 / 2 ^ 8) (2 ^ 8) ltac:(lia)).
  pose proof (Z.mod_pos_bound x (2 ^ 8) ltac:(lia)).
  pose proof (Z.mod_pos_bound (x / 2 ^ 8) (2 ^ 8) ltac:(lia)).
  pose proof (Z.mod_pos_bound (x / 2 ^ 8 / 2 ^ 8) (2 ^ 8) ltac:(lia)).
  pose proof (Z.mod_pos_bound (x / 2 ^ 8 / 2 ^ 8 / 2 ^ 8) (2 ^ 8) ltac:(lia)).
  replace (x / 2 ^ 16) with (x / 2 ^ 8 / 2 ^ 8) by (rewrite Z.div_div by lia; reflexivity).
  replace (x / 2 ^ 24) with (x / 2 ^ 8 / 2 ^ 8 / 2 ^ 8) by (rewrite !Z.div_div by lia; reflexivity).
  change 256 with (2 ^ 8).
  apply Z.mod_unique_pos with (q := x / 2 ^ 8 / 2 ^ 8 / 2 ^ 8 / 2 ^ 8); lia.
Qed.

(** The four bytes [getRam] stores are the little-endian bytes. *)
Lemma store_bytes (x : Z) :
  [toUint8 x; toUint8 (ushr x 8); toUint8 (ushr x 16); toUint8 (ushr x 24)] = le32 x.
Proof. rewrite !ushr_byte by lia. reflexivity. Qed.

Lemma le32_toInt32 (x : Z) : le32 (toInt32 x) = le32 x.
Proof.
  rewrite <- !store_bytes. unfold ushr. rewrite toUint32_toInt32.
  rewrite <- (toUint8_toUint32 (toInt32 x)), toUint32_toInt32, toUint8_toUint32.
  reflexivity.
Qed.

Section WithHost.
Context `{Host}.

Lemma install_ramEnable (a : Z) : 0x0000 <= a < 0x2000 -> install a = Some RamEnableRegion.
Proof. intros Ha. unfold install. zcases; reflexivity. Qed.

Lemma install_ramBankIndex (a : Z) : 0x4000 <= a < 0x6000 -> install a = Some RamBankIndexRegion.
Proof. intros Ha. unfold install. zcases; reflexivity. Qed.

Lemma install_bankRam (a : Z) : 0xa000 <= a < 0xc000 -> install a = Some BankRamRegion.
Proof. intros Ha. unfold install. zcases; reflexivity. Qed.

(** With RAM disabled the window 0xA000..0xBFFF reads 0xFF and drops
    writes. *)
Lemma bankRam_disabled (s : t) (a x : Z) :
  ramEnable s = false ->
  0xa000 <= a < 0xc000 ->
  busRead a s = Some (Normal (Num 0xff)) /\ busWrite a x s = Some (Normal s).
Proof.
  intros Hdis Ha. unfold busRead, busWrite.
  rewrite (install_bankRam a Ha).
  unfold readBankRam, writeBankRam. now rewrite Hdis.
Qed.

(** C7, as the code has it: a write to 0x0000..0x1FFF enables the RAM
    exactly when the value is 0x0A and the cartridge has RAM; every other
    value disables it. While disabled, reads from 0xA000..0xBFFF return 0xFF
    and writes there leave the state as it is. *)
Theorem ram_enable_latch (s : t) (addr v : Z) :
  0x0000 <= addr < 0x2000 ->
  exists s',
    busWrite addr v s = Some (Normal s')
    /\ (ramEnable s' = true <-> v = 0x0a /\ 0 < len (ram s))
    /\ (ramEnable s' = false ->
        forall a x, 0xa000 <= a < 0xc000 ->
          busRead a s' = Some (Normal (Num 0xff))
          /\ busWrite a x s' = Some (Normal s')).
Proof.
  intros Haddr. exists (writeRamEnable addr v s). split; [| split].
  - unfold busWrite. now rewrite (install_ramEnable addr Haddr).
  - unfold writeRamEnable. simpl. rewrite andb_true_iff, Z.eqb_eq, Z.ltb_lt. reflexivity.
  - intros Hdis a x Ha. now apply bankRam_disabled.
Qed.

(** *** Selector values outside the RAM banks and the RTC registers *)

Lemma readRegister_other (r : Z) (s : t) :
  r < 0x08 \/ 0x0c < r -> readRegister r s = 0x00.
Proof. intros Hr. unfold readRegister. zcases; reflexivity. Qed.

Lemma writeRegister_other (r v : Z) (s : t) :
  r < 0x08 \/ 0x0c < r -> writeRegister r v s = s.
Proof. intros Hr. unfold writeRegister. zcases; reflexivity. Qed.

(** C10: a selector value in 0x04..0x07 or from 0x0D on is latched as it
    is (nothing else changes); from then on, in every state that still has
    this selector and RAM enabled, reads from 0xA000..0xBFFF return 0x00
    and writes there leave the state as it is. *)
Theorem undefined_selector (s : t) (addr v : Z) :
  0x4000 <= addr < 0x6000 ->
  0x04 <= v <= 0x07 \/ 0x0d <= v ->
  busWrite addr v s = Some (Normal (with_registerSelect v s))
  /\ registerSelect (with_registerSelect v s) = v
  /\ forall u,
       registerSelect u = v -> ramEnable u = true ->
       forall a x, 0xa000 <= a < 0xc000 ->
         busRead a u = Some (Normal (Num 0x00))
         /\ busWrite a x u = Some (Normal u).
Proof.
  intros Haddr Hv. split; [| split].
  - unfold busWrite. rewrite (install_ramBankIndex addr Haddr).
    unfold writeRamBankIndex. destruct (Z.leb_spec v 0x03); [lia | reflexivity].
  - reflexivity.
  - intros u Hsel Hen a x Ha. unfold busRead, busWrite.
    rewrite (install_bankRam a Ha). unfold readBankRam, writeBankRam.
    rewrite Hen, Hsel. simpl.
    destruct (Z.ltb_spec 0 v); [| lia].
    rewrite readRegister_other, writeRegister_other by lia. split; reflexivity.
Qed.

(** *** The RTC registers *)

Lemma latched_materializeClock (s : t) : latched (materializeClock s) = latched s.
Proof. reflexivity. Qed.

Lemma latched_updateClock (s : t) : latched (updateClock s) = latched s.
Proof. reflexivity. Qed.

Lemma latched_writeField (change : t -> t) (s : t) :
  (forall u, latched (change u) = latched u) ->
  latched (writeField change s) = latched s.
Proof.
  intros Hc. unfold writeField.
  destruct (halt s); destruct (halt (change _));
    rewrite ?latched_updateClock, Hc, ?latched_materializeClock; reflexivity.
Qed.

(** No register write reaches a latched field. *)
Lemma latched_writeRegister (r v : Z) (s : t) :
  latched (writeRegister r v s) = latched s.
Proof.
  unfold writeRegister.
  repeat match goal with
         | |- context [?a =? ?b] => destruct (a =? b)
         end;
    try reflexivity; apply latched_writeField; reflexivity.
Qed.

Lemma halt_materializeClock (s : t) : halt (materializeClock s) = halt s.
Proof. reflexivity. Qed.

Lemma halt_updateClock (s : t) : halt (updateClock s) = halt s.
Proof. reflexivity. Qed.

Lemma halt_writeField (change : t -> t) (s : t) (h : bool) :
  (forall u, halt (change u) = h) ->
  halt (writeField change s) = h.
Proof.
  intros Hc. unfold writeField.
  destruct (halt (change _)) eqn:E; rewrite ?halt_updateClock; apply Hc.
Qed.

Lemma halt_writeField_keep (change : t -> t) (s : t) :
  (forall u, halt (change u) = halt u) ->
  halt (writeField change s) = halt s.
Proof.
  intros Hc. unfold writeField.
  destruct (halt (change _)) eqn:E; rewrite ?halt_updateClock, Hc;
    destruct (halt s) eqn:Es; rewrite ?halt_materializeClock; congruence.
Qed.

(** Only a write to register 0x0C changes the halt flag. *)
Lemma halt_writeRegister (r v : Z) (s : t) :
  halt (writeRegister r v s)
  = if r =? 0x0c then negb (bitand v 0x40 =? 0) else halt s.
Proof.
  unfold writeRegister.
  destruct (Z.eqb_spec r 0x08); [subst; apply halt_writeField_keep; reflexivity |].
  destruct (Z.eqb_spec r 0x09); [subst; apply halt_writeField_keep; reflexivity |].
  destruct (Z.eqb_spec r 0x0a); [subst; apply halt_writeField_keep; reflexivity |].
  destruct (Z.eqb_spec r 0x0b); [subst; apply halt_writeField_keep; reflexivity |].
  destruct (Z.eqb_spec r 0x0c); [subst; apply halt_writeField; reflexivity |].
  reflexivity.
Qed.

(** What [readRegister] reports depends on the latched fields and the halt
    flag only. *)
Lemma readRegister_ext (r : Z) (s u : t) :
  latched u = latched s -> halt u = halt s -> readRegister r u = readRegister r s.
Proof.
  unfold latched, readRegister. intros [= H1 H2 H3 H4] Hh.
  now rewrite H1, H2, H3, H4, Hh.
Qed.

(** Bit 6 of a number, as [value & 0x40] computes it. *)
Lemma bitand_0x40 (v : Z) :
  (if negb (bitand v 0x40 =? 0) then 0x40 else 0) = bitand v 0x40.
Proof.
  unfold bitand. change (toInt32 0x40) with (2 ^ 6).
  assert (Hb : Z.land (toInt32 v) (2 ^ 6)
               = if Z.testbit (toInt32 v) 6 then 2 ^ 6 else 0).
  { apply Z.bits_inj'. intros i Hi. rewrite Z.land_spec, Z.pow2_bits_eqb by lia.
    destruct (Z.eqb_spec 6 i) as [<- | Hne].
    - destruct (Z.testbit (toInt32 v) 6); [now rewrite Z.pow2_bits_true | now rewrite Z.bits_0].
    - rewrite andb_false_r.
      destruct (Z.testbit (toInt32 v) 6); [now rewrite Z.pow2_bits_false by lia | now rewrite Z.bits_0]. }
  rewrite Hb. destruct (Z.testbit (toInt32 v) 6); reflexivity.
Qed.

(** C8, as the code has it: with RAM enabled and an RTC register
    [r] in 0x08..0x0C selected, a write of [v] through 0xA000..0xBFFF leaves
    the four latched fields as they were, and a read returns the latched
    field: for [r] up to 0x0B the read after the write returns what the
    read before it returned; for 0x0C only the halt bit (0x40) follows [v],
    the other bits still come from the latched day counter. *)
Theorem rtc_write_then_read (s : t) (r v a : Z) :
  ramEnable s = true ->
  registerSelect s = r ->
  0x08 <= r <= 0x0c ->
  0xa000 <= a < 0xc000 ->
  exists s',
    busWrite a v s = Some (Normal s')
    /\ latched s' = latched s
    /\ ramEnable s' = true /\ registerSelect s' = r
    /\ (r <> 0x0c -> busRead a s' = busRead a s)
    /\ (r = 0x0c ->
        busRead a s'
        = Some (Normal (Num
            (bitor (bitor (ushr (bitand (daysLatched (rtc s)) 0x0100) 8)
                          (bitand v 0x40))
                   (if 0x01ff <? daysLatched (rtc s) then 0x80 else 0))))).
Proof.
  intros Hen Hsel Hr Ha.
  exists (writeRegister r v s).
  assert (Hw : busWrite a v s = Some (Normal (writeRegister r v s))).
  { unfold busWrite. rewrite (install_bankRam a Ha). unfold writeBankRam.
    rewrite Hen, Hsel. simpl. destruct (Z.ltb_spec 0 r); [reflexivity | lia]. }
  assert (Hen' : ramEnable (writeRegister r v s) = true).
  { rewrite <- Hen. unfold writeRegister, writeField.
    repeat match goal with
           | |- context [if ?b then _ else _] => destruct b
           end; reflexivity. }
  assert (Hsel' : registerSelect (writeRegister r v s) = r).
  { rewrite <- Hsel at 2. unfold writeRegister, writeField.
    repeat match goal with
           | |- context [if ?b then _ else _] => destruct b
           end; reflexivity. }
  assert (Hread : forall u, ramEnable u = true -> registerSelect u = r ->
                            busRead a u = Some (Normal (Num (readRegister r u)))).
  { intros u Hu1 Hu2. unfold busRead. rewrite (install_bankRam a Ha).
    unfold readBankRam. rewrite Hu1, Hu2. simpl.
    destruct (Z.ltb_spec 0 r); [reflexivity | lia]. }
  repeat split; try assumption.
  - apply latched_writeRegister.
  - intros Hne. rewrite !Hread by assumption. do 3 f_equal.
    apply readRegister_ext; [apply latched_writeRegister |].
    rewrite halt_writeRegister. destruct (Z.eqb_spec r 0x0c); [lia | reflexivity].
  - intros ->. rewrite Hread by assumption. do 3 f_equal.
    pose proof (latched_writeRegister 0x0c v s) as Hl.
    pose proof (halt_writeRegister 0x0c v s) as Hh.
    unfold latched in Hl. injection Hl as _ _ _ Hd.
    unfold readRegister. simpl. rewrite Hd, Hh. simpl.
    now rewrite bitand_0x40.
Qed.

(** *** Saving and loading the battery-backed RAM *)

Lemma getRam_saveFormat (s : t) :
  isBattery (type (cart s)) = true -> getRam s = Some (saveFormat s).
Proof.
  intros Hb. unfold getRam, saveFormat. rewrite Hb. f_equal.
  rewrite drop_replicate.
  replace (length (ram s) + 4 - length (ram s))%nat with 4%nat by lia.
  unfold ta_set8. rewrite <- store_bytes.
  rewrite <- (Z.add_0_r (len (ram s))) at 1.
  rewrite !ta_store_app_r by lia. reflexivity.
Qed.

(** What [reset] does with a save of the right length on a battery-backed
    cartridge. *)
Lemma reset_load (c : t) (saved : list Z) :
  isBattery (type (cart c)) = true ->
  len saved = len (ram c) + 4 ->
  exists c',
    reset (Some saved) c = Normal c'
    /\ cart c' = cart c
    /\ ram c' = take (length (ram c)) saved
    /\ referenceTimestamp c'
       = bitor (bitor (bitor (asInt (ta_get saved (len (ram c))))
                             (shl (asInt (ta_get saved (len (ram c) + 1))) 8))
                      (shl (asInt (ta_get saved (len (ram c) + 2))) 16))
               (shl (asInt (ta_get saved (len (ram c) + 3))) 24).
Proof.
  intros Hc Hl. unfold reset.
  cbn [ram cart with_banks with_halt with_lastLatch with_ramEnable with_registerSelect].
  rewrite Hc. rewrite (proj2 (Z.eqb_eq _ _) Hl).
  assert (Ht : length (take (length (ram c)) saved) = length (ram c)).
  { rewrite length_take. unfold len in Hl. lia. }
  destruct (Z.ltb_spec 0 (len (ram c))) as [Hpos | Hzero].
  - unfold len at 1. rewrite Nat2Z.id.
    rewrite (ta_setAll_same_length _ _ Ht). cbn [bind].
    eexists. split; [reflexivity |]. repeat split.
  - assert (Hnil : ram c = []).
    { destruct (ram c); [reflexivity | unfold len in Hzero; simpl in Hzero; lia]. }
    cbn [bind]. eexists. split; [reflexivity |]. repeat split.
    cbn. now rewrite Hnil.
Qed.

(** A save of any other length is ignored. *)
Lemma reset_ignore (c : t) (saved : list Z) :
  isBattery (type (cart c)) = true ->
  len saved <> len (ram c) + 4 ->
  exists c',
    reset (Some saved) c = Normal c'
    /\ ram c' = ram c
    /\ referenceTimestamp c' = referenceTimestamp c.
Proof.
  intros Hc Hl. unfold reset.
  cbn [ram cart with_banks with_halt with_lastLatch with_ramEnable with_registerSelect].
  rewrite Hc. rewrite (proj2 (Z.eqb_neq _ _) Hl). cbn [bind].
  eexists. split; [reflexivity |]. split; reflexivity.
Qed.

(** C9: on a battery-backed cartridge, [getRam] produces the RAM bytes
    followed by the reference timestamp as 32 bits little-endian; fed to
    [reset] of a cartridge with the same RAM size, that array restores the
    RAM and the reference timestamp (as the signed 32-bit number its four
    bytes encode, so that saving again gives the same bytes; the timestamp
    itself whenever it fits 32 bits). A saved array of any other length than
    RAM size + 4 leaves RAM and timestamp as they were. *)
Theorem save_load_round_trip (s c : t) :
  isBattery (type (cart s)) = true ->
  isBattery (type (cart c)) = true ->
  length (ram c) = length (ram s) ->
  (exists c',
    getRam s = Some (saveFormat s)
    /\ reset (getRam s) c = Normal c'
    /\ ram c' = ram s
    /\ referenceTimestamp c' = toInt32 (referenceTimestamp s)
    /\ getRam c' = getRam s
    /\ (- 2 ^ 31 <= referenceTimestamp s < 2 ^ 31 ->
        referenceTimestamp c' = referenceTimestamp s))
  /\ (forall saved, len saved <> len (ram c) + 4 ->
      exists c',
        reset (Some saved) c = Normal c'
        /\ ram c' = ram c
        /\ referenceTimestamp c' = referenceTimestamp c).
Proof.
  intros Hs Hc Hlen. split; [| intros saved Hl; now apply reset_ignore].
  assert (Hn : len (ram c) = len (ram s)) by (unfold len; lia).
  rewrite (getRam_saveFormat s Hs).
  destruct (reset_load c (saveFormat s) Hc) as (c' & Hr & Hcart & Hram & Href).
  { unfold saveFormat, len. rewrite length_app. unfold len in Hn. simpl. lia. }
  exists c'.
  assert (Hram' : ram c' = ram s).
  { rewrite Hram, Hlen. unfold saveFormat. apply take_app_length. }
  assert (Href' : referenceTimestamp c' = toInt32 (referenceTimestamp s)).
  { rewrite Href, Hn. unfold saveFormat.
    rewrite <- (Z.add_0_r (len (ram s))) at 1.
    rewrite !ta_get_app_r by lia.
    change (ta_get (le32 (referenceTimestamp s)) 0)
      with (Num (referenceTimestamp s mod 256)).
    change (ta_get (le32 (referenceTimestamp s)) 1)
      with (Num ((referenceTimestamp s / 2 ^ 8) mod 256)).
    change (ta_get (le32 (referenceTimestamp s)) 2)
      with (Num ((referenceTimestamp s / 2 ^ 16) mod 256)).
    change (ta_get (le32 (referenceTimestamp s)) 3)
      with (Num ((referenceTimestamp s / 2 ^ 24) mod 256)).
    cbn [asInt].
    rewrite decode_bytes by (apply Z.mod_pos_bound; lia).
    rewrite le32_sum. apply toInt32_mod. }
  repeat split; try assumption.
  - rewrite getRam_saveFormat by (rewrite Hcart; exact Hc).
    f_equal. unfold saveFormat. rewrite Hram', Href'. f_equal.
    apply le32_toInt32.
  - intros Hrange. rewrite Href'. now apply toInt32_small.
Qed.

End WithHost.

Lemma powerOn_fresh :
  Mbc3Sample.powerOn Mbc3Sample.cartridge None = Normal Mbc3Sample.fresh.
Proof. vm_compute. reflexivity. Qed.

(** C7 as stated fails: 0x1A has low nibble 0x0A, yet writing it to 0x0000
    leaves the RAM of a freshly loaded cartridge (which has RAM) disabled. *)
Lemma ram_enable_low_nibble_counterexample :
  exists s',
    @busWrite Mbc3Sample.host 0x0000 0x1a Mbc3Sample.fresh = Some (Normal s')
    /\ ~ (ramEnable s' = true <-> Z.land 0x1a 0x0f = 0x0a).
Proof.
  exists (writeRamEnable 0 0x1a Mbc3Sample.fresh). split; [reflexivity |].
  intros [_ Hen]. specialize (Hen eq_refl). discriminate Hen.
Qed.

Lemma ram_enable_latch_witness :
  exists s',
    @busWrite Mbc3Sample.host 0x1234 0x0a Mbc3Sample.fresh = Some (Normal s')
    /\ ramEnable s' = true.
Proof.
  destruct (@ram_enable_latch Mbc3Sample.host Mbc3Sample.fresh 0x1234 0x0a
              ltac:(lia)) as (s' & Hw & Hen & _).
  exists s'. split; [exact Hw |].
  apply Hen. split; [reflexivity | vm_compute; reflexivity].
Defined.


(** C8 as stated fails: on a freshly loaded cartridge with RAM enabled and
    the seconds register selected, writing 5 and reading back gives 0. *)
Lemma rtc_write_then_read_counterexample :
  Mbc3Sample.writes [(0x0000, 0x0a); (0x4000, 0x08)] Mbc3Sample.fresh
  = Some (Normal Mbc3Sample.secondsSelected)
  /\ exists s',
       @busWrite Mbc3Sample.host 0xa000 5 Mbc3Sample.secondsSelected = Some (Normal s')
       /\ busRead 0xa000 s' = Some (Normal (Num 0))
       /\ busRead 0xa000 s' <> Some (Normal (Num (5 mod 60))).
Proof.
  split; [vm_compute; reflexivity |].
  exists (@writeRegister Mbc3Sample.host 0x08 5 Mbc3Sample.secondsSelected).
  split; [reflexivity |].
  assert (E : busRead 0xa000 (@writeRegister Mbc3Sample.host 0x08 5 Mbc3Sample.secondsSelected)
              = Some (Normal (Num 0))) by (vm_compute; reflexivity).
  split; [exact E |]. rewrite E. discriminate.
Qed.

Lemma rtc_write_then_read_witness :
  exists s',
    @busWrite Mbc3Sample.host 0xa000 5 Mbc3Sample.secondsSelected = Some (Normal s')
    /\ busRead 0xa000 s' = busRead 0xa000 Mbc3Sample.secondsSelected.
Proof.
  destruct (@rtc_write_then_read Mbc3Sample.host Mbc3Sample.secondsSelected
              0x08 5 0xa000 eq_refl eq_refl ltac:(lia) ltac:(lia))
    as (s' & Hw & _ & _ & _ & Hsame & _).
  exists s'. split; [exact Hw |]. apply Hsame. lia.
Defined.

Lemma undefined_selector_witness :
  busRead 0xa123 (with_registerSelect 0x05 Mbc3Sample.ramOn) = Some (Normal (Num 0x00))
  /\ @busWrite Mbc3Sample.host 0xa123 0x77 (with_registerSelect 0x05 Mbc3Sample.ramOn)
     = Some (Normal (with_registerSelect 0x05 Mbc3Sample.ramOn)).
Proof.
  destruct (@undefined_selector Mbc3Sample.host Mbc3Sample.ramOn 0x4000 0x05
              ltac:(lia) ltac:(lia)) as (_ & _ & Hsub).
  apply (Hsub (with_registerSelect 0x05 Mbc3Sample.ramOn) eq_refl eq_refl
           0xa123 0x77 ltac:(lia)).
Defined.

Lemma save_load_round_trip_witness :
  exists c',
    @reset Mbc3Sample.host (getRam Mbc3Sample.played) Mbc3Sample.fresh = Normal c'
    /\ ram c' = ram Mbc3Sample.played
    /\ referenceTimestamp c' = referenceTimestamp Mbc3Sample.played.
Proof.
  destruct (@save_load_round_trip Mbc3Sample.host Mbc3Sample.played Mbc3Sample.fresh
              eq_refl eq_refl eq_refl) as [(c' & _ & Hr & Hram & _ & _ & Href) _].
  exists c'. split; [exact Hr |]. split; [exact Hram |].
  apply Href. change (referenceTimestamp Mbc3Sample.played) with 1700000000. lia.
Defined.

End Mbc3Facts.

(* --------------------------------------------------------------------- *)
(** ** The PPU *)
(* --------------------------------------------------------------------- *)

Module PpuFacts.
Import Js Ppu PpuRuns JsFacts.

(** *** Access to VRAM and OAM *)

Lemma bitand_low (a k : Z) :
  0 <= a < 2 ^ 31 -> 0 <= k < 31 -> bitand a (Z.ones k) = a mod 2 ^ k.
Proof.
  intros Ha Hk. unfold bitand.
  rewrite (toInt32_small a) by lia.
  rewrite (toInt32_small (Z.ones k)).
  - apply Z.land_ones. lia.
  - rewrite Z.ones_equiv.
    assert (2 ^ k <= 2 ^ 30) by (apply Z.pow_le_mono_r; lia).
    assert (0 < 2 ^ k) by (apply Z.pow_pos_nonneg; lia). lia.
Qed.

Lemma vram_index (a : Z) : 0x8000 <= a < 0xa000 -> bitand a 0x1fff = a - 0x8000.
Proof.
  intros Ha. change 0x1fff with (Z.ones 13). rewrite bitand_low by lia.
  symmetry. apply Z.mod_unique_pos with (q := 4); lia.
Qed.

Lemma oam_index (a : Z) : 0xfe00 <= a < 0xfea0 -> bitand a 0xff = a - 0xfe00.
Proof.
  intros Ha. change 0xff with (Z.ones 8). rewrite bitand_low by lia.
  symmetry. apply Z.mod_unique_pos with (q := 254); lia.
Qed.

Lemma ta_get_set8_same (l : list Z) (i v : Z) :
  0 <= i < len l -> ta_get (ta_set8 l i v) i = Num (toUint8 v).
Proof.
  intros Hi. unfold ta_get, ta_set8, ta_store, len in *.
  destruct (Z.leb_spec 0 i); [| lia].
  rewrite list_lookup_insert_eq by lia. reflexivity.
Qed.

Lemma ta_get_in_range (l : list Z) (i : Z) :
  0 <= i < len l -> exists b, l !! Z.to_nat i = Some b /\ ta_get l i = Num b.
Proof.
  intros Hi. unfold ta_get, len in *.
  destruct (Z.leb_spec 0 i); [| lia].
  destruct (lookup_lt_is_Some_2 l (Z.to_nat i)) as [b Hb]; [lia |].
  exists b. now rewrite Hb.
Qed.

Lemma ppuMode_eqb_eq (a b : ppuMode) : ppuMode_eqb a b = true <-> a = b.
Proof. destruct a, b; unfold ppuMode_eqb; simpl; split; intros; congruence. Qed.

Lemma vramRead_with_vram (a : Z) (l : list Z) (s : t) :
  vramRead a (with_vram l s)
  = if negb (lcdEnabled s) || negb (ppuMode_eqb (mode (timing s)) draw)
    then ta_get l (bitand a 0x1fff) else Num 0xff.
Proof. reflexivity. Qed.

Lemma oamRead_with_oam (a : Z) (l : list Z) (s : t) :
  oamRead a (with_oam l s)
  = if negb (lcdEnabled s)
       || (negb (ppuMode_eqb (mode (timing s)) draw)
           && negb (ppuMode_eqb (mode (timing s)) oamScan))
    then ta_get l (bitand a 0xff) else Num 0xff.
Proof. reflexivity. Qed.

Lemma with_ppu_same {E : Type} (f : t -> t) (w : World E) :
  f (ppu w) = ppu w -> with_ppu f w = w.
Proof. intros Hf. destruct w. unfold with_ppu. cbn [ppu] in *. now rewrite Hf. Qed.

(** C5: a read of a VRAM address (0x8000..0x9FFF) returns 0xFF while the
    LCD is enabled and the mode is Draw; a read of an OAM address
    (0xFE00..0xFE9F) returns 0xFF while the LCD is enabled and the mode is
    Draw or OAM-scan. In every other mode, and whenever the LCD is disabled,
    a read returns the byte stored for the address and a write stores the
    byte, which the next read returns. Reads and writes are the handlers
    [install] maps on the address; a write that arrives while reads are
    answered with 0xFF is dropped. *)
Theorem vram_oam_access {E : Type} `{Palette} (w : World E) (a v : Z) :
  len (vram (ppu w)) = 0x2000 ->
  len (oam (ppu w)) = 0xa0 ->
  (0x8000 <= a < 0xa000 ->
     exists hw : Z -> Z -> World E -> World E,
       installedRead a = Some vramRead
       /\ installedWrite a = Some hw
       /\ hw a v w = with_ppu (vramWrite a v) w
       /\ (lcdEnabled (ppu w) = true -> mode (timing (ppu w)) = draw ->
           vramRead a (ppu w) = Num 0xff /\ hw a v w = w)
       /\ (lcdEnabled (ppu w) = false \/ mode (timing (ppu w)) <> draw ->
           (exists b, vram (ppu w) !! Z.to_nat (a - 0x8000) = Some b
                      /\ vramRead a (ppu w) = Num b)
           /\ vram (ppu (hw a v w))
              = <[Z.to_nat (a - 0x8000) := toUint8 v]> (vram (ppu w))
           /\ vramRead a (ppu (hw a v w)) = Num (toUint8 v)))
  /\ (0xfe00 <= a < 0xfea0 ->
     exists hw : Z -> Z -> World E -> World E,
       installedRead a = Some oamRead
       /\ installedWrite a = Some hw
       /\ hw a v w = with_ppu (oamWrite a v) w
       /\ (lcdEnabled (ppu w) = true ->
           mode (timing (ppu w)) = draw \/ mode (timing (ppu w)) = oamScan ->
           oamRead a (ppu w) = Num 0xff /\ hw a v w = w)
       /\ (lcdEnabled (ppu w) = false
           \/ (mode (timing (ppu w)) <> draw /\ mode (timing (ppu w)) <> oamScan) ->
           (exists b, oam (ppu w) !! Z.to_nat (a - 0xfe00) = Some b
                      /\ oamRead a (ppu w) = Num b)
           /\ oam (ppu (hw a v w))
              = <[Z.to_nat (a - 0xfe00) := toUint8 v]> (oam (ppu w))
           /\ oamRead a (ppu (hw a v w)) = Num (toUint8 v))).
Proof.
  intros Hv Ho. split; intros Ha.
  - exists (fun a v => with_ppu (vramWrite a v)).
    split; [unfold installedRead; zcases; reflexivity |].
    split; [unfold installedWrite; zcases; reflexivity |].
    split; [reflexivity |]. cbv beta. cbn [ppu with_ppu]. split.
    + intros Hen Hm. split.
      * unfold vramRead. rewrite Hen, Hm. reflexivity.
      * apply with_ppu_same. unfold vramWrite. rewrite Hen, Hm. reflexivity.
    + intros Hfree.
      assert (Hc : negb (lcdEnabled (ppu w))
                   || negb (ppuMode_eqb (mode (timing (ppu w))) draw) = true).
      { destruct Hfree as [-> | Hm]; [reflexivity |].
        destruct (mode (timing (ppu w))); try contradiction; apply orb_true_r. }
      unfold vramWrite. rewrite Hc, vramRead_with_vram. unfold vramRead. rewrite Hc.
      cbn [vram with_vram]. rewrite (vram_index a Ha). split; [| split].
      * apply ta_get_in_range. lia.
      * unfold ta_set8, ta_store. destruct (Z.leb_spec 0 (a - 0x8000)); [reflexivity | lia].
      * apply ta_get_set8_same. lia.
  - exists (fun a v => with_ppu (oamWrite a v)).
    split; [unfold installedRead; zcases; reflexivity |].
    split; [unfold installedWrite; zcases; reflexivity |].
    split; [reflexivity |]. cbv beta. cbn [ppu with_ppu]. split.
    + intros Hen Hm. split.
      * unfold oamRead. rewrite Hen. destruct Hm as [-> | ->]; reflexivity.
      * apply with_ppu_same. unfold oamWrite. rewrite Hen.
        destruct Hm as [-> | ->]; reflexivity.
    + intros Hfree.
      assert (Hc : negb (lcdEnabled (ppu w))
                   || (negb (ppuMode_eqb (mode (timing (ppu w))) draw)
                       && negb (ppuMode_eqb (mode (timing (ppu w))) oamScan)) = true).
      { destruct Hfree as [-> | [Hm1 Hm2]]; [reflexivity |].
        destruct (mode (timing (ppu w))); try contradiction; apply orb_true_r. }
      unfold oamWrite. rewrite Hc, oamRead_with_oam. unfold oamRead. rewrite Hc.
      cbn [oam with_oam]. rewrite (oam_index a Ha). split; [| split].
      * apply ta_get_in_range. lia.
      * unfold ta_set8, ta_store. destruct (Z.leb_spec 0 (a - 0xfe00)); [reflexivity | lia].
      * apply ta_get_set8_same. lia.
Qed.

(** *** The frame *)

Lemma wf_position_range (tm : Timing) :
  wfTiming tm -> 0 <= position tm < frameClocks.
Proof.
  unfold wfTiming, position, frameClocks, vblankStart, scanlineClocks.
  destruct (mode tm); lia.
Qed.

Lemma timingAt_line (ly x : Z) :
  0 <= ly < 144 -> 0 <= x < 456 ->
  timingAt (ly * 456 + x)
  = if x <? 80 then {| mode := oamScan; clockInMode := x; scanline := ly |}
    else if x <? 252 then {| mode := draw; clockInMode := x - 80; scanline := ly |}
    else {| mode := hblank; clockInMode := x - 252; scanline := ly |}.
Proof.
  intros Hly Hx. unfold timingAt, vblankStart, scanlineClocks.
  change (80 + 172 + 204) with 456. change (80 + 172) with 252.
  destruct (Z.ltb_spec (ly * 456 + x) (144 * 456)); [| lia].
  replace ((ly * 456 + x) mod 456) with x
    by (apply Z.mod_unique_pos with (q := ly); lia).
  replace ((ly * 456 + x) / 456) with ly
    by (apply Z.div_unique_pos with (r := x); lia).
  reflexivity.
Qed.

Lemma timingAt_vblank (c : Z) :
  0 <= c < 4560 ->
  timingAt (vblankStart + c)
  = {| mode := vblank; clockInMode := c; scanline := 144 + c / 456 |}.
Proof.
  intros Hc. unfold timingAt, vblankStart, scanlineClocks.
  change (80 + 172 + 204) with 456.
  destruct (Z.ltb_spec (144 * 456 + c) (144 * 456)); [lia |].
  f_equal; [lia |].
  rewrite Z.add_comm, Z.div_add by lia. lia.
Qed.

Lemma timingAt_position (tm : Timing) :
  wfTiming tm -> timingAt (position tm) = tm.
Proof.
  destruct tm as [m c ly].
  unfold wfTiming, position, scanlineClocks. cbn [mode clockInMode scanline].
  change (80 + 172 + 204) with 456. change (80 + 172) with 252.
  destruct m; intros Hwf.
  - replace (ly * 456 + 252 + c) with (ly * 456 + (252 + c)) by lia.
    rewrite timingAt_line by lia.
    destruct (Z.ltb_spec (252 + c) 80); [lia |].
    destruct (Z.ltb_spec (252 + c) 252); [lia |]. f_equal. lia.
  - rewrite timingAt_vblank by lia. destruct Hwf as [_ ->]. reflexivity.
  - rewrite timingAt_line by lia.
    destruct (Z.ltb_spec c 80); [reflexivity | lia].
  - replace (ly * 456 + 80 + c) with (ly * 456 + (80 + c)) by lia.
    rewrite timingAt_line by lia.
    destruct (Z.ltb_spec (80 + c) 80); [lia |].
    destruct (Z.ltb_spec (80 + c) 252); [| lia]. f_equal. lia.
Qed.

Lemma divTrunc_small (a b : Z) :
  0 <= a < 2 ^ 31 -> 0 < b -> divTrunc a b = a / b.
Proof.
  intros Ha Hb. unfold divTrunc.
  rewrite Z.quot_div_nonneg by lia.
  apply toInt32_small.
  pose proof (Z.div_pos a b ltac:(lia) Hb).
  assert (a / b < 2 ^ 31); [| lia].
  apply Z.div_lt_upper_bound; [lia |].
  change (2 ^ 31) with 2147483648 in *. nia.
Qed.

Lemma vblankCount_cons (i : irq) (l : list irq) :
  vblankCount (i :: l) = vblankCount l + (if irq_eqb i irq_vblank then 1 else 0).
Proof.
  unfold vblankCount. rewrite filter_cons.
  destruct (irq_eqb i irq_vblank) eqn:E.
  - rewrite decide_True by reflexivity. simpl length. lia.
  - rewrite decide_False by discriminate. lia.
Qed.

Lemma vblankEntries_none (p c : Z) :
  0 <= p -> 0 <= c -> p + c < frameClocks ->
  (p < vblankStart -> p + c < vblankStart) ->
  vblankEntries p c = 0.
Proof.
  unfold vblankEntries, frameClocks, vblankStart, scanlineClocks.
  intros Hp Hc Hlt Hno.
  change (144 * (80 + 172 + 204) + 4560) with 70224 in *.
  change (144 * (80 + 172 + 204)) with 65664 in *.
  destruct (Z.lt_ge_cases p 65664).
  - rewrite !Z.div_small by lia. reflexivity.
  - replace ((p + c + 4560) / 70224) with 1
      by (apply Z.div_unique_pos with (r := p + c + 4560 - 70224); lia).
    replace ((p + 4560) / 70224) with 1
      by (apply Z.div_unique_pos with (r := p + 4560 - 70224); lia).
    reflexivity.
Qed.

Lemma vblankEntries_enter (p c : Z) :
  0 <= p < vblankStart -> p + c = vblankStart ->
  vblankEntries p c = 1.
Proof.
  unfold vblankEntries, frameClocks, vblankStart, scanlineClocks.
  change (144 * (80 + 172 + 204) + 4560) with 70224 in *.
  change (144 * (80 + 172 + 204)) with 65664 in *.
  intros Hp Hc. rewrite Hc. change (65664 + 4560) with (1 * 70224).
  rewrite Z.div_mul by lia. rewrite Z.div_small by lia. reflexivity.
Qed.

Lemma vblankEntries_wrap (p c : Z) :
  vblankStart <= p -> 0 <= c -> p + c = frameClocks ->
  vblankEntries p c = 0.
Proof.
  unfold vblankEntries, frameClocks, vblankStart, scanlineClocks.
  change (144 * (80 + 172 + 204) + 4560) with 70224 in *.
  change (144 * (80 + 172 + 204)) with 65664 in *.
  intros Hp Hc0 Hc. rewrite Hc.
  replace ((70224 + 4560) / 70224) with 1 by reflexivity.
  replace ((p + 4560) / 70224) with 1
    by (apply Z.div_unique_pos with (r := p + 4560 - 70224); lia).
  reflexivity.
Qed.


Lemma frame_constants :
  scanlineClocks = 456 /\ vblankStart = 65664 /\ frameClocks = 70224.
Proof. repeat split. Qed.

Ltac frame_consts :=
  destruct frame_constants as (Hsc & Hvs & Hfc);
  rewrite ?Hsc, ?Hvs, ?Hfc in *.


Ltac timing_arith :=
  try rewrite Z.mod_small by lia;
  try rewrite divTrunc_small by lia;
  try change (0 / 456) with 0;
  try lia; try reflexivity.

Section WithDevices.
Context {E : Type} `{Devices E}.

Lemma consumeClocks_spec (k : Z) (w : World E) :
  wfTiming (timing (ppu w)) ->
  0 < k ->
  let p := position (timing (ppu w)) in
  let c := fst (consumeClocks k w) in
  let w' := snd (consumeClocks k w) in
  0 < c <= k
  /\ wfTiming (timing (ppu w'))
  /\ position (timing (ppu w')) = (p + c) mod frameClocks
  /\ vblankCount (raised w') = vblankCount (raised w) + vblankEntries p c
  /\ outsideMachine w' = outsideMachine w.
Proof.
  intros Hwf Hk.
  pose proof (wf_position_range _ Hwf) as Hp.
  destruct w as [s lock rs e]. cbn [ppu raised] in *.
  destruct s as [[m c0 ly] vid vr om sl dp dc rg]. cbn [timing] in *.
  unfold consumeClocks, wfTiming, position in *.
  cbn [ppu raised timing mode clockInMode scanline] in *.
  destruct m.
  - (* hblank *)
    destruct (Z.leb_spec 204 (k + c0)).
    + destruct (Z.eqb_spec (ly + 1) 144).
      * cbn. rewrite vblankCount_cons. cbn.
        rewrite vblankEntries_enter by (frame_consts; lia).
        frame_consts. repeat split; timing_arith.
      * cbn. rewrite vblankEntries_none by (frame_consts; lia).
        frame_consts. repeat split; timing_arith.
    + cbn. rewrite vblankEntries_none by (frame_consts; lia).
      frame_consts. repeat split; timing_arith.
  - (* vblank *)
    destruct (Z.leb_spec 4560 (k + c0)).
    + cbn. rewrite vblankEntries_wrap by (frame_consts; lia).
      frame_consts.
      replace (65664 + c0 + (4560 - c0)) with 70224 by lia.
      unfold outsideMachine, with_ppu. cbn [ppu busLocked raised ext video skipFrame].
      destruct (skipFrame vid); cbn; repeat split; timing_arith.
    + cbn. rewrite vblankEntries_none by (frame_consts; lia).
      frame_consts. repeat split; timing_arith.
  - (* oamScan *)
    destruct (Z.leb_spec 80 (k + c0)).
    + cbn. rewrite vblankEntries_none by (frame_consts; lia).
      frame_consts. repeat split; timing_arith.
    + cbn. rewrite vblankEntries_none by (frame_consts; lia).
      frame_consts. repeat split; timing_arith.
  - (* draw *)
    destruct (Z.leb_spec 172 (k + c0)).
    + cbn. rewrite vblankEntries_none by (frame_consts; lia).
      frame_consts. repeat split; timing_arith.
    + cbn. rewrite vblankEntries_none by (frame_consts; lia).
      frame_consts. repeat split; timing_arith.
Qed.

Lemma updateStat_timing (w : World E) :
  timing (ppu (updateStat w)) = timing (ppu w)
  /\ vblankCount (raised (updateStat w)) = vblankCount (raised w)
  /\ outsideMachine (updateStat w) = outsideMachine w.
Proof.
  unfold updateStat.
  match goal with
  | |- context [if ?b then _ else _] => destruct b
  end; cbn [interrupt_raise raised]; rewrite ?vblankCount_cons; cbn; repeat split; lia.
Qed.

Lemma vblankEntries_mod (T c : Z) :
  vblankEntries (T mod frameClocks) c = vblankEntries T c.
Proof.
  unfold vblankEntries. frame_consts.
  rewrite (Z.div_mod T 70224) at 3 4 by lia.
  replace (70224 * (T / 70224) + T mod 70224 + c + 4560)
    with (T mod 70224 + c + 4560 + (T / 70224) * 70224) by lia.
  replace (70224 * (T / 70224) + T mod 70224 + 4560)
    with (T mod 70224 + 4560 + (T / 70224) * 70224) by lia.
  rewrite !Z.div_add by lia. lia.
Qed.

Lemma vblankEntries_add (T a b : Z) :
  vblankEntries T a + vblankEntries (T + a) b = vblankEntries T (a + b).
Proof. unfold vblankEntries. replace (T + a + b) with (T + (a + b)) by lia. lia. Qed.

Lemma outsideMachine_inv (w w' : World E) :
  outsideMachine w' = outsideMachine w ->
  regs (ppu w') = regs (ppu w) /\ vram (ppu w') = vram (ppu w)
  /\ oam (ppu w') = oam (ppu w)
  /\ dmaInProgress (ppu w') = dmaInProgress (ppu w)
  /\ dmaCycle (ppu w') = dmaCycle (ppu w)
  /\ busLocked w' = busLocked w /\ ext w' = ext w.
Proof.
  unfold outsideMachine.
  generalize (regs (ppu w')) (vram (ppu w')) (oam (ppu w')) (dmaInProgress (ppu w'))
    (dmaCycle (ppu w')) (busLocked w') (ext w')
    (regs (ppu w)) (vram (ppu w)) (oam (ppu w)) (dmaInProgress (ppu w))
    (dmaCycle (ppu w)) (busLocked w) (ext w).
  intros ? ? ? ? ? ? ? ? ? ? ? ? ? ? [= -> -> -> -> -> -> ->]. repeat split.
Qed.

Lemma outsideDma_inv (w w' : World E) :
  outsideDma w' = outsideDma w ->
  timing (ppu w') = timing (ppu w) /\ regs (ppu w') = regs (ppu w)
  /\ vram (ppu w') = vram (ppu w) /\ raised w' = raised w.
Proof.
  unfold outsideDma.
  generalize (timing (ppu w')) (video (ppu w')) (vram (ppu w')) (stat_line (ppu w'))
    (regs (ppu w')) (raised w')
    (timing (ppu w)) (video (ppu w)) (vram (ppu w)) (stat_line (ppu w))
    (regs (ppu w)) (raised w).
  intros ? ? ? ? ? ? ? ? ? ? ? ? [= -> -> -> -> -> ->]. repeat split.
Qed.

Lemma lcdEnabled_outside (w w' : World E) :
  outsideMachine w' = outsideMachine w -> lcdEnabled (ppu w') = lcdEnabled (ppu w).
Proof.
  intros Ho. destruct (outsideMachine_inv _ _ Ho) as (Hr & _).
  unfold lcdEnabled. now rewrite Hr.
Qed.

Lemma modeLoop_spec (fuel : nat) :
  forall (n T : Z) (w : World E),
    wfTiming (timing (ppu w)) ->
    position (timing (ppu w)) = T mod frameClocks ->
    0 <= n -> (Z.to_nat n <= fuel)%nat ->
    exists w',
      modeLoop fuel n w = Some w'
      /\ wfTiming (timing (ppu w'))
      /\ position (timing (ppu w')) = (T + n) mod frameClocks
      /\ vblankCount (raised w') = vblankCount (raised w) + vblankEntries T n
      /\ outsideMachine w' = outsideMachine w.
Proof.
  induction fuel as [| fuel IH]; intros n T w Hwf Hpos Hn Hfuel.
  - assert (n = 0) as -> by lia. exists w. cbn.
    rewrite Z.add_0_r. unfold vblankEntries. rewrite Z.add_0_r.
    repeat split; try assumption; lia.
  - cbn [modeLoop]. destruct (Z.ltb_spec 0 n) as [Hpos' | Hzero].
    + pose proof (consumeClocks_spec n w Hwf Hpos') as Hc. cbv zeta in Hc.
      destruct (consumeClocks n w) as [c w1]. cbn [fst snd] in Hc.
      destruct Hc as (Hc & Hwf1 & Hp1 & Hv1 & Ho1).
      destruct (updateStat_timing w1) as (Ht2 & Hv2 & Ho2).
      destruct (IH (n - c) (T + c) (updateStat w1)) as (w' & Hrun & Hwf' & Hp' & Hv' & Ho').
      * now rewrite Ht2.
      * rewrite Ht2, Hp1, Hpos. apply Zplus_mod_idemp_l.
      * lia.
      * lia.
      * exists w'. split; [exact Hrun |]. split; [exact Hwf' |]. split; [| split].
        -- rewrite Hp'. f_equal. lia.
        -- rewrite Hv', Hv2, Hv1, Hpos, vblankEntries_mod.
           pose proof (vblankEntries_add T c (n - c)) as Hadd.
           replace (c + (n - c)) with n in Hadd by lia. lia.
        -- now rewrite Ho', Ho2.
    + assert (n = 0) as -> by lia. exists w.
      rewrite Z.add_0_r. unfold vblankEntries. rewrite Z.add_0_r.
      repeat split; try assumption; lia.
Qed.


(** *** Bus reads and the transfer *)

Lemma bus_read_ppu (a : Z) (w : World E) :
  ppu (snd (bus_read a w)) = ppu w
  /\ busLocked (snd (bus_read a w)) = busLocked w
  /\ raised (snd (bus_read a w)) = raised w.
Proof.
  unfold bus_read. destruct (installedRead a); [repeat split |].
  destruct (ext_read a (ext w)). repeat split.
Qed.

Lemma installedRead_low (a : Z) :
  a < 0xfe00 -> installedRead a = None \/ installedRead a = Some vramRead.
Proof.
  intros Ha. unfold installedRead, reg_base.
  destruct ((0x8000 <=? a) && (a <? 0xa000)); [now right |].
  destruct (Z.leb_spec 0xfe00 a); [lia |]. cbn [andb].
  destruct (Z.eqb_spec a (0xff40 + reg_index ly)); [cbn in *; lia |].
  destruct (Z.eqb_spec a (0xff40 + reg_index stat)); [cbn in *; lia |].
  destruct (Z.leb_spec 0xff40 a); [lia |]. now left.
Qed.

Lemma bus_read_view (a : Z) (w w0 : World E) :
  a < 0xfe00 ->
  readView w = readView w0 ->
  fst (bus_read a w) = fst (bus_read a w0)
  /\ readView (snd (bus_read a w)) = readView (snd (bus_read a w0)).
Proof.
  intros Ha. unfold readView. intros [= Ht Hr Hv He].
  unfold bus_read. destruct (installedRead_low a Ha) as [-> | ->].
  - rewrite He. destruct (ext_read a (ext w0)). cbn. rewrite Ht, Hr, Hv. split; reflexivity.
  - cbn. rewrite Ht, Hr, Hv, He. split; [| reflexivity].
    unfold vramRead, lcdEnabled. now rewrite Ht, Hr, Hv.
Qed.

Lemma dmaCopy_outside (n : nat) :
  forall (i base : Z) (w : World E),
    outsideDma (dmaCopy n i base w) = outsideDma w
    /\ busLocked (dmaCopy n i base w) = busLocked w
    /\ dmaInProgress (ppu (dmaCopy n i base w)) = dmaInProgress (ppu w)
    /\ dmaCycle (ppu (dmaCopy n i base w)) = dmaCycle (ppu w)
    /\ length (oam (ppu (dmaCopy n i base w))) = length (oam (ppu w)).
Proof.
  induction n as [| n IH]; intros i base w; [repeat split |].
  cbn [dmaCopy].
  destruct (bus_read_ppu (base + i) w) as (Hp & Hl & Hr).
  destruct (bus_read (base + i) w) as [v w1]. cbn [snd] in *.
  match goal with
  | |- context [dmaCopy n ?j base ?x] => destruct (IH j base x) as (Ho & Hk & Hd & Hc & Hlen)
  end.
  rewrite Ho, Hk, Hd, Hc, Hlen. unfold outsideDma. cbn. rewrite Hp, Hl, Hr.
  repeat split. unfold ta_store. destruct (0 <=? i); [apply length_insert | reflexivity].
Qed.

Lemma dmaCopy_spec (n : nat) :
  forall (i base : Z) (w w0 : World E),
    readView w = readView w0 ->
    0 <= i ->
    base + i + Z.of_nat n <= 0xfe00 ->
    (Z.to_nat i + n <= length (oam (ppu w)))%nat ->
    oam (ppu (dmaCopy n i base w))
    = take (Z.to_nat i) (oam (ppu w))
      ++ map storeUint8 (fst (busBlock n (base + i) w0))
      ++ drop (Z.to_nat i + n) (oam (ppu w)).
Proof.
  induction n as [| n IH]; intros i base w w0 Hview Hi Hb Hlen.
  - cbn. rewrite Nat.add_0_r. now rewrite take_drop.
  - cbn [dmaCopy busBlock].
    destruct (bus_read_view (base + i) w w0 ltac:(lia) Hview) as (Hv & Hview1).
    destruct (bus_read_ppu (base + i) w) as (Hp & _ & _).
    destruct (bus_read (base + i) w) as [v w1].
    destruct (bus_read (base + i) w0) as [v0 w01].
    cbn [fst snd] in *. subst v0.
    specialize (IH (i + 1) base
                  (with_ppu (fun s => with_oam (ta_store (oam s) i (storeUint8 v)) s) w1)
                  w01).
    replace (base + (i + 1)) with (base + i + 1) in IH by lia.
    destruct (busBlock n (base + i + 1) w01) as [vs w02]. cbn [fst] in *.
    rewrite IH; clear IH.
    + cbn [ppu with_ppu oam with_oam]. rewrite Hp.
      unfold ta_store. destruct (Z.leb_spec 0 i); [| lia].
      replace (Z.to_nat (i + 1)) with (S (Z.to_nat i)) by lia.
      rewrite (take_S_r _ _ (storeUint8 v))
        by (apply list_lookup_insert_eq; lia).
      rewrite take_insert_ge by lia.
      rewrite drop_insert_lt by lia.
      rewrite <- app_assoc. cbn. rewrite Nat.add_succ_r. reflexivity.
    + unfold readView in *. cbn. exact Hview1.
    + lia.
    + lia.
    + cbn [ppu with_ppu oam with_oam]. rewrite Hp.
      unfold ta_store. destruct (0 <=? i); rewrite ?length_insert; lia.
Qed.

Lemma executeDma_outside (w : World E) :
  outsideDma (executeDma w) = outsideDma w
  /\ busLocked (executeDma w) = false
  /\ dmaInProgress (ppu (executeDma w)) = false
  /\ dmaCycle (ppu (executeDma w)) = 0
  /\ length (oam (ppu (executeDma w))) = length (oam (ppu w)).
Proof.
  unfold executeDma.
  match goal with
  | |- context [dmaCopy ?n ?i ?b ?x] => destruct (dmaCopy_outside n i b x) as (Ho & Hk & Hd & Hc & Hl)
  end.
  rewrite Ho, Hk, Hd, Hc, Hl. repeat split.
Qed.

Lemma executeDma_oam (w w0 : World E) :
  readView w = readView w0 ->
  length (oam (ppu w)) = 160%nat ->
  dmaBase (ppu w) + 160 <= 0xfe00 ->
  oam (ppu (executeDma w))
  = map storeUint8 (fst (busBlock 160 (dmaBase (ppu w)) w0)).
Proof.
  intros Hview Hlen Hbase. unfold executeDma.
  rewrite (dmaCopy_spec 160 0 _ _ w0); cbn [ppu with_ppu bus_unlock oam with_dma]; try lia.
  - rewrite Z.add_0_r. cbn [Z.to_nat take]. 
    rewrite drop_ge by (cbn; lia). now rewrite app_nil_r.
  - exact Hview.
  - unfold dmaBase in *. cbn [regs with_dma] in *. lia.
Qed.


(** *** The two loops of [cycle] *)

Lemma consumeClocks_outside (k : Z) (w : World E) :
  outsideMachine (snd (consumeClocks k w)) = outsideMachine w.
Proof.
  unfold consumeClocks.
  destruct (mode (timing (ppu w)));
    repeat match goal with
           | |- context [if ?b then _ else _] => destruct b
           end; try reflexivity.
  all: unfold outsideMachine, with_ppu; cbn;
    destruct (skipFrame (video (ppu w))); reflexivity.
Qed.

Lemma dmaTick_timing (T : Z) (w : World E) :
  lcdEnabled (ppu w) = true ->
  wfTiming (timing (ppu w)) ->
  position (timing (ppu w)) = T mod frameClocks ->
  lcdEnabled (ppu (dmaTick w)) = true
  /\ wfTiming (timing (ppu (dmaTick w)))
  /\ position (timing (ppu (dmaTick w))) = (T + 1) mod frameClocks
  /\ vblankCount (raised (dmaTick w)) = vblankCount (raised w) + vblankEntries T 1.
Proof.
  intros Hlcd Hwf Hpos. unfold dmaTick.
  remember (with_ppu (fun s => with_dma (dmaInProgress s) (dmaCycle s + 1) s) w) as wa eqn:Ewa.
  assert (Ha : outsideDma wa = outsideDma w) by (subst wa; reflexivity).
  remember (if 640 <? dmaCycle (ppu wa) then executeDma wa else wa) as wb eqn:Ewb.
  assert (Hb : outsideDma wb = outsideDma w).
  { subst wb. destruct (640 <? dmaCycle (ppu wa)); [| exact Ha].
    destruct (executeDma_outside wa) as (-> & _). exact Ha. }
  clear Ewa Ewb Ha.
  destruct (outsideDma_inv _ _ Hb) as (Hbt & Hbr & _ & Hbi).
  assert (Hlb : lcdEnabled (ppu wb) = true) by (unfold lcdEnabled in *; now rewrite Hbr).
  rewrite Hlb.
  pose proof (consumeClocks_spec 1 wb ltac:(now rewrite Hbt) ltac:(lia)) as Hc.
  cbv zeta in Hc. destruct Hc as (Hc & Hwfc & Hpc & Hvc & Hoc).
  assert (Hc1 : fst (consumeClocks 1 wb) = 1) by lia. rewrite Hc1 in *.
  split; [| split; [exact Hwfc |]; split].
  - rewrite (lcdEnabled_outside _ _ Hoc). exact Hlb.
  - rewrite Hpc, Hbt, Hpos. apply Zplus_mod_idemp_l.
  - rewrite Hvc, Hbi, Hbt, Hpos, vblankEntries_mod. reflexivity.
Qed.

Lemma dmaLoop_timing (m : nat) :
  forall (n T : Z) (w : World E),
    lcdEnabled (ppu w) = true ->
    wfTiming (timing (ppu w)) ->
    position (timing (ppu w)) = T mod frameClocks ->
    0 <= n ->
    0 <= fst (dmaLoop m n w) <= n
    /\ lcdEnabled (ppu (snd (dmaLoop m n w))) = true
    /\ wfTiming (timing (ppu (snd (dmaLoop m n w))))
    /\ position (timing (ppu (snd (dmaLoop m n w))))
       = (T + (n - fst (dmaLoop m n w))) mod frameClocks
    /\ vblankCount (raised (snd (dmaLoop m n w)))
       = vblankCount (raised w) + vblankEntries T (n - fst (dmaLoop m n w)).
Proof.
  induction m as [| m IH]; intros n T w Hlcd Hwf Hpos Hn.
  - cbn. rewrite Z.sub_diag, Z.add_0_r. unfold vblankEntries. rewrite Z.add_0_r.
    repeat split; try assumption; lia.
  - cbn [dmaLoop].
    destruct (dmaInProgress (ppu w) && (0 <? n)) eqn:Hgo.
    + apply andb_true_iff in Hgo as [_ Hn'%Z.ltb_lt].
      destruct (dmaTick_timing T w Hlcd Hwf Hpos) as (Hl1 & Hwf1 & Hp1 & Hv1).
      destruct (IH (n - 1) (T + 1) (dmaTick w) Hl1 Hwf1 Hp1 ltac:(lia))
        as (Hr & Hl' & Hwf' & Hp' & Hv').
      split; [lia |]. split; [exact Hl' |]. split; [exact Hwf' |]. split.
      * rewrite Hp'. f_equal. lia.
      * rewrite Hv', Hv1.
        pose proof (vblankEntries_add T 1 (n - 1 - fst (dmaLoop m (n - 1) (dmaTick w)))) as Hadd.
        replace (1 + (n - 1 - fst (dmaLoop m (n - 1) (dmaTick w))))
          with (n - fst (dmaLoop m (n - 1) (dmaTick w))) in Hadd by lia.
        lia.
    + cbn. rewrite Z.sub_diag, Z.add_0_r. unfold vblankEntries. rewrite Z.add_0_r.
      repeat split; try assumption; lia.
Qed.

(** [dmaLoop] never runs out of iterations: with [n] of them the loop
    condition is false at the end. *)
Lemma dmaLoop_exact (m : nat) :
  forall (n : Z) (w : World E),
    n <= Z.of_nat m ->
    dmaInProgress (ppu (snd (dmaLoop m n w))) && (0 <? fst (dmaLoop m n w)) = false.
Proof.
  induction m as [| m IH]; intros n w Hn.
  - cbn. destruct (Z.ltb_spec 0 n); [lia | apply andb_false_r].
  - cbn [dmaLoop]. destruct (dmaInProgress (ppu w) && (0 <? n)) eqn:Hgo.
    + apply IH. lia.
    + exact Hgo.
Qed.


Lemma cycle_timing (w : World E) (n : Z) (fuel : nat) :
  lcdEnabled (ppu w) = true ->
  wfTiming (timing (ppu w)) ->
  0 <= n ->
  (Z.to_nat n <= fuel)%nat ->
  exists w',
    cycle fuel n w = Some w'
    /\ lcdEnabled (ppu w') = true
    /\ wfTiming (timing (ppu w'))
    /\ position (timing (ppu w')) = (position (timing (ppu w)) + n) mod frameClocks
    /\ vblankCount (raised w')
       = vblankCount (raised w) + vblankEntries (position (timing (ppu w))) n.
Proof.
  intros Hlcd Hwf Hn Hfuel.
  set (p := position (timing (ppu w))).
  assert (Hp : p = p mod frameClocks).
  { symmetry. apply Z.mod_small. now apply wf_position_range. }
  destruct (dmaLoop_timing (Z.to_nat n) n p w Hlcd Hwf Hp Hn)
    as (Hr & Hl1 & Hwf1 & Hp1 & Hv1).
  unfold cycle. destruct (dmaLoop (Z.to_nat n) n w) as [n1 w1]. cbn [fst snd] in *.
  rewrite Hl1. cbn [negb].
  destruct (modeLoop_spec fuel n1 (p + (n - n1)) w1 Hwf1 Hp1 ltac:(lia) ltac:(lia))
    as (w' & Hrun & Hwf' & Hp' & Hv' & Ho').
  exists w'. split; [exact Hrun |]. split; [| split; [exact Hwf' |]; split].
  - rewrite (lcdEnabled_outside _ _ Ho'). exact Hl1.
  - rewrite Hp'. f_equal. lia.
  - rewrite Hv', Hv1.
    pose proof (vblankEntries_add p (n - n1) n1) as Hadd.
    replace (n - n1 + n1) with n in Hadd by lia. lia.
Qed.

(** C4: with the LCD enabled, [cycle] moves the machine along the frame
    of the spec ([timingAt]: per scanline 80 clocks of OAM-scan, 172 of Draw
    and 204 of HBlank; after the HBlank of scanline 143, 4560 clocks of
    VBlank with LY 144..153; then LY = 0 in OAM-scan again) by exactly the
    clocks it is given, however they are split over calls; the vblank
    interrupt is raised once for each entry into VBlank. A frame is 70224
    clocks: that many clocks later the machine is where it was, and vblank
    was raised exactly once. *)
Theorem frame_timing (w : World E) (n : Z) (fuel : nat) :
  lcdEnabled (ppu w) = true ->
  wfTiming (timing (ppu w)) ->
  0 <= n ->
  (Z.to_nat n <= fuel)%nat ->
  exists w',
    cycle fuel n w = Some w'
    /\ lcdEnabled (ppu w') = true
    /\ wfTiming (timing (ppu w'))
    /\ timing (ppu w') = timingAt ((position (timing (ppu w)) + n) mod frameClocks)
    /\ vblankCount (raised w')
       = vblankCount (raised w) + vblankEntries (position (timing (ppu w))) n
    /\ frameClocks = 70224
    /\ (n = frameClocks ->
        timing (ppu w') = timing (ppu w)
        /\ vblankCount (raised w') = vblankCount (raised w) + 1).
Proof.
  intros Hlcd Hwf Hn Hfuel.
  destruct (cycle_timing w n fuel Hlcd Hwf Hn Hfuel) as (w' & Hrun & Hl & Hwf' & Hp & Hv).
  pose proof (wf_position_range _ Hwf) as Hrange.
  exists w'. split; [exact Hrun |]. split; [exact Hl |]. split; [exact Hwf' |].
  assert (Ht : timing (ppu w') = timingAt ((position (timing (ppu w)) + n) mod frameClocks)).
  { rewrite <- Hp. symmetry. now apply timingAt_position. }
  split; [exact Ht |]. split; [exact Hv |]. split; [reflexivity |].
  intros ->. split.
  - rewrite Ht. rewrite <- (Z.mul_1_l frameClocks) at 1.
    rewrite Z.mod_add by (frame_consts; lia).
    rewrite Z.mod_small by exact Hrange. now apply timingAt_position.
  - rewrite Hv. f_equal. unfold vblankEntries. frame_consts.
    replace ((position (timing (ppu w)) + 70224 + 4560))
      with (position (timing (ppu w)) + 4560 + 1 * 70224) by lia.
    rewrite Z.div_add by lia. lia.
Qed.


(** *** A transfer in progress *)

Lemma dmaLoop_stop (m : nat) (n : Z) (w : World E) :
  dmaInProgress (ppu w) && (0 <? n) = false -> dmaLoop m n w = (n, w).
Proof. intros Hc. destruct m; [reflexivity |]. cbn [dmaLoop]. now rewrite Hc. Qed.

Lemma dmaLoop_app (m1 m2 : nat) :
  forall (n : Z) (w : World E),
    dmaLoop (m1 + m2) n w
    = dmaLoop m2 (fst (dmaLoop m1 n w)) (snd (dmaLoop m1 n w)).
Proof.
  induction m1 as [| m1 IH]; intros n w; [reflexivity |].
  cbn [Nat.add dmaLoop].
  destruct (dmaInProgress (ppu w) && (0 <? n)) eqn:Hgo.
  - apply IH.
  - cbn [fst snd]. symmetry. now apply dmaLoop_stop.
Qed.

Lemma dmaLoop_indep (m : nat) :
  forall (n n' : Z) (w : World E),
    Z.of_nat m <= n -> Z.of_nat m <= n' ->
    snd (dmaLoop m n w) = snd (dmaLoop m n' w).
Proof.
  induction m as [| m IH]; intros n n' w Hn Hn'; [reflexivity |].
  cbn [dmaLoop].
  destruct (Z.ltb_spec 0 n); [| lia]. destruct (Z.ltb_spec 0 n'); [| lia].
  destruct (dmaInProgress (ppu w)); cbn [andb]; [| reflexivity].
  apply IH; lia.
Qed.

(** As long as the counter stays within 640, a clock only advances the
    counter (and the mode machine). *)
Lemma dmaTick_before (w : World E) :
  dmaCycle (ppu w) < 640 ->
  dmaInProgress (ppu (dmaTick w)) = dmaInProgress (ppu w)
  /\ dmaCycle (ppu (dmaTick w)) = dmaCycle (ppu w) + 1
  /\ busLocked (dmaTick w) = busLocked w
  /\ oam (ppu (dmaTick w)) = oam (ppu w)
  /\ regs (ppu (dmaTick w)) = regs (ppu w)
  /\ ext (dmaTick w) = ext w.
Proof.
  intros Hd. unfold dmaTick.
  remember (with_ppu (fun s => with_dma (dmaInProgress s) (dmaCycle s + 1) s) w) as wa eqn:Ewa.
  assert (Hca : dmaCycle (ppu wa) = dmaCycle (ppu w) + 1) by (subst wa; reflexivity).
  assert (Ha : dmaInProgress (ppu wa) = dmaInProgress (ppu w)
               /\ busLocked wa = busLocked w /\ oam (ppu wa) = oam (ppu w)
               /\ regs (ppu wa) = regs (ppu w) /\ ext wa = ext w)
    by (subst wa; repeat split).
  clear Ewa. destruct Ha as (Hp & Hl & Ho & Hr & He).
  destruct (Z.ltb_spec 640 (dmaCycle (ppu wa))); [lia |].
  remember (if lcdEnabled (ppu wa) then snd (consumeClocks 1 wa) else wa) as wc eqn:Ewc.
  assert (Hc : outsideMachine wc = outsideMachine wa).
  { subst wc. destruct (lcdEnabled (ppu wa)); [apply consumeClocks_outside | reflexivity]. }
  clear Ewc.
  destruct (outsideMachine_inv _ _ Hc) as (Hr' & _ & Ho' & Hp' & Hc' & Hl' & He').
  repeat split; congruence.
Qed.

Lemma dmaLoop_before (m : nat) :
  forall (n : Z) (w : World E),
    dmaInProgress (ppu w) = true ->
    Z.of_nat m <= n ->
    dmaCycle (ppu w) + Z.of_nat m <= 640 ->
    fst (dmaLoop m n w) = n - Z.of_nat m
    /\ dmaInProgress (ppu (snd (dmaLoop m n w))) = true
    /\ dmaCycle (ppu (snd (dmaLoop m n w))) = dmaCycle (ppu w) + Z.of_nat m
    /\ busLocked (snd (dmaLoop m n w)) = busLocked w
    /\ oam (ppu (snd (dmaLoop m n w))) = oam (ppu w)
    /\ regs (ppu (snd (dmaLoop m n w))) = regs (ppu w)
    /\ ext (snd (dmaLoop m n w)) = ext w.
Proof.
  induction m as [| m IH]; intros n w Hdma Hn Hd.
  - cbn. repeat split; try assumption; lia.
  - cbn [dmaLoop]. rewrite Hdma. destruct (Z.ltb_spec 0 n); [| lia]. cbn [andb].
    destruct (dmaTick_before w ltac:(lia)) as (Hp & Hc & Hl & Ho & Hr & He).
    destruct (IH (n - 1) (dmaTick w)) as (Hf & Hp' & Hc' & Hl' & Ho' & Hr' & He').
    + now rewrite Hp.
    + lia.
    + lia.
    + rewrite Hf, Hp', Hc', Hl', Ho', Hr', He'.
      repeat split; try lia; try congruence.
Qed.

Lemma dmaBase_bound (s : t) :
  0 <= regs s dma < 256 ->
  dmaBase s = (regs s dma mod 0xe0) * 256 /\ 0 <= dmaBase s /\ dmaBase s + 160 <= 0xfe00.
Proof.
  intros Hr. unfold dmaBase.
  rewrite Z.rem_mod_nonneg by lia.
  pose proof (Z.mod_pos_bound (regs s dma) 0xe0 ltac:(lia)).
  rewrite shl_byte by lia. change (2 ^ 8) with 256. lia.
Qed.

Lemma modeLoop_zero (fuel : nat) (w : World E) : modeLoop fuel 0 w = Some w.
Proof. destruct fuel; reflexivity. Qed.

(** While the counter stays within 640 the transfer stays in progress. *)
Lemma cycle_dma_pending (w : World E) (n : Z) (fuel : nat) :
  dmaInProgress (ppu w) = true ->
  0 <= n ->
  dmaCycle (ppu w) + n <= 640 ->
  exists w',
    cycle fuel n w = Some w'
    /\ w' = snd (dmaLoop (Z.to_nat n) n w)
    /\ dmaInProgress (ppu w') = true
    /\ dmaCycle (ppu w') = dmaCycle (ppu w) + n
    /\ busLocked w' = busLocked w
    /\ oam (ppu w') = oam (ppu w)
    /\ regs (ppu w') = regs (ppu w)
    /\ ext w' = ext w.
Proof.
  intros Hdma Hn Hd.
  destruct (dmaLoop_before (Z.to_nat n) n w Hdma ltac:(lia) ltac:(lia))
    as (Hf & Hp & Hc & Hl & Ho & Hr & He).
  unfold cycle. destruct (dmaLoop (Z.to_nat n) n w) as [n1 w1]. cbn [fst snd] in *.
  assert (n1 = 0) as -> by lia. rewrite modeLoop_zero.
  exists w1. split; [now destruct (negb (lcdEnabled (ppu w1))) |].
  repeat split; try assumption. lia.
Qed.

(** The clock on which the counter passes 640 carries the transfer out. *)
Lemma dmaTick_complete (w : World E) :
  dmaCycle (ppu w) = 640 ->
  length (oam (ppu w)) = 160%nat ->
  0 <= regs (ppu w) dma < 256 ->
  busLocked (dmaTick w) = false
  /\ dmaInProgress (ppu (dmaTick w)) = false
  /\ dmaCycle (ppu (dmaTick w)) = 0
  /\ oam (ppu (dmaTick w)) = map storeUint8 (fst (busBlock 160 (dmaBase (ppu w)) w))
  /\ regs (ppu (dmaTick w)) = regs (ppu w).
Proof.
  intros Hd Hlen Hreg. unfold dmaTick.
  remember (with_ppu (fun s => with_dma (dmaInProgress s) (dmaCycle s + 1) s) w) as wa eqn:Ewa.
  assert (Hca : dmaCycle (ppu wa) = 641) by (subst wa; cbn; lia).
  assert (Hview : readView wa = readView w) by (subst wa; reflexivity).
  assert (Hla : length (oam (ppu wa)) = 160%nat) by (subst wa; exact Hlen).
  assert (Hra : regs (ppu wa) = regs (ppu w)) by (subst wa; reflexivity).
  clear Ewa. rewrite Hca. cbn [Z.ltb Z.compare Pos.compare Pos.compare_cont].
  assert (Hbase : dmaBase (ppu wa) = dmaBase (ppu w)) by (unfold dmaBase; now rewrite Hra).
  pose proof (executeDma_oam wa w Hview Hla
                ltac:(rewrite Hbase; now apply dmaBase_bound)) as Hoam.
  rewrite Hbase in Hoam.
  destruct (executeDma_outside wa) as (Hbo & Hbl & Hbp & Hbc & _).
  destruct (outsideDma_inv _ _ Hbo) as (_ & Hbr & _).
  remember (executeDma wa) as wb eqn:Ewb. clear Ewb Hbo.
  remember (if lcdEnabled (ppu wb) then snd (consumeClocks 1 wb) else wb) as wc eqn:Ewc.
  assert (Hc : outsideMachine wc = outsideMachine wb).
  { subst wc. destruct (lcdEnabled (ppu wb)); [apply consumeClocks_outside | reflexivity]. }
  clear Ewc.
  destruct (outsideMachine_inv _ _ Hc) as (Hr' & _ & Ho' & Hp' & Hc' & Hl' & _).
  repeat split; congruence.
Qed.

(** Once the counter passes 640 the transfer is carried out. *)
Lemma cycle_dma_complete (w : World E) (n : Z) (fuel : nat) :
  dmaInProgress (ppu w) = true ->
  wfTiming (timing (ppu w)) ->
  length (oam (ppu w)) = 160%nat ->
  0 <= regs (ppu w) dma < 256 ->
  0 <= dmaCycle (ppu w) <= 640 ->
  640 < dmaCycle (ppu w) + n ->
  (Z.to_nat n <= fuel)%nat ->
  exists w1 w',
    cycle fuel (640 - dmaCycle (ppu w)) w = Some w1
    /\ cycle fuel n w = Some w'
    /\ busLocked w' = false
    /\ dmaInProgress (ppu w') = false
    /\ dmaCycle (ppu w') = 0
    /\ oam (ppu w') = map storeUint8 (fst (busBlock 160 (dmaBase (ppu w)) w1)).
Proof.
  intros Hdma Hwf Hlen Hreg Hd Hn Hfuel.
  remember (dmaCycle (ppu w)) as d eqn:Ed.
  destruct (cycle_dma_pending w (640 - d) fuel Hdma ltac:(lia) ltac:(lia))
    as (w1 & Hrun1 & Hw1 & Hp1 & Hc1 & Hl1 & Ho1 & Hr1 & He1).
  exists w1.
  (* the run of [n] clocks passes through [w1] *)
  remember (Z.to_nat (640 - d)) as m0 eqn:Em0.
  remember (Z.to_nat (n - (640 - d) - 1)) as rest eqn:Erest.
  assert (Hsplit : Z.to_nat n = (m0 + S rest)%nat) by lia.
  assert (Hloop : dmaLoop (Z.to_nat n) n w = (n - (640 - d) - 1, dmaTick w1)).
  { rewrite Hsplit, dmaLoop_app.
    destruct (dmaLoop_before m0 n w Hdma ltac:(lia) ltac:(lia)) as (Hf & _).
    rewrite Hf. replace (Z.of_nat m0) with (640 - d) by lia.
    replace (snd (dmaLoop m0 n w)) with w1
      by (rewrite Hw1, Em0; apply dmaLoop_indep; lia).
    cbn [dmaLoop]. rewrite Hp1.
    destruct (Z.ltb_spec 0 (n - (640 - d))); [| lia]. cbn [andb].
    apply dmaLoop_stop.
    destruct (dmaTick_complete w1) as (_ & -> & _); [lia | congruence | now rewrite Hr1 |].
    reflexivity. }
  destruct (dmaTick_complete w1) as (Hl & Hp & Hc & Ho & Hr);
    [lia | congruence | now rewrite Hr1 |].
  assert (Hbase : dmaBase (ppu w1) = dmaBase (ppu w)) by (unfold dmaBase; now rewrite Hr1).
  rewrite Hbase in Ho.
  remember (dmaTick w1) as wc eqn:Ewc.
  unfold cycle. rewrite Hloop.
  destruct (lcdEnabled (ppu wc)) eqn:Hlcd; cbn [negb].
  - (* the mode machine uses up the remaining clocks *)
    assert (Hwfc : wfTiming (timing (ppu wc))).
    { assert (Hlw : lcdEnabled (ppu w) = true).
      { unfold lcdEnabled in *. now rewrite <- Hr1, <- Hr. }
      pose proof (dmaLoop_timing (Z.to_nat n) n (position (timing (ppu w))) w Hlw Hwf
                    ltac:(symmetry; apply Z.mod_small; now apply wf_position_range)
                    ltac:(lia)) as (_ & _ & Hwf' & _).
      rewrite Hloop in Hwf'. exact Hwf'. }
    destruct (modeLoop_spec fuel (n - (640 - d) - 1) (position (timing (ppu wc))) wc Hwfc
                ltac:(symmetry; apply Z.mod_small; now apply wf_position_range)
                ltac:(lia) ltac:(lia)) as (w' & Hrun & _ & _ & _ & Ho').
    exists w'. split; [exact Hrun1 |]. split; [exact Hrun |].
    destruct (outsideMachine_inv _ _ Ho') as (_ & _ & Hoam' & Hp' & Hc' & Hl' & _).
    repeat split; congruence.
  - exists wc. split; [exact Hrun1 |]. split; [reflexivity |].
    repeat split; assumption.
Qed.

Lemma busBlock_length (n : nat) :
  forall (a : Z) (w : World E), length (fst (busBlock n a w)) = n.
Proof.
  induction n as [| n IH]; intros a w; [reflexivity |].
  cbn [busBlock]. destruct (bus_read a w) as [v w1].
  specialize (IH (a + 1) w1). destruct (busBlock n (a + 1) w1). cbn in *. lia.
Qed.

(** With the LCD off a clock of a pending transfer leaves the mode machine
    alone. *)
Lemma dmaTick_off (w : World E) :
  lcdEnabled (ppu w) = false ->
  dmaCycle (ppu w) < 640 ->
  timing (ppu (dmaTick w)) = timing (ppu w).
Proof.
  intros Hoff Hd. unfold dmaTick.
  remember (with_ppu (fun s => with_dma (dmaInProgress s) (dmaCycle s + 1) s) w) as wa eqn:Ewa.
  assert (Hca : dmaCycle (ppu wa) = dmaCycle (ppu w) + 1) by (subst wa; reflexivity).
  assert (Hla : lcdEnabled (ppu wa) = false) by (subst wa; exact Hoff).
  assert (Hta : timing (ppu wa) = timing (ppu w)) by (subst wa; reflexivity).
  clear Ewa.
  destruct (Z.ltb_spec 640 (dmaCycle (ppu wa))); [lia |].
  rewrite Hla. exact Hta.
Qed.

Lemma dmaLoop_off (m : nat) :
  forall (n : Z) (w : World E),
    lcdEnabled (ppu w) = false ->
    dmaCycle (ppu w) + Z.of_nat m <= 640 ->
    timing (ppu (snd (dmaLoop m n w))) = timing (ppu w).
Proof.
  induction m as [| m IH]; intros n w Hoff Hd; [reflexivity |].
  cbn [dmaLoop]. destruct (dmaInProgress (ppu w) && (0 <? n)); [| reflexivity].
  destruct (dmaTick_before w ltac:(lia)) as (_ & Hc & _ & _ & Hr & _).
  rewrite IH.
  - apply dmaTick_off; [exact Hoff | lia].
  - unfold lcdEnabled in *. now rewrite Hr.
  - lia.
Qed.

(** A call of [cycle] that leaves a transfer pending leaves the mode
    machine in a state between two calls. *)
Lemma cycle_dma_pending_wf (w : World E) (n : Z) :
  dmaInProgress (ppu w) = true ->
  0 <= n ->
  dmaCycle (ppu w) + n <= 640 ->
  wfTiming (timing (ppu w)) ->
  wfTiming (timing (ppu (snd (dmaLoop (Z.to_nat n) n w)))).
Proof.
  intros Hdma Hn Hd Hwf.
  destruct (lcdEnabled (ppu w)) eqn:Hlcd.
  - apply (dmaLoop_timing (Z.to_nat n) n (position (timing (ppu w))) w Hlcd Hwf);
      [symmetry; apply Z.mod_small; now apply wf_position_range | exact Hn].
  - rewrite dmaLoop_off; [exact Hwf | exact Hlcd | lia].
Qed.

Lemma all_nonneg_clocks (counts : list Z) :
  Forall (fun k => 0 <= k) counts -> 0 <= clocks counts.
Proof.
  induction 1 as [| k counts Hk _ IH]; cbn [clocks fold_right]; [lia |].
  fold (clocks counts). lia.
Qed.

(** Calls of [cycle] whose clocks add up to no more than what is left of
    the 640 leave the transfer pending: the counter has counted all of
    them, the bus is locked as before and OAM is as it was. *)
Lemma cycles_dma_pending (fuel : nat) (counts : list Z) :
  forall w : World E,
    dmaInProgress (ppu w) = true ->
    wfTiming (timing (ppu w)) ->
    Forall (fun k => 0 <= k) counts ->
    dmaCycle (ppu w) + clocks counts <= 640 ->
    exists w',
      cycles fuel counts w = Some w'
      /\ dmaInProgress (ppu w') = true
      /\ wfTiming (timing (ppu w'))
      /\ dmaCycle (ppu w') = dmaCycle (ppu w) + clocks counts
      /\ busLocked w' = busLocked w
      /\ oam (ppu w') = oam (ppu w)
      /\ regs (ppu w') = regs (ppu w).
Proof.
  induction counts as [| n counts IH]; intros w Hdma Hwf Hall Hd.
  - exists w. cbn [cycles clocks fold_right]. repeat split; try assumption. lia.
  - inversion Hall as [| ? ? Hn Hrest]; subst.
    pose proof (all_nonneg_clocks counts Hrest) as Hsum.
    cbn [clocks fold_right] in Hd. fold (clocks counts) in Hd.
    destruct (cycle_dma_pending w n fuel Hdma Hn ltac:(lia))
      as (w1 & Hrun & Hw1 & Hp & Hc & Hl & Ho & Hr & _).
    pose proof (cycle_dma_pending_wf w n Hdma Hn ltac:(lia) Hwf) as Hwf1.
    rewrite <- Hw1 in Hwf1.
    destruct (IH w1 Hp Hwf1 Hrest ltac:(lia)) as (w' & Hrun' & Hp' & Hwf' & Hc' & Hl' & Ho' & Hr').
    exists w'. cbn [cycles]. rewrite Hrun.
    split; [exact Hrun' |]. split; [exact Hp' |]. split; [exact Hwf' |].
    cbn [clocks fold_right]. fold (clocks counts).
    repeat split; try congruence. lia.
Qed.

Context `{Palette}.

(** C6, as the code has it: a write of [v] to the DMA register (0xFF46)
    locks the bus and starts a transfer whose source base is
    [(v mod 0xE0) << 8] (for a byte [v]). The clocks that follow are
    counted across the calls of [cycle], however they are split: as long
    as no more than 640 were counted, the bus stays locked, the transfer
    stays in progress and OAM is as it was. The call that brings the 641st
    clock finishes the transfer: the bus is unlocked, the counter is back
    at 0 and the 160 cells of OAM hold what the bus returned for the 160
    addresses from the source base on, read in the state the PPU was in
    after the 640 clocks. *)
Theorem oam_dma (w0 : World E) (v n : Z) (before : list Z) (fuel : nat) :
  wfTiming (timing (ppu w0)) ->
  length (oam (ppu w0)) = 160%nat ->
  Forall (fun k => 0 <= k) before ->
  clocks before <= 640 ->
  0 <= n ->
  (Z.to_nat n <= fuel)%nat ->
  installedWrite (E := E) (reg_base + reg_index dma) = Some dmaWrite
  /\ busLocked (dmaWrite (reg_base + reg_index dma) v w0) = true
  /\ dmaInProgress (ppu (dmaWrite (reg_base + reg_index dma) v w0)) = true
  /\ dmaCycle (ppu (dmaWrite (reg_base + reg_index dma) v w0)) = 0
  /\ oam (ppu (dmaWrite (reg_base + reg_index dma) v w0)) = oam (ppu w0)
  /\ dmaBase (ppu (dmaWrite (reg_base + reg_index dma) v w0)) = (toUint8 v mod 0xe0) * 256
  /\ exists wb,
       cycles fuel before (dmaWrite (reg_base + reg_index dma) v w0) = Some wb
       /\ busLocked wb = true
       /\ dmaInProgress (ppu wb) = true
       /\ dmaCycle (ppu wb) = clocks before
       /\ oam (ppu wb) = oam (ppu w0)
       /\ (clocks before + n <= 640 ->
           exists w',
             cycle fuel n wb = Some w'
             /\ busLocked w' = true
             /\ dmaInProgress (ppu w') = true
             /\ dmaCycle (ppu w') = clocks before + n
             /\ oam (ppu w') = oam (ppu w0))
       /\ (640 < clocks before + n ->
           exists w1 w',
             cycle fuel (640 - clocks before) wb = Some w1
             /\ cycle fuel n wb = Some w'
             /\ busLocked w' = false
             /\ dmaInProgress (ppu w') = false
             /\ dmaCycle (ppu w') = 0
             /\ length (oam (ppu w')) = 160%nat
             /\ oam (ppu w')
                = map storeUint8
                    (fst (busBlock 160
                            (dmaBase (ppu (dmaWrite (reg_base + reg_index dma) v w0)))
                            w1))).
Proof.
  intros Hwf Hlen Hall Hsum Hn Hfuel.
  set (w := dmaWrite (reg_base + reg_index dma) v w0).
  assert (Hreg : regs (ppu w) dma = toUint8 v) by reflexivity.
  pose proof (toUint8_range v) as Hv.
  split; [reflexivity |]. split; [reflexivity |]. split; [reflexivity |].
  split; [reflexivity |]. split; [reflexivity |]. split.
  - destruct (dmaBase_bound (ppu w)) as (-> & _); [rewrite Hreg; lia |].
    now rewrite Hreg.
  - pose proof (all_nonneg_clocks before Hall) as Hpos.
    destruct (cycles_dma_pending fuel before w eq_refl Hwf Hall ltac:(cbn; lia))
      as (wb & Hrun & Hp & Hwfb & Hc & Hl & Ho & Hr).
    change (dmaCycle (ppu w)) with 0 in Hc. rewrite Z.add_0_l in Hc.
    change (busLocked wb = true) in Hl. change (oam (ppu wb) = oam (ppu w0)) in Ho.
    exists wb. split; [exact Hrun |]. split; [exact Hl |]. split; [exact Hp |].
    split; [exact Hc |]. split; [exact Ho |]. split.
    + intros Hle.
      destruct (cycle_dma_pending wb n fuel Hp Hn ltac:(lia))
        as (w' & Hrun' & _ & Hp' & Hc' & Hl' & Ho' & _).
      exists w'. split; [exact Hrun' |]. split; [now rewrite Hl' |]. split; [exact Hp' |].
      split; [lia | now rewrite Ho'].
    + intros Hgt.
      destruct (cycle_dma_complete wb n fuel Hp Hwfb ltac:(congruence)
                  ltac:(rewrite Hr, Hreg; lia) ltac:(lia) ltac:(lia) Hfuel)
        as (w1 & w' & Hrun1 & Hrun' & Hl' & Hp' & Hc' & Ho').
      exists w1, w'. rewrite Hc in Hrun1.
      assert (dmaBase (ppu wb) = dmaBase (ppu w)) as Hbase
        by (unfold dmaBase; now rewrite Hr).
      rewrite Hbase in Ho'.
      split; [exact Hrun1 |]. split; [exact Hrun' |]. split; [exact Hl' |].
      split; [exact Hp' |]. split; [exact Hc' |]. split; [| exact Ho'].
      rewrite Ho', length_map. apply busBlock_length.
Qed.

End WithDevices.

Lemma sample_world_enabled : lcdEnabled (ppu PpuSample.world) = true.
Proof. vm_compute. reflexivity. Qed.

Lemma sample_world_wf : wfTiming (timing (ppu PpuSample.world)).
Proof. cbv [wfTiming]. cbn. lia. Qed.

Lemma vram_oam_access_witness :
  (exists hw : Z -> Z -> World unit -> World unit,
     @installedWrite unit PpuSample.palette 0x8000 = Some hw
     /\ vramRead 0x8000 (ppu (hw 0x8000 0x42 PpuSample.world)) = Num (toUint8 0x42))
  /\ (exists hw : Z -> Z -> World unit -> World unit,
        @installedWrite unit PpuSample.palette 0xfe00 = Some hw
        /\ oamRead 0xfe00 (ppu PpuSample.world) = Num 0xff
        /\ hw 0xfe00 0x42 PpuSample.world = PpuSample.world).
Proof.
  assert (Hv : len (vram (ppu PpuSample.world)) = 0x2000) by (vm_compute; reflexivity).
  assert (Ho : len (oam (ppu PpuSample.world)) = 0xa0) by (vm_compute; reflexivity).
  assert (Hm : mode (timing (ppu PpuSample.world)) <> draw) by (vm_compute; discriminate).
  split.
  - destruct (@vram_oam_access unit PpuSample.palette PpuSample.world 0x8000 0x42 Hv Ho)
      as [Hvram _].
    destruct (Hvram ltac:(lia)) as (hw & _ & Hw & _ & _ & Hfree).
    destruct (Hfree (or_intror Hm)) as (_ & _ & Hread).
    exists hw. split; [exact Hw | exact Hread].
  - destruct (@vram_oam_access unit PpuSample.palette PpuSample.world 0xfe00 0x42 Hv Ho)
      as [_ Hoam].
    destruct (Hoam ltac:(lia)) as (hw & _ & Hw & _ & Hblocked & _).
    destruct (Hblocked sample_world_enabled (or_intror eq_refl)) as [Hread Hwrite].
    exists hw. split; [exact Hw |]. split; [exact Hread | exact Hwrite].
Defined.

Lemma frame_timing_witness :
  exists w',
    @cycle unit PpuSample.pattern (Z.to_nat 70224) 70224 PpuSample.world = Some w'
    /\ timing (ppu w') = timing (ppu PpuSample.world)
    /\ vblankCount (raised w') = 1.
Proof.
  destruct (@frame_timing unit PpuSample.pattern PpuSample.world 70224 (Z.to_nat 70224)
              sample_world_enabled sample_world_wf ltac:(lia) ltac:(lia))
    as (w' & Hrun & _ & _ & _ & _ & _ & Hframe).
  exists w'. split; [exact Hrun |].
  destruct (Hframe eq_refl) as [Ht Hv]. split; [exact Ht | exact Hv].
Defined.

Lemma oam_dma_witness :
  exists wb w',
    @cycles unit PpuSample.pattern (Z.to_nat 32) [32; 32; 576]
      (dmaWrite 0xff46 0x12 PpuSample.world) = Some wb
    /\ busLocked wb = true
    /\ oam (ppu wb) = oam (ppu PpuSample.world)
    /\ @cycle unit PpuSample.pattern (Z.to_nat 32) 32 wb = Some w'
    /\ busLocked w' = false
    /\ length (oam (ppu w')) = 160%nat.
Proof.
  destruct (@oam_dma unit PpuSample.pattern PpuSample.palette PpuSample.world 0x12 32
              [32; 32; 576] (Z.to_nat 32) sample_world_wf eq_refl
              ltac:(repeat constructor; lia) ltac:(cbn; lia) ltac:(lia) ltac:(lia))
    as (_ & _ & _ & _ & _ & _ & wb & Hrun & Hl & _ & _ & Ho & _ & Hdone).
  destruct (Hdone ltac:(cbn; lia)) as (_ & w' & _ & Hrun' & Hl' & _ & _ & Hlen & _).
  exists wb, w'. repeat split; assumption.
Defined.

(** C6 as stated fails for the values from 0xE0 on: after writing 0xE0 the
    transfer reads from 0x0000, not from 0xE000. On a bus whose address [a]
    reads as [a mod 251], OAM starts with 0, the byte at 0x0000; the byte
    at 0xE000 is 116. *)
Lemma oam_dma_source_counterexample :
  option_map
    (fun w' => (busLocked w', oam (ppu w') !! 0%nat,
                fst (@bus_read unit PpuSample.pattern 0x0000 w'),
                fst (@bus_read unit PpuSample.pattern (Z.shiftl 0xe0 8) w')))
    (@cycle unit PpuSample.pattern 641 641 (dmaWrite 0xff46 0xe0 PpuSample.world))
  = Some (false, Some 0, Num 0, Num 116).
Proof. vm_compute. reflexivity. Qed.

End PpuFacts.

(* --------------------------------------------------------------------- *)
(** ** The audio sample queue *)
(* --------------------------------------------------------------------- *)

Module SampleQueueFacts.
Import Js SampleQueue.

(** *** Whole numbers among the halves *)

Lemma index_int (k : Z) : 0 <= k -> index (int k) = Some (Z.to_nat k).
Proof.
  intros Hk. unfold index, int.
  rewrite Z.even_mul. cbn [Z.even orb andb].
  destruct (Z.leb_spec 0 (2 * k)); [| lia].
  now rewrite Z.mul_comm, Z.div_mul by lia.
Qed.

Lemma rem_int (a C : Z) : 0 <= a -> 0 < C -> rem (int a) (int C) = int (a mod C).
Proof.
  intros Ha HC. unfold rem, int.
  destruct (Z.eqb_spec (2 * C) 0); [lia |].
  rewrite Z.mul_rem_distr_l by lia.
  now rewrite Z.rem_mod_nonneg by lia.
Qed.

Lemma add_int (a b : Z) : add (int a) (int b) = int (a + b).
Proof. unfold add, int. f_equal. lia. Qed.

Lemma sub_int (a b : Z) : sub (int a) (int b) = int (a - b).
Proof. unfold sub, int. f_equal. lia. Qed.

Lemma lt_int (a b : Z) : lt (int a) (int b) = (a <? b).
Proof.
  unfold lt, int.
  destruct (Z.ltb_spec (2 * a) (2 * b)), (Z.ltb_spec a b); try reflexivity; lia.
Qed.

(** *** Going round the storage *)

Lemma length_rotated {A} (k : nat) (d : list A) : List.length (rotated k d) = List.length d.
Proof.
  unfold rotated. rewrite length_app, length_drop, length_take. lia.
Qed.

(** Writing at the position [k] and moving on by one drops the oldest cell
    of the round and appends the new one. *)
Lemma rotated_insert {A} (k : nat) (x : A) (d : list A) :
  (k < List.length d)%nat ->
  rotated (if (S k =? List.length d)%nat then 0 else S k) (<[k := x]> d)
  = drop 1 (rotated k d) ++ [x].
Proof.
  intros Hk. unfold rotated.
  rewrite drop_app_le by (rewrite length_drop; lia).
  rewrite drop_drop, <- app_assoc.
  destruct (Nat.eqb_spec (S k) (List.length d)) as [He | Hne].
  - cbn [drop take]. rewrite app_nil_r.
    rewrite (drop_ge d) by lia. cbn [app].
    rewrite <- (take_drop k (<[k := x]> d)) at 1.
    rewrite take_insert_ge by lia. f_equal.
    rewrite drop_insert_ge by lia. rewrite Nat.sub_diag.
    destruct (drop k d) as [| y t] eqn:Hd.
    + apply (f_equal List.length) in Hd. rewrite length_drop in Hd. cbn in Hd. lia.
    + apply (f_equal List.length) in Hd. rewrite length_drop in Hd. cbn in Hd.
      assert (t = []) as -> by (destruct t; [reflexivity | cbn in Hd; lia]).
      reflexivity.
  - rewrite drop_insert_lt by lia.
    replace (k + 1)%nat with (S k) by lia. f_equal.
    rewrite (take_S_r _ k x) by (apply list_lookup_insert_eq; lia).
    now rewrite take_insert_ge by lia.
Qed.

Section WithSamples.
Context {A : Type} `{Float32 A}.

Lemma length_held (C : Z) (d : list A) (q : t A) :
  ring C q -> List.length d = Z.to_nat C ->
  List.length (held d q) = Z.to_nat (length q).
Proof.
  intros (HC & _ & _ & _ & Hn & k & Hk & Hnext) Hd. unfold held.
  rewrite Hnext, index_int by lia.
  rewrite length_drop, length_rotated. lia.
Qed.

Lemma next_position (C k : Z) :
  0 < C -> 0 <= k < C ->
  Z.to_nat ((k + 1) mod C)
  = if (S (Z.to_nat k) =? Z.to_nat C)%nat then 0%nat else S (Z.to_nat k).
Proof.
  intros HC Hk. destruct (Nat.eqb_spec (S (Z.to_nat k)) (Z.to_nat C)) as [He | Hne].
  - replace (k + 1) with C by lia. now rewrite Z.mod_same by lia.
  - rewrite Z.mod_small by lia. lia.
Qed.

Lemma push_ring (C : Z) (l r : A) (q : t A) : ring C q -> ring C (push l r q).
Proof.
  intros (HC & Hcap & HL & HR & Hn & k & Hk & Hnext).
  unfold ring, push. cbn [capacity channelLeftData channelRightData length nextSample].
  rewrite Hcap, Hnext, lt_int, add_int, rem_int by lia.
  unfold f32_set. rewrite index_int by lia. rewrite !length_insert.
  repeat split; try assumption; try lia.
  - destruct (Z.ltb_spec (length q) C); lia.
  - destruct (Z.ltb_spec (length q) C); lia.
  - exists ((k + 1) mod C). split; [apply Z.mod_pos_bound; lia | reflexivity].
Qed.

Lemma length_push (C : Z) (l r : A) (q : t A) :
  ring C q -> length (push l r q) = Z.min (length q + 1) C.
Proof.
  intros (HC & Hcap & _ & _ & Hn & _). unfold push. cbn [length].
  rewrite Hcap, lt_int. destruct (Z.ltb_spec (length q) C); lia.
Qed.

Lemma held_push (C : Z) (x l r : A) (d : list A) (q : t A) :
  ring C q -> List.length d = Z.to_nat C ->
  held (f32_set d (nextSample q) (Some x)) (push l r q)
  = drop (Z.to_nat (length q) + 1 - Z.to_nat C) (held d q ++ [fround x]).
Proof.
  intros Hring Hd. pose proof (length_push C l r q Hring) as Hlen.
  destruct Hring as (HC & Hcap & _ & _ & Hn & k & Hk & Hnext).
  unfold held. rewrite Hlen. unfold push at 1. cbn [nextSample].
  rewrite Hcap, Hnext, add_int, rem_int by lia.
  unfold f32_set. rewrite !index_int by (try apply Z.mod_pos_bound; lia).
  rewrite length_insert, next_position by lia.
  rewrite <- Hd at 1. rewrite rotated_insert by lia.
  assert (List.length (rotated (Z.to_nat k) d) = Z.to_nat C) as HR
    by (rewrite length_rotated; exact Hd).
  rewrite Hd. destruct (Z.ltb_spec (length q) C) as [Hlt | Hge].
  - replace (Z.to_nat (length q) + 1 - Z.to_nat C)%nat with 0%nat by lia.
    rewrite drop_0, drop_app_le by (rewrite length_drop; lia).
    rewrite drop_drop. do 2 f_equal. lia.
  - replace (Z.to_nat (length q) + 1 - Z.to_nat C)%nat with 1%nat by lia.
    replace (Z.to_nat C - Z.to_nat (Z.min (length q + 1) C))%nat with 0%nat by lia.
    replace (Z.to_nat C - Z.to_nat (length q))%nat with 0%nat by lia.
    rewrite !drop_0. destruct (rotated (Z.to_nat k) d); [cbn in HR; lia | reflexivity].
Qed.

Lemma length_contents (C : Z) (q : t A) :
  ring C q -> List.length (contents q) = Z.to_nat (length q).
Proof.
  intros Hring. pose proof Hring as (_ & _ & HL & HR & _). unfold contents.
  rewrite length_zip_with, !(length_held C) by assumption. lia.
Qed.

Lemma contents_push (C : Z) (l r : A) (q : t A) :
  ring C q ->
  contents (push l r q)
  = drop (List.length (contents q) + 1 - Z.to_nat C)
      (contents q ++ [(fround l, fround r)]).
Proof.
  intros Hring. pose proof Hring as (_ & _ & HL & HR & _).
  rewrite (length_contents C) by assumption. unfold contents.
  unfold push at 1 3. cbn [channelLeftData channelRightData].
  rewrite !(held_push C) by assumption.
  rewrite <- zip_with_drop. f_equal.
  rewrite zip_with_app by (now rewrite !(length_held C)). reflexivity.
Qed.

Lemma pushAll_ring (C : Z) (xs : list (A * A)) :
  forall q : t A, ring C q -> ring C (pushAll xs q).
Proof.
  induction xs as [| [l r] xs IH]; intros q Hq; [exact Hq |].
  apply IH. now apply push_ring.
Qed.

Lemma contents_pushAll (C : Z) (xs : list (A * A)) :
  forall q : t A,
    ring C q ->
    contents (pushAll xs q)
    = drop (List.length (contents q) + List.length xs - Z.to_nat C)
        (contents q ++ List.map rounded xs).
Proof.
  induction xs as [| [l r] xs IH]; intros q Hq.
  - cbn [pushAll fold_left List.map List.length]. rewrite app_nil_r.
    pose proof (length_contents C q Hq) as Hlen.
    destruct Hq as (_ & _ & _ & _ & Hn & _).
    replace (List.length (contents q) + 0 - Z.to_nat C)%nat with 0%nat by lia.
    now rewrite drop_0.
  - change (pushAll ((l, r) :: xs) q) with (pushAll xs (push l r q)).
    rewrite IH by now apply push_ring.
    pose proof (length_contents C _ (push_ring C l r q Hq)) as Hlen'.
    pose proof (length_contents C q Hq) as Hlen.
    pose proof (length_push C l r q Hq) as Hpush.
    rewrite Hlen', Hpush, Hlen. rewrite (contents_push C) by assumption.
    rewrite Hlen. cbn [List.map List.length]. change (rounded (l, r)) with (fround l, fround r).
    destruct Hq as (HC & _ & _ & _ & Hn & _).
    rewrite <- drop_app_le by (rewrite length_app, Hlen; cbn [List.length]; lia).
    rewrite drop_drop, <- app_assoc. cbn [app]. f_equal. lia.
Qed.

Lemma length_pushAll (C : Z) (xs : list (A * A)) :
  forall q : t A,
    ring C q ->
    length (pushAll xs q) = Z.min (length q + Z.of_nat (List.length xs)) C.
Proof.
  induction xs as [| [l r] xs IH]; intros q Hq.
  - destruct Hq as (_ & _ & _ & _ & Hn & _). cbn [pushAll fold_left List.length]. lia.
  - change (pushAll ((l, r) :: xs) q) with (pushAll xs (push l r q)).
    rewrite IH by now apply push_ring.
    rewrite (length_push C) by assumption. cbn [List.length].
    destruct Hq as (_ & _ & _ & _ & Hn & _). lia.
Qed.

(** *** Construction and reset *)

Lemma held_empty (d : list A) (q : t A) :
  length q = 0 -> nextSample q = int 0 -> held d q = [].
Proof.
  intros Hn Hnext. unfold held. rewrite Hnext, index_int, Hn by lia.
  unfold rotated. cbn [Z.to_nat drop take]. rewrite app_nil_r, Nat.sub_0_r.
  now rewrite drop_all.
Qed.

Lemma constructor_ring (C : Z) :
  0 < C ->
  exists q : t A,
    constructor (2 * C) = Normal q /\ ring C q /\ contents q = [] /\ length q = 0.
Proof.
  intros HC. unfold constructor, toIndex.
  rewrite Z.mul_comm, Z.quot_mul by lia.
  destruct (Z.ltb_spec C 0); [lia |]. cbn [bind].
  eexists. split; [reflexivity |]. split; [| split; [| reflexivity]].
  - unfold ring. cbn [capacity channelLeftData channelRightData length nextSample].
    rewrite !length_replicate. repeat split; try lia.
    + unfold int. f_equal. lia.
    + exists 0. split; [lia | reflexivity].
  - unfold contents. now rewrite !held_empty.
Qed.

Lemma reset_ring (C : Z) (q : t A) :
  ring C q -> ring C (reset q) /\ contents (reset q) = [] /\ length (reset q) = 0.
Proof.
  intros (HC & Hcap & HL & HR & Hn & _). split; [| split; [| reflexivity]].
  - unfold ring, reset. cbn [capacity channelLeftData channelRightData length nextSample].
    rewrite !length_replicate. repeat split; try assumption; try lia.
    exists 0. split; [lia | reflexivity].
  - unfold contents. now rewrite !held_empty.
Qed.

(** *** Reading the queue out *)

Lemma with_length_same (q : t A) : with_length (length q) q = q.
Proof. now destruct q. Qed.

Lemma with_length_with_length (n m : Z) (q : t A) :
  with_length n (with_length m q) = with_length n q.
Proof. reflexivity. Qed.

(** The loop of [fill], started at the output position [j] and the read
    position [i0], when the cells from [i0] on (going round) hold [hl] and
    [hr]. *)
Lemma fillLoop_spec (C frames : Z) (L R : list A) :
  0 < C ->
  forall (hl hr : list A) (j i0 : Z) (cl cr : list A) (q : t A),
    capacity q = int C -> channelLeftData q = L -> channelRightData q = R ->
    length q = Z.of_nat (List.length hl) -> List.length hr = List.length hl ->
    0 <= j -> 0 <= i0 < C ->
    frames <= Z.of_nat (List.length cl) -> frames <= Z.of_nat (List.length cr) ->
    (forall t : nat, (t < List.length hl)%nat ->
                     L !! Z.to_nat ((i0 + Z.of_nat t) mod C) = hl !! t) ->
    (forall t : nat, (t < List.length hl)%nat ->
                     R !! Z.to_nat ((i0 + Z.of_nat t) mod C) = hr !! t) ->
    fillLoop (List.length hl) frames j (int i0) cl cr q
    = (take (Z.to_nat j) cl
         ++ List.map fround (take (Z.to_nat (Z.min (frames - j) (length q))) hl)
         ++ drop (Z.to_nat j + Z.to_nat (Z.min (frames - j) (length q))) cl,
       take (Z.to_nat j) cr
         ++ List.map fround (take (Z.to_nat (Z.min (frames - j) (length q))) hr)
         ++ drop (Z.to_nat j + Z.to_nat (Z.min (frames - j) (length q))) cr,
       with_length (length q - Z.max 0 (Z.min (frames - j) (length q))) q).
Proof.
  intros HC. induction hl as [| x hl IH];
    intros hr j i0 cl cr q Hcap HL HR Hn Hlen Hj Hi Hcl Hcr Hl Hr.
  - cbn [List.length] in Hn. rewrite Hn.
    replace (Z.to_nat (Z.min (frames - j) (Z.of_nat 0))) with 0%nat by lia.
    replace (Z.max 0 (Z.min (frames - j) (Z.of_nat 0))) with 0 by lia.
    cbn [fillLoop List.length]. rewrite !take_0. cbn [List.map app].
    rewrite Nat.add_0_r, !take_drop.
    rewrite Z.sub_0_r, <- Hn. now rewrite with_length_same.
  - destruct hr as [| y hr]; [cbn in Hlen; lia |].
    cbn [List.length] in *. cbn [fillLoop].
    destruct (Z.ltb_spec j frames) as [Hlt | Hge]; cycle 1.
    { cbn [andb].
      replace (Z.to_nat (Z.min (frames - j) (length q))) with 0%nat by lia.
      replace (Z.max 0 (Z.min (frames - j) (length q))) with 0 by lia.
      rewrite !take_0. cbn [List.map app]. rewrite Nat.add_0_r, !take_drop.
      now rewrite Z.sub_0_r, with_length_same. }
    destruct (Z.ltb_spec 0 (length q)) as [Hpos | Hzero]; [| lia].
    cbn [andb]. unfold f32_get, f32_set. rewrite !index_int by lia.
    rewrite HL, HR.
    pose proof (Hl 0%nat ltac:(lia)) as Hl0. pose proof (Hr 0%nat ltac:(lia)) as Hr0.
    cbn [Z.of_nat] in Hl0, Hr0. rewrite Z.add_0_r, Z.mod_small in Hl0, Hr0 by lia.
    rewrite Hl0, Hr0. cbn [lookup list_lookup].
    rewrite Hcap, add_int, rem_int by lia.
    rewrite (IH hr (j + 1) ((i0 + 1) mod C) _ _ (with_length (length q - 1) q));
      try (cbn [length capacity channelLeftData channelRightData with_length];
           rewrite ?length_insert; first [assumption | lia]).
    + change (length (with_length (length q - 1) q)) with (length q - 1).
      rewrite with_length_with_length.
      replace (length q - 1 - Z.max 0 (Z.min (frames - (j + 1)) (length q - 1)))
        with (length q - Z.max 0 (Z.min (frames - j) (length q))) by lia.
      replace (Z.to_nat (Z.min (frames - j) (length q)))
        with (S (Z.to_nat (Z.min (frames - (j + 1)) (length q - 1)))) by lia.
      cbn [take List.map].
      replace (Z.to_nat (j + 1)) with (S (Z.to_nat j)) by lia.
      rewrite !(take_S_r _ (Z.to_nat j) (fround _)) by (apply list_lookup_insert_eq; lia).
      rewrite !take_insert_ge by lia.
      rewrite !drop_insert_lt by lia.
      rewrite <- !app_assoc. cbn [app].
      replace (S (Z.to_nat j) + Z.to_nat (Z.min (frames - (j + 1)) (length q - 1)))%nat
        with (Z.to_nat j + S (Z.to_nat (Z.min (frames - (j + 1)) (length q - 1))))%nat by lia.
      reflexivity.
    + apply Z.mod_pos_bound. lia.
    + intros t Ht. rewrite Zplus_mod_idemp_l.
      replace (i0 + 1 + Z.of_nat t) with (i0 + Z.of_nat (S t)) by lia.
      rewrite Hl by lia. reflexivity.
    + intros t Ht. rewrite Zplus_mod_idemp_l.
      replace (i0 + 1 + Z.of_nat t) with (i0 + Z.of_nat (S t)) by lia.
      rewrite Hr by lia. reflexivity.
Qed.

Lemma rotated_lookup (k i : nat) (d : list A) :
  (k < List.length d)%nat -> (i < List.length d)%nat ->
  rotated k d !! i
  = d !! Z.to_nat ((Z.of_nat k + Z.of_nat i) mod Z.of_nat (List.length d)).
Proof.
  intros Hk Hi. unfold rotated.
  destruct (Nat.lt_ge_cases i (List.length d - k)) as [Hlt | Hge].
  - rewrite lookup_app_l by (rewrite length_drop; lia).
    rewrite lookup_drop, Z.mod_small by lia. f_equal. lia.
  - rewrite lookup_app_r by (rewrite length_drop; lia).
    rewrite length_drop, lookup_take.
    destruct (decide (i - (List.length d - k) < k)%nat); [| lia].
    f_equal.
    replace ((Z.of_nat k + Z.of_nat i) mod Z.of_nat (List.length d))
      with (Z.of_nat k + Z.of_nat i - Z.of_nat (List.length d))
      by (apply Z.mod_unique_pos with (q := 1); lia).
    lia.
Qed.

(** The cells [fill] reads are the held ones, oldest first. *)
Lemma held_read (C k : Z) (d : list A) (q : t A) (t : nat) :
  0 < C -> List.length d = Z.to_nat C -> 0 <= k < C -> nextSample q = int k ->
  0 <= length q <= C -> (t < Z.to_nat (length q))%nat ->
  d !! Z.to_nat (((k - length q + C) mod C + Z.of_nat t) mod C) = held d q !! t.
Proof.
  intros HC Hd Hk Hnext Hn Ht. unfold held.
  rewrite Hnext, index_int, lookup_drop by lia.
  rewrite rotated_lookup by lia.
  rewrite Zplus_mod_idemp_l. do 2 f_equal.
  replace (Z.of_nat (List.length d)) with C by lia.
  replace (Z.of_nat (Z.to_nat k) + Z.of_nat (List.length d - Z.to_nat (length q) + t))
    with (k - length q + C + Z.of_nat t) by lia.
  reflexivity.
Qed.

Lemma held_with_length (C : Z) (m : nat) (d : list A) (q : t A) :
  ring C q -> List.length d = Z.to_nat C -> (m <= Z.to_nat (length q))%nat ->
  held d (with_length (length q - Z.of_nat m) q) = drop m (held d q).
Proof.
  intros (HC & _ & _ & _ & Hn & k & Hk & Hnext) Hd Hm. unfold held.
  cbn [nextSample length with_length]. rewrite Hnext, index_int by lia.
  rewrite drop_drop. f_equal. lia.
Qed.

Lemma fst_contents (C : Z) (q : t A) :
  ring C q -> List.map fst (contents q) = held (channelLeftData q) q.
Proof.
  intros Hq. pose proof Hq as (_ & _ & HL & HR & _). unfold contents.
  apply fst_zip. rewrite !(length_held C) by assumption. lia.
Qed.

Lemma snd_contents (C : Z) (q : t A) :
  ring C q -> List.map snd (contents q) = held (channelRightData q) q.
Proof.
  intros Hq. pose proof Hq as (_ & _ & HL & HR & _). unfold contents.
  apply snd_zip. rewrite !(length_held C) by assumption. lia.
Qed.

(** X2: For a queue for an even sample rate [2 * C], whose capacity [C] is
    a whole number of samples, [fill] moves the oldest samples, in the order they
    were pushed, to the start of the two channels of a stereo buffer: as
    many as the buffer has frames, or all of them when the buffer is long
    enough. The rest of the buffer is left as it was, and the samples not
    moved stay in the queue. *)
Theorem fill_oldest_first (C : Z) (q : t A) (buffer : AudioBuffer A)
  (cl cr : list A) (rest : list (list A)) :
  ring C q ->
  channels buffer = cl :: cr :: rest ->
  buffer_length buffer = Z.of_nat (List.length cl) ->
  buffer_length buffer = Z.of_nat (List.length cr) ->
  let m := Z.to_nat (Z.min (buffer_length buffer) (getLength q)) in
  exists q' : t A,
    fill buffer q
    = Normal
        ({| buffer_length := buffer_length buffer;
            channels :=
              (List.map fround (take m (List.map fst (contents q))) ++ drop m cl)
              :: (List.map fround (take m (List.map snd (contents q))) ++ drop m cr)
              :: rest |},
         q')
    /\ ring C q'
    /\ getLength q' = getLength q - Z.of_nat m
    /\ contents q' = drop m (contents q).
Proof.
  intros Hq Hch Hcl Hcr m. unfold getLength in *.
  pose proof Hq as (HC & Hcap & HL & HR & Hn & k & Hk & Hnext).
  exists (with_length (length q - Z.of_nat m) q).
  assert (ring C (with_length (length q - Z.of_nat m) q)) as Hq'.
  { unfold ring. cbn [capacity channelLeftData channelRightData length nextSample with_length].
    repeat split; try assumption; try lia. exists k. split; [lia | assumption]. }
  split; [| split; [exact Hq' | split; [reflexivity |]]].
  - unfold fill, getChannelData. rewrite Hch. cbn [lookup list_lookup bind].
    rewrite Hnext, Hcap, sub_int, add_int, rem_int by lia.
    rewrite <- (length_held C (channelLeftData q) q) at 1 by assumption.
    rewrite (fillLoop_spec C (buffer_length buffer) (channelLeftData q) (channelRightData q) HC
               (held (channelLeftData q) q) (held (channelRightData q) q));
      try reflexivity; try assumption; try lia.
    + cbn [Z.to_nat take app Nat.add]. rewrite Z.sub_0_r.
      rewrite (fst_contents C), (snd_contents C) by assumption.
      fold m. replace (Z.max 0 (Z.min (buffer_length buffer) (length q))) with (Z.of_nat m) by lia.
      reflexivity.
    + rewrite (length_held C) by assumption. lia.
    + rewrite !(length_held C) by assumption. reflexivity.
    + apply Z.mod_pos_bound. lia.
    + intros t Ht. rewrite (length_held C) in Ht by assumption.
      now apply (held_read C k).
    + intros t Ht. rewrite (length_held C) in Ht by assumption.
      now apply (held_read C k).
  - unfold contents. cbn [channelLeftData channelRightData with_length].
    change {| sampleRate := sampleRate q; capacity := capacity q;
              channelLeftData := channelLeftData q;
              channelRightData := channelRightData q;
              length := length q - Z.of_nat m; nextSample := nextSample q |}
      with (with_length (length q - Z.of_nat m) q).
    rewrite !(held_with_length C) by (try assumption; lia).
    now rewrite zip_with_drop.
Qed.

(** X1: A queue for an even sample rate [2 * C], whose capacity [C] is a
    whole number of samples, keeps the most recent samples. After any number of
    pushes it holds, oldest first and rounded to single precision, what it
    held before followed by the pushed samples, cut at the front to the
    capacity; [getLength] is their number and never exceeds the capacity. *)
Theorem push_keeps_latest (C : Z) (samples : list (A * A)) (q : t A) :
  ring C q ->
  ring C (pushAll samples q)
  /\ getLength (pushAll samples q)
     = Z.min (getLength q + Z.of_nat (List.length samples)) C
  /\ contents (pushAll samples q)
     = drop (List.length (contents q) + List.length samples - Z.to_nat C)
         (contents q ++ List.map rounded samples).
Proof.
  intros Hq. split; [| split].
  - now apply pushAll_ring.
  - now apply length_pushAll.
  - now apply contents_pushAll.
Qed.

(** X3: A queue constructed for an even sample rate [2 * C] has [C] cells
    per channel and holds nothing; [reset] brings any such queue back to
    holding nothing, with the same storage. *)
Theorem starts_empty (C : Z) :
  0 < C ->
  (exists q : t A,
     constructor (2 * C) = Normal q
     /\ ring C q /\ contents q = [] /\ getLength q = 0)
  /\ (forall q : t A,
        ring C q ->
        ring C (reset q) /\ contents (reset q) = [] /\ getLength (reset q) = 0).
Proof.
  intros HC. split.
  - now apply constructor_ring.
  - intros q Hq. now apply reset_ring.
Qed.

End WithSamples.

Lemma push_keeps_latest_witness :
  getLength (@pushAll Z SampleQueueSample.exact [(7, 70)] SampleQueueSample.queue) = 4
  /\ contents (@pushAll Z SampleQueueSample.exact [(7, 70)] SampleQueueSample.queue)
     = [(4, 40); (5, 50); (6, 60); (7, 70)].
Proof.
  destruct (@push_keeps_latest Z SampleQueueSample.exact 4 [(7, 70)]
              SampleQueueSample.queue)
    as (_ & Hlen & Hcontents).
  - unfold ring. repeat split; try (vm_compute; congruence).
    exists 2. split; [lia | reflexivity].
  - split; [exact Hlen | exact Hcontents].
Defined.

Lemma fill_oldest_first_witness :
  exists q' : t Z,
    @fill Z SampleQueueSample.exact SampleQueueSample.silence SampleQueueSample.queue
    = Normal ({| buffer_length := 3; channels := [[3; 4; 5]; [30; 40; 50]] |}, q')
    /\ contents q' = [(6, 60)].
Proof.
  destruct (@fill_oldest_first Z SampleQueueSample.exact 4 SampleQueueSample.queue
              SampleQueueSample.silence [0; 0; 0] [0; 0; 0] [])
    as (q' & Hfill & _ & _ & Hcontents).
  - unfold ring. repeat split; try (vm_compute; congruence).
    exists 2. split; [lia | reflexivity].
  - reflexivity.
  - reflexivity.
  - reflexivity.
  - exists q'. split; [exact Hfill | exact Hcontents].
Defined.

Lemma starts_empty_witness :
  exists q : t Z,
    @constructor Z SampleQueueSample.exact 8 = Normal q /\ contents q = [].
Proof.
  destruct (@starts_empty Z SampleQueueSample.exact 4 ltac:(lia))
    as ((q & Hq & _ & Hc & _) & _).
  exists q. split; [exact Hq | exact Hc].
Defined.

(** The statements above are for an even sample rate. With an odd one the
    capacity is not a whole number and the queue counts more samples than
    it has cells: at a rate of 7, five pushes leave a length of 4 over
    three cells, and [fill] hands out the samples 2 and 3 followed by two
    NaN, read from past the three cells (-1 stands for NaN in the
    example). *)
Lemma odd_rate_overcounts :
  getLength SampleQueueSample.oddQueue = 4
  /\ List.length (channelLeftData SampleQueueSample.oddQueue) = 3%nat
  /\ match @fill Z SampleQueueSample.exact SampleQueueSample.fiveFrames
              SampleQueueSample.oddQueue with
     | Normal (buffer, _) => channels buffer
     | Throw _ => []
     end
     = [[2; 3; -1; -1; 0]; [12; 13; -1; -1; 0]].
Proof. vm_compute. repeat split; reflexivity. Qed.

End SampleQueueFacts.

(* --------------------------------------------------------------------- *)
(** ** The clock of the CGB *)
(* --------------------------------------------------------------------- *)

Module ClockCgbFacts.
Import Js ClockCgb JsFacts.

(** *** The lowest bit *)

Lemma toInt32_parity (x : Z) : toInt32 x mod 2 = x mod 2.
Proof.
  unfold toInt32.
  replace ((x + 2 ^ 31) mod 2 ^ 32 - 2 ^ 31)
    with ((x + 2 ^ 31) mod 2 ^ 32 + (- 2 ^ 30) * 2) by lia.
  rewrite Z.mod_add by lia.
  rewrite Z.mod_mod_divide by (exists (2 ^ 31); lia).
  replace (x + 2 ^ 31) with (x + 2 ^ 30 * 2) by lia. now rewrite Z.mod_add by lia.
Qed.

Lemma bitand_one (x : Z) : bitand x 0x01 = x mod 2.
Proof.
  unfold bitand. change (toInt32 1) with (Z.ones 1).
  rewrite Z.land_ones by lia. apply toInt32_parity.
Qed.

Lemma ushr_one (x : Z) : 0 <= x < 2 ^ 32 -> ushr x 1 = x / 2.
Proof.
  intros Hx. unfold ushr, toUint32. rewrite (Z.mod_small x) by lia.
  change (1 mod 2 ^ 32 mod 32) with 1. now rewrite Z.shiftr_div_pow2 by lia.
Qed.

(** *** The speed register *)

(** X4: KEY1 reads as 0x7E, plus 0x80 in double speed, plus the lowest bit of
    the value written last; writing it does not change the speed. *)
Theorem key1_write_read (c : t) (a a' v : Z) :
  key1Read a' (key1Write a v c)
  = 0x7e + (if isDoubleSpeed c then 0x80 else 0) + v mod 2
  /\ isDoubleSpeed (key1Write a v c) = isDoubleSpeed c.
Proof.
  split; [| reflexivity].
  unfold key1Read, key1Write, isDoubleSpeed.
  cbn [doubleSpeed speedSwitchPending with_speedSwitchPending].
  rewrite bitand_one.
  assert (v mod 2 = 0 \/ v mod 2 = 1) as [-> | ->]
    by (pose proof (Z.mod_pos_bound v 2); lia);
    destruct (doubleSpeed c); reflexivity.
Qed.

(** *** Devices that count *)

Lemma incrementImpl_counting (n : Z) (c : t) (l : Ledger) :
  @incrementImpl Ledger counting n (c, l)
  = if doubleSpeed c then
      ({| cpuCycles := cpuCycles c + n; extraCpuCycles := extraCpuCycles c;
          dividerAccCycles := bitand (dividerAccCycles c + n) 0x01;
          doubleSpeed := true; speedSwitchPending := speedSwitchPending c |},
       {| ppuClocks := ppuClocks l + 2 * n; timerCycles := timerCycles l + n;
          serialCycles := serialCycles l + n;
          apuCycles := apuCycles l + ushr (dividerAccCycles c + n) 1 |})
    else
      ({| cpuCycles := cpuCycles c + 2 * n; extraCpuCycles := extraCpuCycles c;
          dividerAccCycles := dividerAccCycles c;
          doubleSpeed := false; speedSwitchPending := speedSwitchPending c |},
       {| ppuClocks := ppuClocks l + 4 * n; timerCycles := timerCycles l + n;
          serialCycles := serialCycles l + n; apuCycles := apuCycles l + n |}).
Proof.
  destruct c as [cy ex acc d p]. unfold incrementImpl. cbn [fst doubleSpeed].
  destruct d; reflexivity.
Qed.

Lemma drain_done {W : Type} `{Devices W} (fuel : nat) (m : t * W) :
  extraCpuCycles (fst m) = 0 -> drain fuel m = Some m.
Proof. intros He. destruct fuel; cbn [drain]; now rewrite He. Qed.

Lemma increment_counting (fuel : nat) (n : Z) (c : t) (l : Ledger) :
  extraCpuCycles c = 0 ->
  @increment Ledger counting fuel n (c, l)
  = Some (@incrementImpl Ledger counting n (c, l)).
Proof.
  intros He. unfold increment. apply drain_done.
  rewrite incrementImpl_counting. now destruct (doubleSpeed c).
Qed.

(** X5: What the devices are given adds up. In single speed a CPU cycle is four
    PPU clocks and one cycle of the timer, the serial port and the APU, and
    counts twice in [cpuCycles]. In double speed it is two PPU clocks, one
    cycle of the timer and the serial port, and half an APU cycle: over any
    sequence of calls the APU is given half of the cycles, the odd one
    being carried over in [dividerAccCycles]. *)
Theorem cycle_accounting (fuel : nat) (counts : list Z) :
  forall (c : t) (l : Ledger),
    extraCpuCycles c = 0 ->
    (isDoubleSpeed c = true ->
     0 <= dividerAccCycles c <= 1 /\ Forall (fun n => 0 <= n < 2 ^ 31) counts) ->
    exists (c' : t) (l' : Ledger),
      @incrementAll Ledger counting fuel counts (c, l) = Some (c', l')
      /\ isDoubleSpeed c' = isDoubleSpeed c
      /\ extraCpuCycles c' = 0
      /\ timerCycles l' = timerCycles l + total counts
      /\ serialCycles l' = serialCycles l + total counts
      /\ (if isDoubleSpeed c then
            ppuClocks l' = ppuClocks l + 2 * total counts
            /\ cpuCycles c' = cpuCycles c + total counts
            /\ apuCycles l' = apuCycles l + (dividerAccCycles c + total counts) / 2
            /\ dividerAccCycles c' = (dividerAccCycles c + total counts) mod 2
          else
            ppuClocks l' = ppuClocks l + 4 * total counts
            /\ cpuCycles c' = cpuCycles c + 2 * total counts
            /\ apuCycles l' = apuCycles l + total counts).
Proof.
  unfold isDoubleSpeed.
  induction counts as [| n counts IH]; intros c l He Hd.
  - exists c, l. cbn [incrementAll total fold_right].
    repeat split; try lia.
    destruct (doubleSpeed c) eqn:Hs; repeat split; try lia.
    all: destruct (Hd eq_refl) as [Hacc _].
    all: rewrite Z.add_0_r; Z.div_mod_to_equations; lia.
  - cbn [incrementAll]. rewrite increment_counting by assumption.
    rewrite incrementImpl_counting.
    destruct (doubleSpeed c) eqn:Hs.
    + destruct (Hd eq_refl) as [Hacc Hall].
      apply Forall_cons in Hall as [Hn Hall].
      rewrite bitand_one, ushr_one by lia.
      match goal with
      | |- context [incrementAll fuel counts (?c1, ?l1)] =>
          destruct (IH c1 l1) as (c' & l' & Hrun & Hs' & He' & Ht & Hse & Hrest)
      end.
      { exact He. }
      { intros _. cbn [dividerAccCycles]. split; [| exact Hall].
        pose proof (Z.mod_pos_bound (dividerAccCycles c + n) 2). lia. }
      cbn [doubleSpeed cpuCycles dividerAccCycles ppuClocks timerCycles serialCycles apuCycles]
        in Hs', Ht, Hse, Hrest.
      destruct Hrest as (Hp & Hc & Ha & Hacc').
      exists c', l'. cbn [total fold_right]. fold (total counts).
      repeat split; try assumption; try lia.
      * rewrite Ha. pose proof (Z.mod_pos_bound (dividerAccCycles c + n) 2).
        Z.div_mod_to_equations. lia.
      * rewrite Hacc'. Z.div_mod_to_equations. lia.
    + match goal with
      | |- context [incrementAll fuel counts (?c1, ?l1)] =>
          destruct (IH c1 l1) as (c' & l' & Hrun & Hs' & He' & Ht & Hse & Hrest)
      end.
      { exact He. }
      { cbn [doubleSpeed]. discriminate. }
      cbn [doubleSpeed cpuCycles dividerAccCycles ppuClocks timerCycles serialCycles apuCycles]
        in Hs', Ht, Hse, Hrest.
      destruct Hrest as (Hp & Hc & Ha).
      exists c', l'. cbn [total fold_right]. fold (total counts).
      repeat split; try assumption; try lia.
Qed.

(** X6: A pause asked for with [pauseCpu] is served by the next [increment]:
    its cycles go to the devices after the ones of the call itself, twice
    as many in double speed, and nothing is left over. *)
Theorem pause_is_served (fuel : nat) (n k : Z) (c : t) (l : Ledger) :
  extraCpuCycles c = 0 ->
  exists (c' : t) (l' : Ledger),
    @increment Ledger counting (S fuel) n (pauseCpu k c, l) = Some (c', l')
    /\ extraCpuCycles c' = 0
    /\ timerCycles l' = timerCycles l + n + (if isDoubleSpeed c then 2 else 1) * k
    /\ cpuCycles c'
       = cpuCycles c + (if isDoubleSpeed c then n + 2 * k else 2 * (n + k)).
Proof.
  intros He. unfold increment, pauseCpu, isDoubleSpeed. rewrite incrementImpl_counting.
  cbn [doubleSpeed with_extraCpuCycles extraCpuCycles cpuCycles dividerAccCycles
       speedSwitchPending].
  rewrite He. destruct (doubleSpeed c) eqn:Hs.
  - cbn [drain fst extraCpuCycles].
    destruct (Z.eqb_spec (0 + 2 * k) 0) as [Hz | Hnz].
    + eexists _, _. split; [reflexivity |].
      cbn [extraCpuCycles timerCycles cpuCycles with_extraCpuCycles]. lia.
    + unfold on_clock. cbn [fst snd with_extraCpuCycles cpuCycles extraCpuCycles
                            dividerAccCycles doubleSpeed speedSwitchPending].
      rewrite incrementImpl_counting. cbn [doubleSpeed].
      rewrite drain_done by reflexivity.
      eexists _, _. split; [reflexivity |].
      cbn [extraCpuCycles timerCycles cpuCycles with_extraCpuCycles]. lia.
  - cbn [drain fst extraCpuCycles].
    destruct (Z.eqb_spec (0 + 1 * k) 0) as [Hz | Hnz].
    + eexists _, _. split; [reflexivity |].
      cbn [extraCpuCycles timerCycles cpuCycles with_extraCpuCycles]. lia.
    + unfold on_clock. cbn [fst snd with_extraCpuCycles cpuCycles extraCpuCycles
                            dividerAccCycles doubleSpeed speedSwitchPending].
      rewrite incrementImpl_counting. cbn [doubleSpeed].
      rewrite drain_done by reflexivity.
      eexists _, _. split; [reflexivity |].
      cbn [extraCpuCycles timerCycles cpuCycles with_extraCpuCycles]. lia.
Qed.

Section WithDevices.
Context {W : Type} `{Devices W}.

Lemma incrementImpl_quiet (n : Z) (m : t * W) :
  quiet ->
  fst (incrementImpl n m)
  = if doubleSpeed (fst m) then
      {| cpuCycles := cpuCycles (fst m) + n;
         extraCpuCycles := extraCpuCycles (fst m);
         dividerAccCycles := bitand (dividerAccCycles (fst m) + n) 0x01;
         doubleSpeed := true; speedSwitchPending := speedSwitchPending (fst m) |}
    else
      {| cpuCycles := cpuCycles (fst m) + 2 * n;
         extraCpuCycles := extraCpuCycles (fst m);
         dividerAccCycles := dividerAccCycles (fst m);
         doubleSpeed := false; speedSwitchPending := speedSwitchPending (fst m) |}.
Proof.
  intros Hq. destruct m as [[cy ex acc d p] w]. unfold incrementImpl.
  cbn [fst doubleSpeed]. destruct d.
  - unfold on_clock at 1. cbn [fst].
    destruct (Hq (ushr (dividerAccCycles
                          (fst (on_clock (fun c => with_dividerAccCycles (dividerAccCycles c + n) c)
                                  ({| cpuCycles := cy; extraCpuCycles := ex; dividerAccCycles := acc;
                                      doubleSpeed := true; speedSwitchPending := p |}, w)))) 1)
                (serial_cycle n (timer_cycle n (ppu_cycle (2 * n)
                   (on_clock (fun c => with_dividerAccCycles (bitand (dividerAccCycles c) 0x01) c)
                      (on_clock (fun c => with_dividerAccCycles (dividerAccCycles c + n) c)
                         ({| cpuCycles := cy; extraCpuCycles := ex; dividerAccCycles := acc;
                             doubleSpeed := true; speedSwitchPending := p |}, w))))))) as (_ & _ & _ & ->).
    destruct (Hq n (timer_cycle n (ppu_cycle (2 * n)
                   (on_clock (fun c => with_dividerAccCycles (bitand (dividerAccCycles c) 0x01) c)
                      (on_clock (fun c => with_dividerAccCycles (dividerAccCycles c + n) c)
                         ({| cpuCycles := cy; extraCpuCycles := ex; dividerAccCycles := acc;
                             doubleSpeed := true; speedSwitchPending := p |}, w)))))) as (_ & _ & -> & _).
    destruct (Hq n (ppu_cycle (2 * n)
                   (on_clock (fun c => with_dividerAccCycles (bitand (dividerAccCycles c) 0x01) c)
                      (on_clock (fun c => with_dividerAccCycles (dividerAccCycles c + n) c)
                         ({| cpuCycles := cy; extraCpuCycles := ex; dividerAccCycles := acc;
                             doubleSpeed := true; speedSwitchPending := p |}, w))))) as (_ & -> & _ & _).
    destruct (Hq (2 * n)
                   (on_clock (fun c => with_dividerAccCycles (bitand (dividerAccCycles c) 0x01) c)
                      (on_clock (fun c => with_dividerAccCycles (dividerAccCycles c + n) c)
                         ({| cpuCycles := cy; extraCpuCycles := ex; dividerAccCycles := acc;
                             doubleSpeed := true; speedSwitchPending := p |}, w)))) as (-> & _ & _ & _).
    reflexivity.
  - unfold on_clock at 1. cbn [fst].
    destruct (Hq n (serial_cycle n (timer_cycle n (ppu_cycle (4 * n)
                ({| cpuCycles := cy; extraCpuCycles := ex; dividerAccCycles := acc;
                    doubleSpeed := false; speedSwitchPending := p |}, w))))) as (_ & _ & _ & ->).
    destruct (Hq n (timer_cycle n (ppu_cycle (4 * n)
                ({| cpuCycles := cy; extraCpuCycles := ex; dividerAccCycles := acc;
                    doubleSpeed := false; speedSwitchPending := p |}, w)))) as (_ & _ & -> & _).
    destruct (Hq n (ppu_cycle (4 * n)
                ({| cpuCycles := cy; extraCpuCycles := ex; dividerAccCycles := acc;
                    doubleSpeed := false; speedSwitchPending := p |}, w))) as (_ & -> & _ & _).
    destruct (Hq (4 * n)
                ({| cpuCycles := cy; extraCpuCycles := ex; dividerAccCycles := acc;
                    doubleSpeed := false; speedSwitchPending := p |}, w)) as (-> & _ & _ & _).
    reflexivity.
Qed.

(** X7: [notifyStop] does nothing unless a speed switch was asked for through
    KEY1. If one was, and the devices leave the clock alone, the speed is
    toggled, the request and the APU's carried-over cycle are cleared, and
    the stall of 130996 cycles is counted at the new speed. *)
Theorem speed_switch (m : t * W) :
  quiet ->
  (speedSwitchPending (fst m) = false -> notifyStop m = m)
  /\ (speedSwitchPending (fst m) = true ->
      isDoubleSpeed (fst (notifyStop m)) = negb (isDoubleSpeed (fst m))
      /\ speedSwitchPending (fst (notifyStop m)) = false
      /\ dividerAccCycles (fst (notifyStop m)) = 0
      /\ extraCpuCycles (fst (notifyStop m)) = extraCpuCycles (fst m)
      /\ cpuCycles (fst (notifyStop m))
         = cpuCycles (fst m) + (if isDoubleSpeed (fst m) then 2 * 130996 else 130996)).
Proof.
  intros Hq. unfold notifyStop, isDoubleSpeed. split; intros Hp; rewrite Hp; [reflexivity |].
  cbn [negb]. unfold on_clock at 1 2. cbn [fst].
  rewrite incrementImpl_quiet by assumption.
  unfold on_clock. cbn [fst doubleSpeed with_doubleSpeed].
  destruct (doubleSpeed (fst m));
    cbn [negb with_speedSwitchPending with_dividerAccCycles doubleSpeed speedSwitchPending
         dividerAccCycles extraCpuCycles cpuCycles];
    repeat split; try reflexivity; try lia.
  all: rewrite incrementImpl_quiet by assumption.
  all: cbn [fst doubleSpeed with_doubleSpeed extraCpuCycles cpuCycles]; lia.
Qed.

End WithDevices.

Lemma cycle_accounting_witness :
  exists (c' : t) (l' : Ledger),
    @incrementAll Ledger counting 0 [3; 4; 2] (ClockSample.doubleClock, ClockSample.noCycles)
    = Some (c', l')
    /\ ppuClocks l' = 18 /\ apuCycles l' = 4 /\ dividerAccCycles c' = 1.
Proof.
  destruct (cycle_accounting 0 [3; 4; 2] ClockSample.doubleClock ClockSample.noCycles)
    as (c' & l' & Hrun & _ & _ & _ & _ & Hrest).
  - reflexivity.
  - intros _. split; [cbn; lia | repeat constructor; lia].
  - cbn in Hrest. destruct Hrest as (Hp & _ & Ha & Hacc).
    exists c', l'. repeat split; assumption.
Defined.

Lemma pause_is_served_witness :
  exists (c' : t) (l' : Ledger),
    @increment Ledger counting 1 3 (pauseCpu 5 ClockSample.doubleClock, ClockSample.noCycles)
    = Some (c', l')
    /\ extraCpuCycles c' = 0 /\ timerCycles l' = 13 /\ cpuCycles c' = 13.
Proof.
  destruct (pause_is_served 0 3 5 ClockSample.doubleClock ClockSample.noCycles)
    as (c' & l' & Hrun & He & Ht & Hc).
  - reflexivity.
  - exists c', l'. repeat split; assumption.
Defined.

Lemma speed_switch_witness :
  isDoubleSpeed (fst (@notifyStop Ledger counting (ClockSample.switching, ClockSample.noCycles)))
  = true
  /\ cpuCycles (fst (@notifyStop Ledger counting (ClockSample.switching, ClockSample.noCycles)))
     = 130996.
Proof.
  destruct (@speed_switch Ledger counting (ClockSample.switching, ClockSample.noCycles))
    as [_ Hswitch].
  - intros n [c l]. repeat split; reflexivity.
  - destruct (Hswitch eq_refl) as (Hs & _ & _ & _ & Hc). split; [exact Hs | exact Hc].
Defined.

End ClockCgbFacts.

(* --------------------------------------------------------------------- *)
(** ** More on the bit operators *)
(* --------------------------------------------------------------------- *)

Module BitFacts.
Import Js JsFacts.

(** ToInt32 keeps the low bits. *)
Lemma toInt32_low (x k : Z) : 0 <= k <= 32 -> toInt32 x mod 2 ^ k = x mod 2 ^ k.
Proof.
  intros Hk. unfold toInt32.
  assert (2 ^ 32 = 2 ^ k * 2 ^ (32 - k)) as Hsplit
    by (rewrite <- Z.pow_add_r by lia; f_equal; lia).
  assert (0 < 2 ^ k) by (apply Z.pow_pos_nonneg; lia).
  destruct (Z.eq_dec k 32) as [-> | Hne].
  - change (2 ^ 32) with 4294967296. change (2 ^ 31) with 2147483648.
    replace ((x + 2147483648) mod 4294967296 - 2147483648)
      with ((x + 2147483648) mod 4294967296 + (-1) * 4294967296 + 2147483648) by lia.
    rewrite <- Z.add_assoc, Zplus_mod, Z.mod_mod, <- Zplus_mod by lia.
    f_equal. lia.
  - assert (2 ^ 31 = 2 ^ (31 - k) * 2 ^ k) as Hhalf
      by (rewrite <- Z.pow_add_r by lia; f_equal; lia).
    rewrite Hhalf at 2.
    replace ((x + 2 ^ 31) mod 2 ^ 32 - 2 ^ (31 - k) * 2 ^ k)
      with ((x + 2 ^ 31) mod 2 ^ 32 + (- 2 ^ (31 - k)) * 2 ^ k) by lia.
    rewrite Z.mod_add by lia.
    rewrite Z.mod_mod_divide by (exists (2 ^ (32 - k)); lia).
    rewrite Hhalf. now rewrite Z.mod_add by lia.
Qed.

(** [x & (2^k - 1)] is [x mod 2^k], for every integer [x]. *)
Lemma bitand_mask (x k : Z) : 0 <= k < 31 -> bitand x (Z.ones k) = x mod 2 ^ k.
Proof.
  intros Hk. unfold bitand.
  rewrite (toInt32_small (Z.ones k)).
  - rewrite Z.land_ones by lia. apply toInt32_low. lia.
  - rewrite Z.ones_equiv.
    assert (2 ^ k <= 2 ^ 30) by (apply Z.pow_le_mono_r; lia).
    assert (0 < 2 ^ k) by (apply Z.pow_pos_nonneg; lia). lia.
Qed.

Lemma bitand_0xffff (x : Z) : bitand x 0xffff = x mod 0x10000.
Proof. exact (bitand_mask x 16 ltac:(lia)). Qed.

Lemma bitand_0xff (x : Z) : bitand x 0xff = x mod 0x100.
Proof. exact (bitand_mask x 8 ltac:(lia)). Qed.

Lemma bitand_0x0f (x : Z) : bitand x 0x0f = x mod 0x10.
Proof. exact (bitand_mask x 4 ltac:(lia)). Qed.

(** On bytes the operators are the ones of [Z]. *)
Lemma bitand_small (a b : Z) :
  - 2 ^ 31 <= a < 2 ^ 31 -> - 2 ^ 31 <= b < 2 ^ 31 -> bitand a b = Z.land a b.
Proof. intros Ha Hb. unfold bitand. now rewrite !toInt32_small. Qed.

Lemma bitor_small (a b : Z) :
  - 2 ^ 31 <= a < 2 ^ 31 -> - 2 ^ 31 <= b < 2 ^ 31 -> bitor a b = Z.lor a b.
Proof. intros Ha Hb. unfold bitor. now rewrite !toInt32_small. Qed.

Lemma bitxor_small (a b : Z) :
  - 2 ^ 31 <= a < 2 ^ 31 -> - 2 ^ 31 <= b < 2 ^ 31 -> bitxor a b = Z.lxor a b.
Proof. intros Ha Hb. unfold bitxor. now rewrite !toInt32_small. Qed.

Lemma land_upper_bound (a m : Z) : 0 <= a -> 0 <= m -> 0 <= Z.land a m <= m.
Proof.
  intros Ha Hm. split; [apply Z.land_nonneg; lia |].
  assert (Z.land (Z.ldiff m a) (Z.land a m) = 0) as Hdisjoint
    by (rewrite Z.land_assoc, Z.land_ldiff; apply Z.land_0_l).
  assert (0 <= Z.ldiff m a) by (apply Z.ldiff_nonneg; lia).
  pose proof (Z.lor_ldiff_and m a) as Hm'.
  rewrite (Z.land_comm m a), <- Z.lxor_lor, <- Z.add_nocarry_lxor in Hm' by assumption.
  lia.
Qed.

(** A single bit of a number. *)
Lemma land_pow2 (f k : Z) :
  0 <= k -> Z.land f (2 ^ k) = if Z.testbit f k then 2 ^ k else 0.
Proof.
  intros Hk. apply Z.bits_inj'. intros n Hn.
  rewrite Z.land_spec, Z.pow2_bits_eqb by lia.
  destruct (Z.eqb_spec k n) as [-> | Hne].
  - destruct (Z.testbit f n); [| now rewrite Z.bits_0].
    now rewrite Z.pow2_bits_eqb, Z.eqb_refl by lia.
  - rewrite andb_false_r.
    destruct (Z.testbit f k); [| now rewrite Z.bits_0].
    rewrite Z.pow2_bits_eqb by lia. symmetry. now apply Z.eqb_neq.
Qed.

Lemma lxor_bound (a b k : Z) :
  0 <= k -> 0 <= a < 2 ^ k -> 0 <= b < 2 ^ k -> 0 <= Z.lxor a b < 2 ^ k.
Proof.
  intros Hk Ha Hb.
  assert (0 <= Z.lxor a b) as Hnn by (apply Z.lxor_nonneg; lia).
  split; [exact Hnn |].
  destruct (Z.eq_dec (Z.lxor a b) 0) as [-> | Hnz]; [apply Z.pow_pos_nonneg; lia |].
  assert (0 < k) as Hpos.
  { destruct (Z.eq_dec k 0) as [-> | Hne]; [| lia].
    change (2 ^ 0) with 1 in *. assert (a = 0) as -> by lia. assert (b = 0) as -> by lia.
    now contradiction Hnz. }
  apply Z.log2_lt_pow2; [lia |].
  pose proof (Z.log2_lxor a b ltac:(lia) ltac:(lia)) as Hlog.
  assert (Z.log2 a < k) as Hla.
  { destruct (Z.eq_dec a 0) as [-> | Hane]; [cbn; lia | apply Z.log2_lt_pow2; lia]. }
  assert (Z.log2 b < k) as Hlb.
  { destruct (Z.eq_dec b 0) as [-> | Hbne]; [cbn; lia | apply Z.log2_lt_pow2; lia]. }
  lia.
Qed.

(** The half carry of an increment and the half borrow of a decrement, as
    cpu.ts computes them from the low nibble [y]. *)
Lemma half_carry (y : Z) :
  0 <= y < 0x10 -> (0 <? bitand (y + 1) 0xf0) = (y =? 0x0f).
Proof.
  intros Hy.
  assert (y = 0 \/ y = 1 \/ y = 2 \/ y = 3 \/ y = 4 \/ y = 5 \/ y = 6 \/ y = 7
          \/ y = 8 \/ y = 9 \/ y = 10 \/ y = 11 \/ y = 12 \/ y = 13 \/ y = 14
          \/ y = 15) as Hcases by lia.
  repeat destruct Hcases as [-> | Hcases]; try subst y; reflexivity.
Qed.

Lemma half_borrow (y : Z) :
  0 <= y < 0x10 -> (0 <? bitand (y - 1) 0xf0) = (y =? 0).
Proof.
  intros Hy.
  assert (y = 0 \/ y = 1 \/ y = 2 \/ y = 3 \/ y = 4 \/ y = 5 \/ y = 6 \/ y = 7
          \/ y = 8 \/ y = 9 \/ y = 10 \/ y = 11 \/ y = 12 \/ y = 13 \/ y = 14
          \/ y = 15) as Hcases by lia.
  repeat destruct Hcases as [-> | Hcases]; try subst y; reflexivity.
Qed.

End BitFacts.
(* --------------------------------------------------------------------- *)
(** ** The register file *)
(* --------------------------------------------------------------------- *)

Module RegisterFacts.
Import Js Cpu Registers JsFacts BitFacts.

(** *** Typed arrays *)

Lemma ta_get_store_same (l : list Z) (i x : Z) :
  0 <= i < len l -> ta_get (ta_store l i x) i = Num x.
Proof.
  intros Hi. unfold len in Hi. unfold ta_get, ta_store.
  destruct (Z.leb_spec 0 i); [| lia].
  now rewrite list_lookup_insert_eq by lia.
Qed.

Lemma ta_get_store_other (l : list Z) (i j x : Z) :
  i <> j -> ta_get (ta_store l i x) j = ta_get l j.
Proof.
  intros Hne. unfold ta_get, ta_store.
  destruct (Z.leb_spec 0 i); [| reflexivity].
  destruct (Z.leb_spec 0 j); [| reflexivity].
  now rewrite list_lookup_insert_ne by lia.
Qed.

Lemma length_ta_store (l : list Z) (i x : Z) : length (ta_store l i x) = length l.
Proof. unfold ta_store. destruct (0 <=? i); [apply length_insert | reflexivity]. Qed.

Lemma Forall_ta_store (P : Z -> Prop) (l : list Z) (i x : Z) :
  Forall P l -> P x -> Forall P (ta_store l i x).
Proof.
  intros Hl Hx. unfold ta_store. destruct (0 <=? i); [| exact Hl].
  now apply Forall_insert.
Qed.

Lemma ta_get_Forall (P : Z -> Prop) (l : list Z) (i : Z) :
  Forall P l -> 0 <= i < len l -> exists x, ta_get l i = Num x /\ P x.
Proof.
  intros Hl Hi. destruct (PpuFacts.ta_get_in_range l i Hi) as (b & Hb & Hget).
  exists b. split; [exact Hget |]. rewrite Forall_lookup in Hl. now apply (Hl _ _ Hb).
Qed.

(** *** Registers *)

Lemma get_r8_wf (s : CpuState) (i : Z) :
  wellFormed s -> 0 <= i < 10 -> exists x, get_r8 s i = Num x /\ 0 <= x < 256.
Proof.
  intros [Hlen Hall] Hi. unfold get_r8.
  apply (ta_get_Forall (fun b => 0 <= b < 256)); [exact Hall | unfold len; lia].
Qed.

Lemma get_r16_bytes (s : CpuState) (i lo hi : Z) :
  get_r8 s (2 * i) = Num lo -> get_r8 s (2 * i + 1) = Num hi -> 0 <= lo < 256 ->
  get_r16 s i = Num (lo + 0x100 * hi).
Proof.
  unfold get_r8, get_r16. intros -> -> Hlo.
  rewrite lor_shiftl_add by lia. now rewrite Z.shiftl_mul_pow2, Z.mul_comm by lia.
Qed.

Lemma get_r16_wf (s : CpuState) (i : Z) :
  wellFormed s -> 0 <= i < 5 -> exists x, get_r16 s i = Num x /\ 0 <= x < 0x10000.
Proof.
  intros Hs Hi.
  destruct (get_r8_wf s (2 * i) Hs ltac:(lia)) as (lo & Hlo & Hlo').
  destruct (get_r8_wf s (2 * i + 1) Hs ltac:(lia)) as (hi & Hhi & Hhi').
  exists (lo + 0x100 * hi). split; [now apply get_r16_bytes | lia].
Qed.

Lemma set_r8_wf (s : CpuState) (i v : Z) : wellFormed s -> wellFormed (set_r8 i v s).
Proof.
  intros [Hlen Hall]. unfold wellFormed, set_r8, ta_set8. cbn [buffer with_buffer].
  rewrite length_ta_store. split; [exact Hlen |].
  apply Forall_ta_store; [exact Hall | apply toUint8_range].
Qed.

Lemma set_r16_wf (s : CpuState) (i v : Z) : wellFormed s -> wellFormed (set_r16 i v s).
Proof.
  intros [Hlen Hall]. unfold wellFormed, set_r16.
  destruct ((0 <=? i) && (2 * i + 1 <? len (buffer s))); [| now split].
  cbn [buffer with_buffer]. rewrite !length_ta_store. split; [exact Hlen |].
  apply Forall_ta_store; [apply Forall_ta_store |]; try exact Hall; apply toUint8_range.
Qed.

Lemma get_r8_set_r8_same (s : CpuState) (i v : Z) :
  wellFormed s -> 0 <= i < 10 -> get_r8 (set_r8 i v s) i = Num (v mod 0x100).
Proof.
  intros [Hlen _] Hi. unfold get_r8, set_r8, ta_set8. cbn [buffer with_buffer].
  rewrite ta_get_store_same by (unfold len; lia). reflexivity.
Qed.

Lemma get_r8_set_r8_other (s : CpuState) (i j v : Z) :
  i <> j -> get_r8 (set_r8 i v s) j = get_r8 s j.
Proof.
  intros Hne. unfold get_r8, set_r8, ta_set8. cbn [buffer with_buffer].
  now apply ta_get_store_other.
Qed.

Lemma high_byte (v : Z) : toUint8 (Z.shiftr (toUint16 v) 8) = v / 0x100 mod 0x100.
Proof.
  unfold toUint8, toUint16. rewrite Z.shiftr_div_pow2 by lia.
  change (2 ^ 16) with (0x100 * 0x100). change (2 ^ 8) with 0x100.
  rewrite Z.rem_mul_r by lia.
  rewrite (Z.mul_comm 0x100 (v / 0x100 mod 0x100)), Z.div_add by lia.
  rewrite (Z.div_small (v mod 0x100)) by (apply Z.mod_pos_bound; lia).
  cbn [Z.add]. apply Z.mod_mod. lia.
Qed.

Lemma get_r8_set_r16_low (s : CpuState) (i v : Z) :
  wellFormed s -> 0 <= i < 5 -> get_r8 (set_r16 i v s) (2 * i) = Num (v mod 0x100).
Proof.
  intros [Hlen _] Hi. unfold get_r8, set_r16.
  destruct (Z.leb_spec 0 i); [| lia].
  destruct (Z.ltb_spec (2 * i + 1) (len (buffer s))); [| unfold len in *; lia].
  cbn [andb buffer with_buffer].
  rewrite ta_get_store_other by lia.
  rewrite ta_get_store_same by (unfold len; lia). reflexivity.
Qed.

Lemma get_r8_set_r16_high (s : CpuState) (i v : Z) :
  wellFormed s -> 0 <= i < 5 ->
  get_r8 (set_r16 i v s) (2 * i + 1) = Num (v / 0x100 mod 0x100).
Proof.
  intros [Hlen _] Hi. unfold get_r8, set_r16.
  destruct (Z.leb_spec 0 i); [| lia].
  destruct (Z.ltb_spec (2 * i + 1) (len (buffer s))); [| unfold len in *; lia].
  cbn [andb buffer with_buffer].
  rewrite ta_get_store_same by (unfold len; rewrite length_ta_store; lia).
  now rewrite high_byte.
Qed.

Lemma get_r8_set_r16_other (s : CpuState) (i j v : Z) :
  j <> 2 * i -> j <> 2 * i + 1 -> get_r8 (set_r16 i v s) j = get_r8 s j.
Proof.
  intros H0 H1. unfold get_r8, set_r16.
  destruct ((0 <=? i) && (2 * i + 1 <? len (buffer s))); [| reflexivity].
  cbn [buffer with_buffer]. now rewrite !ta_get_store_other by lia.
Qed.

Lemma get_r16_ext (s s' : CpuState) (i : Z) :
  get_r8 s' (2 * i) = get_r8 s (2 * i) ->
  get_r8 s' (2 * i + 1) = get_r8 s (2 * i + 1) ->
  get_r16 s' i = get_r16 s i.
Proof. unfold get_r8, get_r16. now intros -> ->. Qed.

Lemma get_r16_set_r16_same (s : CpuState) (i v : Z) :
  wellFormed s -> 0 <= i < 5 -> get_r16 (set_r16 i v s) i = Num (v mod 0x10000).
Proof.
  intros Hs Hi.
  rewrite (get_r16_bytes _ i (v mod 0x100) (v / 0x100 mod 0x100)).
  - f_equal. change 0x10000 with (0x100 * 0x100). rewrite Z.rem_mul_r by lia. reflexivity.
  - now apply get_r8_set_r16_low.
  - now apply get_r8_set_r16_high.
  - apply Z.mod_pos_bound. lia.
Qed.

Lemma get_r16_set_r16_other (s : CpuState) (i j v : Z) :
  i <> j -> get_r16 (set_r16 i v s) j = get_r16 s j.
Proof.
  intros Hne. apply get_r16_ext; apply get_r8_set_r16_other; lia.
Qed.

(** X8: The 16-bit registers and the 8-bit registers are two views of the same
    ten bytes. A value stored in the pair [i] is read back from it modulo
    2^16, its low byte from the 8-bit register [2 i] and its high byte from
    [2 i + 1]; the other pairs are untouched. So AF is A (high) and F
    (low), BC is B and C, DE is D and E, HL is H and L. *)
Theorem register_pairs (s : CpuState) (i v : Z) :
  wellFormed s -> 0 <= i < 5 ->
  wellFormed (set_r16 i v s)
  /\ get_r16 (set_r16 i v s) i = Num (v mod 0x10000)
  /\ get_r8 (set_r16 i v s) (2 * i) = Num (v mod 0x100)
  /\ get_r8 (set_r16 i v s) (2 * i + 1) = Num (v / 0x100 mod 0x100)
  /\ (forall j : Z, j <> i -> get_r16 (set_r16 i v s) j = get_r16 s j)
  /\ (r8.f, r8.a, r8.c, r8.b, r8.e, r8.d, r8.l, r8.h)
     = (2 * r16.af, 2 * r16.af + 1, 2 * r16.bc, 2 * r16.bc + 1,
        2 * r16.de, 2 * r16.de + 1, 2 * r16.hl, 2 * r16.hl + 1).
Proof.
  intros Hs Hi. split; [now apply set_r16_wf |].
  split; [now apply get_r16_set_r16_same |].
  split; [now apply get_r8_set_r16_low |].
  split; [now apply get_r8_set_r16_high |].
  split; [| reflexivity].
  intros j Hj. apply get_r16_set_r16_other. lia.
Qed.

Lemma constructor_wf : wellFormed constructor.
Proof. split; [reflexivity | repeat constructor; lia]. Qed.

Lemma reset_wf (s : CpuState) : wellFormed s -> wellFormed (reset s).
Proof.
  intros Hs. unfold reset.
  repeat first [apply set_r16_wf | exact Hs
               | match goal with
                 | |- wellFormed (with_p _ ?x) => change (wellFormed x)
                 | |- wellFormed (with_enableInterrupts _ ?x) =>
                     assert (wellFormed x) as Hx; [| exact Hx]
                 end].
Qed.

End RegisterFacts.
(* --------------------------------------------------------------------- *)
(** ** The CPU *)
(* --------------------------------------------------------------------- *)

Module CpuFacts.
Import Js Instruction Cpu Registers JsFacts BitFacts RegisterFacts.

(** X9: Whatever the registers held, [reset] leaves AF = 0x0100, BC = 0x0013,
    DE = 0x00D8, HL = 0x014D, SP = 0xFFFE and PC = 0x0100 with interrupts
    disabled; so A = 0x01 and the flags are clear. *)
Theorem reset_registers (s : CpuState) :
  wellFormed s ->
  wellFormed (reset s)
  /\ get_r16 (reset s) r16.af = Num 0x0100
  /\ get_r16 (reset s) r16.bc = Num 0x0013
  /\ get_r16 (reset s) r16.de = Num 0x00d8
  /\ get_r16 (reset s) r16.hl = Num 0x014d
  /\ get_r16 (reset s) r16.sp = Num 0xfffe
  /\ get_r8 (reset s) r8.a = Num 0x01
  /\ get_r8 (reset s) r8.f = Num 0x00
  /\ p (reset s) = 0x0100
  /\ enableInterrupts (reset s) = false.
Proof.
  intros Hs. split; [now apply reset_wf |].
  destruct Hs as [Hlen _]. destruct s as [buf pc ime]. cbn [buffer] in Hlen.
  do 10 (destruct buf as [| ? buf]; [discriminate Hlen |]).
  destruct buf; [| discriminate Hlen].
  repeat split; reflexivity.
Qed.

(** *** The flags *)

Lemma carry_bit (f : Z) : 0 <= f < 256 -> bitand f flag.c = Z.land f flag.c.
Proof. intros Hf. apply bitand_small; unfold flag.c; lia. Qed.

Lemma carry_cases (f : Z) : Z.land f flag.c = 0 \/ Z.land f flag.c = 0x10.
Proof.
  unfold flag.c. change 0x10 with (2 ^ 4). rewrite land_pow2 by lia.
  destruct (Z.testbit f 4); [right | left]; reflexivity.
Qed.

Lemma flags_inc (c z h : Z) :
  (c = 0 \/ c = 0x10) -> (z = 0 \/ z = 0x80) -> (h = 0 \/ h = 0x20) ->
  toUint8 (bitor (bitor c z) h) = c + z + h.
Proof. intros [-> | ->] [-> | ->] [-> | ->]; reflexivity. Qed.

Lemma flags_dec (c z h : Z) :
  (c = 0 \/ c = 0x10) -> (z = 0 \/ z = 0x80) -> (h = 0 \/ h = 0x20) ->
  toUint8 (bitor (bitor (bitor c flag.n) z) h) = c + flag.n + z + h.
Proof. intros [-> | ->] [-> | ->] [-> | ->]; reflexivity. Qed.

Section WithEnvironment.
Context {W : Type} `{Environment W}.

Lemma advance_wf (i : Instruction) (s : CpuState) :
  wellFormed s -> wellFormed (advance i s).
Proof. intros Hs. exact Hs. Qed.

Lemma get_r8_advance (i : Instruction) (s : CpuState) (j : Z) :
  get_r8 (advance i s) j = get_r8 s j.
Proof. reflexivity. Qed.

(** X10: INC on an 8-bit register other than F: the register is incremented
    modulo 256; Z is set exactly when the result is 0, H exactly when the
    low nibble was 0xF, N is cleared, C is kept; PC moves on by the length
    of the instruction, modulo 2^16; the clock is given the cycles of the
    instruction. *)
Theorem inc_r8 (i : Instruction) (s : CpuState) (w : W) (x f : Z) :
  operation i = Operation_inc -> addressingMode i = AddressingMode_reg8 ->
  1 <= par1 i < 8 ->
  wellFormed s -> get_r8 s (par1 i) = Num x -> get_r8 s r8.f = Num f ->
  exists s' : CpuState,
    dispatch i (s, w) = Normal (cycles i, (s', clock_increment (cycles i) w))
    /\ wellFormed s'
    /\ get_r8 s' (par1 i) = Num ((x + 1) mod 0x100)
    /\ get_r8 s' r8.f
       = Num (Z.land f flag.c
              + (if (x + 1) mod 0x100 =? 0 then flag.z else 0)
              + (if x mod 0x10 =? 0x0f then flag.h else 0))
    /\ (forall j : Z, j <> par1 i -> j <> r8.f -> get_r8 s' j = get_r8 s j)
    /\ p s' = (p s + len i) mod 0x10000
    /\ enableInterrupts s' = enableInterrupts s.
Proof.
  intros Hop Hmode Hr Hs Hx Hf.
  destruct (get_r8_wf s r8.f Hs ltac:(unfold r8.f; lia)) as (f' & Hf' & Hfb).
  rewrite Hf in Hf'. injection Hf' as <-.
  unfold dispatch. rewrite Hop. unfold getArg1, setArg1. rewrite Hmode, Hx.
  cbn [bind number_of]. unfold flags.
  rewrite get_r8_set_r8_other by (unfold r8.f; lia). rewrite Hf. cbn [bind number_of].
  eexists. split; [reflexivity |].
  assert (wellFormed (set_r8 (par1 i) (x + 1) s)) as Hs1 by now apply set_r8_wf.
  split; [| split; [| split; [| split; [| split]]]].
  - apply advance_wf, set_r8_wf, Hs1.
  - rewrite get_r8_advance, get_r8_set_r8_other by (unfold r8.f; lia).
    now apply get_r8_set_r8_same; [| lia].
  - rewrite get_r8_advance.
    unfold get_r8, set_r8 at 1, ta_set8. cbn [buffer with_buffer].
    rewrite ta_get_store_same
      by (destruct Hs1 as [Hl _]; unfold Js.len, r8.f; rewrite Hl; lia).
    f_equal. rewrite bitand_0xff, bitand_0x0f, carry_bit by assumption.
    rewrite half_carry by (apply Z.mod_pos_bound; lia).
    apply flags_inc.
    + apply carry_cases.
    + destruct (_ =? 0); [right | left]; reflexivity.
    + destruct (_ =? 0x0f); [right | left]; reflexivity.
  - intros j Hj Hjf. rewrite get_r8_advance.
    now rewrite !get_r8_set_r8_other by (unfold r8.f in *; lia).
  - unfold advance. cbn [p with_p set_r8 with_buffer]. apply bitand_0xffff.
  - reflexivity.
Qed.

(** X11: DEC on an 8-bit register other than F: the register is decremented
    modulo 256; Z is set exactly when the result is 0, H exactly when the
    low nibble was 0, N is set, C is kept; PC moves on by the length of
    the instruction. *)
Theorem dec_r8 (i : Instruction) (s : CpuState) (w : W) (x f : Z) :
  operation i = Operation_dec -> addressingMode i = AddressingMode_reg8 ->
  1 <= par1 i < 8 ->
  wellFormed s -> get_r8 s (par1 i) = Num x -> get_r8 s r8.f = Num f ->
  exists s' : CpuState,
    dispatch i (s, w) = Normal (cycles i, (s', clock_increment (cycles i) w))
    /\ wellFormed s'
    /\ get_r8 s' (par1 i) = Num ((x - 1) mod 0x100)
    /\ get_r8 s' r8.f
       = Num (Z.land f flag.c + flag.n
              + (if (x - 1) mod 0x100 =? 0 then flag.z else 0)
              + (if x mod 0x10 =? 0 then flag.h else 0))
    /\ (forall j : Z, j <> par1 i -> j <> r8.f -> get_r8 s' j = get_r8 s j)
    /\ p s' = (p s + len i) mod 0x10000
    /\ enableInterrupts s' = enableInterrupts s.
Proof.
  intros Hop Hmode Hr Hs Hx Hf.
  destruct (get_r8_wf s r8.f Hs ltac:(unfold r8.f; lia)) as (f' & Hf' & Hfb).
  rewrite Hf in Hf'. injection Hf' as <-.
  unfold dispatch. rewrite Hop. unfold getArg1, setArg1. rewrite Hmode, Hx.
  cbn [bind number_of]. unfold flags.
  rewrite get_r8_set_r8_other by (unfold r8.f; lia). rewrite Hf. cbn [bind number_of].
  eexists. split; [reflexivity |].
  assert (wellFormed (set_r8 (par1 i) (x - 1) s)) as Hs1 by now apply set_r8_wf.
  split; [| split; [| split; [| split; [| split]]]].
  - apply advance_wf, set_r8_wf, Hs1.
  - rewrite get_r8_advance, get_r8_set_r8_other by (unfold r8.f; lia).
    now apply get_r8_set_r8_same; [| lia].
  - rewrite get_r8_advance.
    unfold get_r8, set_r8 at 1, ta_set8. cbn [buffer with_buffer].
    rewrite ta_get_store_same
      by (destruct Hs1 as [Hl _]; unfold Js.len, r8.f; rewrite Hl; lia).
    f_equal. rewrite bitand_0xff, bitand_0x0f, carry_bit by assumption.
    rewrite half_borrow by (apply Z.mod_pos_bound; lia).
    apply flags_dec.
    + apply carry_cases.
    + destruct (_ =? 0); [right | left]; reflexivity.
    + destruct (_ mod 0x10 =? 0); [right | left]; reflexivity.
  - intros j Hj Hjf. rewrite get_r8_advance.
    now rewrite !get_r8_set_r8_other by (unfold r8.f in *; lia).
  - unfold advance. cbn [p with_p set_r8 with_buffer]. apply bitand_0xffff.
  - reflexivity.
Qed.

(** X12: XOR with an 8-bit register: A becomes the exclusive or of A and the
    register; Z is set exactly when that is 0 and the other flags are
    cleared; the registers other than A and F are untouched. *)
Theorem xor_r8 (i : Instruction) (s : CpuState) (w : W) (a x : Z) :
  operation i = Operation_xor -> addressingMode i = AddressingMode_reg8 ->
  0 <= par1 i < 8 ->
  wellFormed s -> get_r8 s r8.a = Num a -> get_r8 s (par1 i) = Num x ->
  exists s' : CpuState,
    dispatch i (s, w) = Normal (cycles i, (s', clock_increment (cycles i) w))
    /\ wellFormed s'
    /\ get_r8 s' r8.a = Num (Z.lxor a x)
    /\ get_r8 s' r8.f = Num (if Z.lxor a x =? 0 then flag.z else 0)
    /\ (forall j : Z, j <> r8.a -> j <> r8.f -> get_r8 s' j = get_r8 s j)
    /\ p s' = (p s + len i) mod 0x10000.
Proof.
  intros Hop Hmode Hr Hs Ha Hx.
  destruct (get_r8_wf s r8.a Hs ltac:(unfold r8.a; lia)) as (a' & Ha' & Hab).
  rewrite Ha in Ha'. injection Ha' as <-.
  destruct (get_r8_wf s (par1 i) Hs ltac:(lia)) as (x' & Hx' & Hxb).
  rewrite Hx in Hx'. injection Hx' as <-.
  pose proof (lxor_bound a x 8 ltac:(lia) Hab Hxb) as Hbound.
  unfold dispatch. rewrite Hop, Ha. cbn [bind number_of].
  unfold getArg1. rewrite Hmode, Hx. cbn [bind number_of].
  rewrite get_r8_set_r8_same by (try assumption; unfold r8.a; lia).
  cbn [bind number_of].
  rewrite bitxor_small by lia. rewrite (Z.mod_small (Z.lxor a x)) by exact Hbound.
  eexists. split; [reflexivity |].
  assert (wellFormed (set_r8 r8.a (Z.lxor a x) s)) as Hs1 by now apply set_r8_wf.
  split; [| split; [| split; [| split]]].
  - apply advance_wf, set_r8_wf, Hs1.
  - rewrite get_r8_advance, get_r8_set_r8_other by (unfold r8.f, r8.a; lia).
    rewrite get_r8_set_r8_same by (try assumption; unfold r8.a; lia).
    now rewrite Z.mod_small by exact Hbound.
  - rewrite get_r8_advance.
    rewrite get_r8_set_r8_same by (try assumption; unfold r8.f; lia).
    destruct (Z.lxor a x =? 0); reflexivity.
  - intros j Hj Hjf. rewrite get_r8_advance.
    now rewrite !get_r8_set_r8_other by (unfold r8.f, r8.a in *; lia).
  - unfold advance. cbn [p with_p set_r8 with_buffer]. apply bitand_0xffff.
Qed.

(** *** Relative jumps *)

Lemma testbit_7 (x : Z) : 0 <= x < 0x100 -> Z.testbit x 7 = (0x80 <=? x).
Proof.
  intros Hx. rewrite <- (Z.add_0_l 7), <- Z.shiftr_spec, Z.bit0_odd by lia.
  rewrite Z.shiftr_div_pow2 by lia. change (2 ^ 7) with 0x80.
  destruct (Z.leb_spec 0x80 x).
  - replace (x / 0x80) with 1; [reflexivity |].
    apply Z.div_unique with (r := x - 0x80); lia.
  - now rewrite Z.div_small by lia.
Qed.

(** [extendSign8] reads a byte as a two's complement number. *)
Lemma extendSign8_signed8 (x : Z) : 0 <= x < 0x100 -> extendSign8 x = signed8 x.
Proof.
  intros Hx. unfold extendSign8, signed8.
  rewrite (bitand_small x 0x80) by lia.
  change 0x80 with (2 ^ 7) at 1. rewrite land_pow2, testbit_7 by lia.
  destruct (Z.leb_spec 0x80 x); destruct (Z.ltb_spec x 0x80); try lia.
  - change (negb (2 ^ 7 =? 0)) with true. cbv iota.
    rewrite bitand_0xff. unfold bitnot. rewrite toInt32_small by lia.
    unfold Z.lnot. replace (Z.pred (- x) + 1) with (- x) by lia.
    replace (- x) with (0x100 - x + (-1) * 0x100) by lia.
    rewrite Z.mod_add, Z.mod_small by lia. lia.
  - reflexivity.
Qed.

(** X13: JR NZ: the displacement is the byte the bus returns at PC + par1, read
    as a signed number. When Z is clear the jump is taken: PC becomes the
    address after the instruction plus the displacement, modulo 2^16, and
    the instruction costs one cycle more. When Z is set PC just moves on. *)
Theorem jr_nz_displacement (i : Instruction) (s : CpuState) (w w' : W) (f arg : Z) :
  operation i = Operation_jrnz -> addressingMode i = AddressingMode_imm8 ->
  wellFormed s -> get_r8 s r8.f = Num f ->
  bus_read ((p s + par1 i) mod 0x10000)
    (clock_increment (cycles i + (if Z.land f flag.z =? 0 then 1 else 0)) w)
  = (arg, w') ->
  0 <= arg < 0x100 ->
  dispatch i (s, w)
  = Normal (cycles i + (if Z.land f flag.z =? 0 then 1 else 0),
            (with_p ((p s + len i + (if Z.land f flag.z =? 0 then signed8 arg else 0))
                     mod 0x10000) s,
             w')).
Proof.
  intros Hop Hmode Hs Hf Hread Harg.
  destruct (get_r8_wf s r8.f Hs ltac:(unfold r8.f; lia)) as (f' & Hf' & Hfb).
  rewrite Hf in Hf'. injection Hf' as <-.
  unfold dispatch. rewrite Hop. unfold flags. rewrite Hf. cbn [bind number_of].
  unfold getArg1. rewrite Hmode. rewrite bitand_0xffff.
  rewrite (bitand_small f flag.z) by (unfold flag.z; lia).
  rewrite Hread. cbn [bind]. rewrite extendSign8_signed8 by assumption.
  unfold advance. cbn [p with_p].
  destruct (Z.land f flag.z =? 0).
  - rewrite !bitand_0xffff, Zplus_mod_idemp_l. reflexivity.
  - rewrite bitand_0xffff, !Z.add_0_r. reflexivity.
Qed.

(** *** What dispatch does with an instruction *)

Ltac well_formed Hs :=
  repeat first
    [ exact Hs
    | apply advance_wf
    | apply set_r8_wf
    | apply set_r16_wf
    | match goal with
      | |- wellFormed (with_p _ ?x) => change (wellFormed x)
      | |- wellFormed (with_enableInterrupts _ ?x) => change (wellFormed x)
      | |- wellFormed (if ?c then _ else _) => destruct c
      end ].

Ltac read_registers Hs :=
  repeat first
    [ match goal with
      | |- context [number_of (get_r8 ?s ?i)] =>
          let x := fresh "x" in
          let Hx := fresh "Hx" in
          let Hb := fresh "Hb" in
          destruct (get_r8_wf s i) as (x & Hx & Hb);
          [ well_formed Hs | unfold r8.f, r8.a in *; lia | rewrite Hx; cbn [bind number_of] ]
      | |- context [number_of (get_r16 ?s ?i)] =>
          let x := fresh "x" in
          let Hx := fresh "Hx" in
          let Hb := fresh "Hb" in
          destruct (get_r16_wf s i) as (x & Hx & Hb);
          [ well_formed Hs | unfold r16.hl in *; lia | rewrite Hx; cbn [bind number_of] ]
      | |- context [bind (Normal _) _] => cbn [bind]
      | |- context [let '(_, _) := ?e in _] => destruct e
      end ].

Lemma dispatch_cases (i : Instruction) (s : CpuState) (w : W) :
  wellFormed s -> inFile i = true ->
  match outcome i with
  | Executes =>
      exists (cy : Z) (s' : CpuState) (w' : W),
        dispatch i (s, w) = Normal (cy, (s', w')) /\ wellFormed s'
  | Breaks =>
      dispatch i (s, w) = Normal (0, (s, system_break "invalid instruction" w))
  | Throws => dispatch i (s, w) = Throw "bad addressing mode"
  end.
Proof.
  intros Hs Hin. destruct i as [opc op mode p1 p2 cy ln].
  unfold inFile in Hin. cbn [addressingMode par1 par2] in Hin.
  destruct op; destruct mode;
    cbn [outcome operation addressingMode getArg1_has setArg1_has getArg2_has andb];
    rewrite ?andb_true_iff, ?Z.leb_le, ?Z.ltb_lt in Hin;
    unfold dispatch, getArg1, setArg1, getArg2, flags;
    cbn [operation addressingMode par1 par2 cycles bind];
    try reflexivity;
    read_registers Hs;
    try reflexivity;
    try (eexists _, _, _; split; [reflexivity | well_formed Hs]).
Qed.

Lemma p_set_r8 (i v : Z) (s : CpuState) : p (set_r8 i v s) = p s.
Proof. reflexivity. Qed.

Lemma p_set_r16 (i v : Z) (s : CpuState) : p (set_r16 i v s) = p s.
Proof. unfold set_r16. now destruct ((0 <=? i) && (2 * i + 1 <? Js.len (buffer s))). Qed.

Lemma p_advance (i : Instruction) (s : CpuState) : p (advance i s) = (p s + len i) mod 0x10000.
Proof. unfold advance. cbn [p with_p]. apply bitand_0xffff. Qed.

Ltac read_operands Hs :=
  repeat first
    [ match goal with
      | |- context [number_of (get_r8 ?s ?i)] =>
          let x := fresh "x" in
          let Hx := fresh "Hx" in
          let Hb := fresh "Hb" in
          destruct (get_r8_wf s i) as (x & Hx & Hb);
          [ well_formed Hs | unfold r8.f, r8.a in *; lia | rewrite Hx; cbn [bind number_of] ]
      | |- context [number_of (get_r16 ?s ?i)] =>
          let x := fresh "x" in
          let Hx := fresh "Hx" in
          let Hb := fresh "Hb" in
          destruct (get_r16_wf s i) as (x & Hx & Hb);
          [ well_formed Hs | unfold r16.hl in *; lia | rewrite Hx; cbn [bind number_of] ]
      | |- context [bind (Normal _) _] => cbn [bind]
      | |- context [let '(_, _) := ?e in _] =>
          rewrite (surjective_pairing e); cbv iota beta
      end ].

Ltac effects Hs :=
  eexists _, _, _; split; [reflexivity |];
  split; [well_formed Hs |];
  split; [first [left; reflexivity
                | match goal with
                  | |- context [if ?c then 1 else 0] =>
                      destruct c; [right; split; [reflexivity | lia] | left; lia]
                  end] |];
  split; [repeat constructor |];
  first [ left; reflexivity
        | right; left; reflexivity
        | right; right;
          cbn [fst snd];
          rewrite ?p_advance, ?p_set_r8, ?p_set_r16; cbn [p with_enableInterrupts];
          reflexivity ].

(** What [dispatch] does, case by case. A case that is carried out gives
    the clock its cost before anything else and then only reads and
    writes the bus. *)
Lemma dispatch_effects (i : Instruction) (s : CpuState) (w : W) :
  wellFormed s -> inFile i = true ->
  match outcome i with
  | Executes =>
      exists (cy : Z) (s' : CpuState) (w' : W),
        dispatch i (s, w) = Normal (cy, (s', w'))
        /\ wellFormed s'
        /\ (cy = cycles i \/ (operation i = Operation_jrnz /\ cy = cycles i + 1))
        /\ afterBus (clock_increment cy w) w'
        /\ (operation i = Operation_jp \/ operation i = Operation_jrnz
            \/ p s' = (p s + len i) mod 0x10000)
  | Breaks =>
      dispatch i (s, w) = Normal (0, (s, system_break "invalid instruction" w))
  | Throws => dispatch i (s, w) = Throw "bad addressing mode"
  end.
Proof.
  intros Hs Hin. destruct i as [opc op mode p1 p2 cy ln].
  unfold inFile in Hin. cbn [addressingMode par1 par2] in Hin.
  destruct op; destruct mode;
    cbn [outcome operation addressingMode getArg1_has setArg1_has getArg2_has andb];
    rewrite ?andb_true_iff, ?Z.leb_le, ?Z.ltb_lt in Hin;
    unfold dispatch, getArg1, setArg1, getArg2, flags;
    cbn [operation addressingMode par1 par2 cycles len bind];
    try reflexivity;
    read_operands Hs;
    try reflexivity;
    try (effects Hs).
Qed.

(** X14: [dispatch] has three outcomes, told apart by what they do. An
    instruction whose operation has a case, and whose addressing mode has
    one in each accessor the case uses, is carried out: the clock is given
    the cost that is returned (the cycles of the instruction, one more for
    a JR NZ that is taken), after that the machine is only read and
    written through the bus, so the break sink is not called; the register
    file stays well formed and, unless the instruction is a jump, PC moves
    on by its length. An operation without a case is reported to the break
    sink as [invalid instruction], at no cost, with nothing given to the
    clock and the CPU left as it was. An addressing mode without a case
    makes [dispatch] throw [bad addressing mode]. *)
Theorem dispatch_outcome (i : Instruction) (s : CpuState) (w : W) :
  wellFormed s -> inFile i = true ->
  match outcome i with
  | Executes =>
      exists (cy : Z) (s' : CpuState) (w' : W),
        dispatch i (s, w) = Normal (cy, (s', w'))
        /\ wellFormed s'
        /\ (cy = cycles i \/ (operation i = Operation_jrnz /\ cy = cycles i + 1))
        /\ afterBus (clock_increment cy w) w'
        /\ (operation i = Operation_jp \/ operation i = Operation_jrnz
            \/ p s' = (p s + len i) mod 0x10000)
  | Breaks =>
      dispatch i (s, w) = Normal (0, (s, system_break "invalid instruction" w))
  | Throws => dispatch i (s, w) = Throw "bad addressing mode"
  end.
Proof. exact (dispatch_effects i s w). Qed.

(** *** The table *)

Lemma table_entry (b : Z) (i : Instruction) :
  Instruction.lookup b = Some i -> In i instructions.
Proof.
  unfold Instruction.lookup. intros Hl. destruct (0 <=? b).
  - exact (proj1 (list_elem_of_In instructions i)
             (list_elem_of_lookup_2 instructions (Z.to_nat b) i Hl)).
  - inversion Hl.
Qed.

(** Every register operand of the table exists. *)
Lemma table_registers_in_file (b : Z) (i : Instruction) :
  Instruction.lookup b = Some i -> inFile i = true.
Proof.
  intros Hl. apply table_entry in Hl.
  assert (forallb inFile instructions = true) as Hall by (vm_compute; reflexivity).
  exact (proj1 (forallb_forall inFile instructions) Hall i Hl).
Qed.

Lemma table_total (b : Z) :
  0 <= b < 0x100 -> exists i : Instruction, Instruction.lookup b = Some i.
Proof.
  intros Hb. unfold Instruction.lookup. destruct (Z.leb_spec 0 b); [| lia].
  apply lookup_lt_is_Some_2.
  assert (length instructions = 256%nat) as -> by (vm_compute; reflexivity). lia.
Qed.

Lemma table_opcode (b : Z) (i : Instruction) :
  Instruction.lookup b = Some i -> opcode i = b.
Proof.
  intros Hi. unfold Instruction.lookup in Hi.
  destruct (Z.leb_spec 0 b); [| inversion Hi].
  assert (List.map opcode instructions = List.map Z.of_nat (seq 0 256)) as Hops
    by (vm_compute; reflexivity).
  assert (List.map opcode instructions !! Z.to_nat b = Some (opcode i)) as Hop
    by (change (List.map opcode instructions) with (opcode <$> instructions);
        rewrite list_lookup_fmap, Hi; reflexivity).
  rewrite Hops in Hop.
  change (List.map Z.of_nat (seq 0 256)) with (Z.of_nat <$> seq 0 256) in Hop.
  assert (Z.to_nat b < 256)%nat as Hlt.
  { apply lookup_lt_Some in Hop. rewrite length_fmap, length_seq in Hop. exact Hop. }
  rewrite list_lookup_fmap, lookup_seq_lt in Hop by exact Hlt.
  cbn [fmap option_fmap option_map Nat.add] in Hop. injection Hop as Hop. lia.
Qed.

(** X15: Decoding is total on bytes: the table has an entry for each of the 256
    opcodes and for nothing else; the entry carries its own opcode, a
    length of 1 to 3 bytes and at most 8 cycles, and names only registers
    that exist; an opcode the table does not define is an [invalid] entry
    of length 1 and no cycles. *)
Theorem table_well_formed (b : Z) :
  (0 <= b < 0x100 ->
   exists i : Instruction,
     Instruction.lookup b = Some i
     /\ opcode i = b
     /\ 1 <= len i <= 3
     /\ 0 <= cycles i <= 8
     /\ inFile i = true
     /\ (operation i = Operation_invalid -> cycles i = 0 /\ len i = 1))
  /\ (~ 0 <= b < 0x100 -> Instruction.lookup b = None).
Proof.
  assert (length instructions = 256%nat) as Hlen by (vm_compute; reflexivity).
  split.
  - intros Hb. destruct (table_total b Hb) as (i & Hi). exists i.
    split; [exact Hi |].
    pose proof (table_entry b i Hi) as Hin.
    pose proof (table_registers_in_file b i Hi) as Hfile.
    unfold Instruction.lookup in Hi. destruct (Z.leb_spec 0 b); [| lia].
    assert (List.map opcode instructions = List.map Z.of_nat (seq 0 256)) as Hops
      by (vm_compute; reflexivity).
    assert (List.map opcode instructions !! Z.to_nat b = Some (opcode i)) as Hop
      by (change (List.map opcode instructions) with (opcode <$> instructions);
          rewrite list_lookup_fmap, Hi; reflexivity).
    rewrite Hops in Hop.
    change (List.map Z.of_nat (seq 0 256)) with (Z.of_nat <$> seq 0 256) in Hop.
    rewrite list_lookup_fmap, lookup_seq_lt in Hop by lia.
    cbn [fmap option_fmap option_map Nat.add] in Hop. injection Hop as Hop.
    split; [lia |].
    assert (forallb (fun i => (1 <=? len i) && (len i <=? 3) && (0 <=? cycles i)
                              && (cycles i <=? 8)
                              && match operation i with
                                 | Operation_invalid => (cycles i =? 0) && (len i =? 1)
                                 | _ => true
                                 end) instructions = true) as Hall
      by (vm_compute; reflexivity).
    pose proof (proj1 (forallb_forall _ instructions) Hall i Hin) as Hcheck.
    cbv beta in Hcheck. rewrite !andb_true_iff, !Z.leb_le in Hcheck.
    destruct Hcheck as ((((Hl1 & Hl3) & Hc0) & Hc8) & Hinv).
    split; [lia |]. split; [lia |]. split; [exact Hfile |].
    intros Hop'. rewrite Hop', andb_true_iff, !Z.eqb_eq in Hinv. exact Hinv.
  - intros Hb. unfold Instruction.lookup. destruct (Z.leb_spec 0 b); [| reflexivity].
    apply lookup_ge_None_2. lia.
Qed.

(** An opcode is in the list [opcodesWith o] exactly when [o] is the
    outcome of its entry; the entries that are carried out cost at least
    one cycle. *)
Lemma table_classified (b : Z) (i : Instruction) :
  Instruction.lookup b = Some i ->
  existsb (Z.eqb b) (opcodesWith Executes)
  = match outcome i with Executes => true | _ => false end
  /\ existsb (Z.eqb b) (opcodesWith Throws)
     = match outcome i with Throws => true | _ => false end
  /\ (outcome i = Executes -> 0 < cycles i).
Proof.
  intros Hi. rewrite <- (table_opcode b i Hi).
  pose proof (table_entry b i Hi) as Hin.
  assert (forallb (fun i => Bool.eqb (existsb (Z.eqb (opcode i)) (opcodesWith Executes))
                              match outcome i with Executes => true | _ => false end
                            && Bool.eqb (existsb (Z.eqb (opcode i)) (opcodesWith Throws))
                                 match outcome i with Throws => true | _ => false end
                            && match outcome i with
                               | Executes => 0 <? cycles i
                               | _ => true
                               end) instructions = true) as Hall
    by (vm_compute; reflexivity).
  pose proof (proj1 (forallb_forall _ instructions) Hall i Hin) as Hcheck.
  cbv beta in Hcheck. clear Hall Hin Hi.
  rewrite !andb_true_iff in Hcheck. destruct Hcheck as [[Ha Hb] Hc].
  split; [exact (proj1 (Bool.eqb_true_iff _ _) Ha) |].
  split; [exact (proj1 (Bool.eqb_true_iff _ _) Hb) |].
  intros Ho. rewrite Ho in Hc. apply Z.ltb_lt. exact Hc.
Qed.

(** X16: Of the 256 opcodes, one step of the CPU carries out the 36 listed
    first: it gives the clock at least one cycle and then only reads and
    writes the bus, without a call of the break sink. It throws on the
    addressing mode of the 42 listed next, and reports each of the other
    178 to the break sink as invalid, leaving the CPU where it was. *)
Theorem opcode_coverage :
  let carried :=
    [0x00; 0x01; 0x04; 0x05; 0x06; 0x0c; 0x0d; 0x0e; 0x11; 0x14; 0x15; 0x16;
     0x1c; 0x1d; 0x1e; 0x20; 0x21; 0x24; 0x25; 0x26; 0x2c; 0x2d; 0x2e; 0x31;
     0x3c; 0x3d; 0x3e; 0xa8; 0xa9; 0xaa; 0xab; 0xac; 0xad; 0xaf; 0xc3; 0xf3] in
  let thrown :=
    [0x03; 0x0b; 0x13; 0x1b; 0x22; 0x23; 0x2a; 0x2b; 0x32; 0x33; 0x36; 0x3a;
     0x3b; 0x47; 0x48; 0x4a; 0x4b; 0x4c; 0x4d; 0x57; 0x58; 0x59; 0x5a; 0x5c;
     0x5d; 0x67; 0x68; 0x69; 0x6a; 0x6b; 0x6c; 0x78; 0x79; 0x7a; 0x7b; 0x7c;
     0x7d; 0xe0; 0xe2; 0xea; 0xf0; 0xf2] in
  opcodesWith Executes = carried
  /\ opcodesWith Throws = thrown
  /\ length (opcodesWith Breaks) = 178%nat
  /\ forall (s : CpuState) (w w1 : W) (b : Z),
       wellFormed s -> bus_read (p s) w = (b, w1) -> 0 <= b < 0x100 ->
       if existsb (Z.eqb b) carried then
         exists (cy : Z) (s' : CpuState) (w' : W),
           step 1 (s, w) = Normal (s', w')
           /\ wellFormed s'
           /\ 0 < cy
           /\ afterBus (clock_increment cy w1) w'
       else if existsb (Z.eqb b) thrown then
         step 1 (s, w) = Throw "bad addressing mode"
       else
         step 1 (s, w) = Normal (s, system_break "invalid instruction" w1).
Proof.
  intros carried thrown.
  assert (opcodesWith Executes = carried) as Hcarried by (vm_compute; reflexivity).
  assert (opcodesWith Throws = thrown) as Hthrown by (vm_compute; reflexivity).
  split; [exact Hcarried |]. split; [exact Hthrown |].
  split; [vm_compute; reflexivity |].
  rewrite <- Hcarried, <- Hthrown. clear Hcarried Hthrown carried thrown.
  intros s w w1 b Hs Hread Hb.
  destruct (table_total b Hb) as (i & Hi).
  pose proof (dispatch_effects i s w1 Hs (table_registers_in_file b i Hi)) as Hcase.
  destruct (table_classified b i Hi) as (Hc & Ht & Hcy).
  rewrite Hc, Ht. clear Hc Ht.
  cbn [step]. unfold decodeInstruction. rewrite Hread, Hi.
  destruct (outcome i).
  - specialize (Hcy eq_refl).
    destruct Hcase as (cy & s' & w' & -> & Hs' & Hcost & Hw' & _). cbn [bind].
    exists cy, s', w'. split; [reflexivity |]. split; [exact Hs' |].
    split; [| exact Hw']. destruct Hcost as [-> | [_ ->]]; lia.
  - rewrite Hcase. reflexivity.
  - rewrite Hcase. reflexivity.
Qed.

(** X17: An opcode without a case holds the CPU up: however many steps are
    asked for, each one reports it to the break sink and leaves the
    registers and PC as they were. *)
Theorem invalid_opcode_stalls (n : nat) (s : CpuState) (b : Z) (i : Instruction) :
  forall w : W,
    wellFormed s -> inFile i = true ->
    Instruction.lookup b = Some i -> outcome i = Breaks ->
    (forall k : nat,
       bus_read (p s) (Nat.iter k (system_break "invalid instruction") w)
       = (b, Nat.iter k (system_break "invalid instruction") w)) ->
    step n (s, w) = Normal (s, Nat.iter n (system_break "invalid instruction") w).
Proof.
  induction n as [| n IH]; intros w Hs Hin Hi Hout Hread; [reflexivity |].
  pose proof (Hread 0%nat) as H0. change (bus_read (p s) w = (b, w)) in H0.
  cbn [step]. unfold decodeInstruction. rewrite H0, Hi.
  pose proof (dispatch_cases i s w Hs Hin) as Hcase. rewrite Hout in Hcase.
  rewrite Hcase. cbn [bind]. rewrite IH; try assumption.
  - now rewrite <- Nat.iter_succ_r.
  - intros k. rewrite <- !Nat.iter_succ_r. apply (Hread (S k)).
Qed.

End WithEnvironment.

(** *** Examples *)

Lemma register_pairs_witness :
  get_r16 (set_r16 r16.bc 0x1234 CpuSample.boot) r16.bc = Num 0x1234
  /\ get_r8 (set_r16 r16.bc 0x1234 CpuSample.boot) r8.c = Num 0x34
  /\ get_r8 (set_r16 r16.bc 0x1234 CpuSample.boot) r8.b = Num 0x12.
Proof.
  destruct (register_pairs CpuSample.boot r16.bc 0x1234) as (_ & H16 & Hlo & Hhi & _).
  - split; [reflexivity | repeat constructor; vm_compute; intuition discriminate].
  - unfold r16.bc. lia.
  - split; [exact H16 | split; [exact Hlo | exact Hhi]].
Defined.

Lemma reset_registers_witness :
  get_r16 (reset constructor) r16.sp = Num 0xfffe /\ p (reset constructor) = 0x0100.
Proof.
  destruct (reset_registers constructor) as (_ & _ & _ & _ & _ & Hsp & _ & _ & Hp & _).
  - split; [reflexivity | repeat constructor; lia].
  - split; [exact Hsp | exact Hp].
Defined.

Lemma table_well_formed_witness :
  exists i : Instruction,
    Instruction.lookup 0x04 = Some i /\ opcode i = 0x04 /\ inFile i = true.
Proof.
  destruct (table_well_formed 0x04) as [Hin _].
  destruct (Hin ltac:(lia)) as (i & Hi & Hop & _ & _ & Hfile & _).
  exists i. split; [exact Hi | split; [exact Hop | exact Hfile]].
Defined.

Lemma inc_r8_witness :
  exists s' : CpuState,
    dispatch CpuSample.inc_b (set_r8 r8.b 0x0f CpuSample.boot, CpuSample.bench [0x04])
    = Normal (1, (s', TestBench.increment 1 (CpuSample.bench [0x04])))
    /\ get_r8 s' r8.b = Num 0x10 /\ get_r8 s' r8.f = Num flag.h /\ p s' = 0x0101.
Proof.
  destruct (@inc_r8 TestBench.World TestBench.environment CpuSample.inc_b
              (set_r8 r8.b 0x0f CpuSample.boot) (CpuSample.bench [0x04]) 0x0f 0x00)
    as (s' & Hrun & _ & Hb & Hf & _ & Hp & _).
  - reflexivity.
  - reflexivity.
  - vm_compute. intuition discriminate.
  - split; [reflexivity | repeat constructor; vm_compute; intuition discriminate].
  - reflexivity.
  - reflexivity.
  - exists s'. repeat split; assumption.
Defined.

Lemma dec_r8_witness :
  exists s' : CpuState,
    dispatch CpuSample.dec_b (CpuSample.boot, CpuSample.bench [0x05])
    = Normal (1, (s', TestBench.increment 1 (CpuSample.bench [0x05])))
    /\ get_r8 s' r8.b = Num 0xff /\ get_r8 s' r8.f = Num (flag.n + flag.h).
Proof.
  destruct (@dec_r8 TestBench.World TestBench.environment CpuSample.dec_b
              CpuSample.boot (CpuSample.bench [0x05]) 0x00 0x00)
    as (s' & Hrun & _ & Hb & Hf & _).
  - reflexivity.
  - reflexivity.
  - vm_compute. intuition discriminate.
  - split; [reflexivity | repeat constructor; vm_compute; intuition discriminate].
  - reflexivity.
  - reflexivity.
  - exists s'. repeat split; assumption.
Defined.

Lemma xor_r8_witness :
  exists s' : CpuState,
    dispatch CpuSample.xor_a (CpuSample.boot, CpuSample.bench [0xaf])
    = Normal (1, (s', TestBench.increment 1 (CpuSample.bench [0xaf])))
    /\ get_r8 s' r8.a = Num 0x00 /\ get_r8 s' r8.f = Num flag.z.
Proof.
  destruct (@xor_r8 TestBench.World TestBench.environment CpuSample.xor_a
              CpuSample.boot (CpuSample.bench [0xaf]) 0x01 0x01)
    as (s' & Hrun & _ & Ha & Hf & _).
  - reflexivity.
  - reflexivity.
  - vm_compute. intuition discriminate.
  - split; [reflexivity | repeat constructor; vm_compute; intuition discriminate].
  - reflexivity.
  - reflexivity.
  - exists s'. repeat split; assumption.
Defined.

Lemma jr_nz_displacement_witness :
  dispatch CpuSample.jr_nz (CpuSample.boot, CpuSample.bench [0x20; 0x05])
  = Normal (3, (with_p 0x0122 CpuSample.boot,
                TestBench.increment 3 (CpuSample.bench [0x20; 0x05]))).
Proof.
  apply (@jr_nz_displacement TestBench.World TestBench.environment CpuSample.jr_nz CpuSample.boot
           (CpuSample.bench [0x20; 0x05])
           (TestBench.increment 3 (CpuSample.bench [0x20; 0x05])) 0x00 0x20).
  - reflexivity.
  - reflexivity.
  - split; [reflexivity | repeat constructor; vm_compute; intuition discriminate].
  - reflexivity.
  - reflexivity.
  - lia.
Defined.

Lemma dispatch_outcome_witness :
  exists (cy : Z) (s' : CpuState) (w' : TestBench.World),
    dispatch CpuSample.inc_b (CpuSample.boot, CpuSample.bench [0x04])
    = Normal (cy, (s', w'))
    /\ (cy = 1 \/ (Operation_inc = Operation_jrnz /\ cy = 1 + 1))
    /\ afterBus (TestBench.increment cy (CpuSample.bench [0x04])) w'.
Proof.
  destruct (@dispatch_outcome TestBench.World TestBench.environment CpuSample.inc_b
              CpuSample.boot (CpuSample.bench [0x04]))
    as (cy & s' & w' & Hrun & _ & Hcost & Hw' & _).
  - split; [reflexivity | repeat constructor; vm_compute; intuition discriminate].
  - reflexivity.
  - exists cy, s', w'. repeat split; assumption.
Defined.

Lemma opcode_coverage_witness :
  exists (cy : Z) (s' : CpuState) (w' : TestBench.World),
    step 1 (CpuSample.boot, CpuSample.bench [0x00]) = Normal (s', w')
    /\ 0 < cy
    /\ afterBus (TestBench.increment cy (CpuSample.bench [0x00])) w'.
Proof.
  pose proof (@opcode_coverage TestBench.World TestBench.environment) as Hall.
  cbv zeta in Hall. destruct Hall as (_ & _ & _ & Hstep).
  specialize (Hstep CpuSample.boot (CpuSample.bench [0x00]) (CpuSample.bench [0x00]) 0x00).
  destruct Hstep as (cy & s' & w' & Hrun & _ & Hcy & Hw').
  - split; [reflexivity | repeat constructor; vm_compute; intuition discriminate].
  - reflexivity.
  - lia.
  - exists cy, s', w'. repeat split; assumption.
Defined.

Lemma invalid_opcode_stalls_witness :
  step 3 (CpuSample.boot, CpuSample.bench [0xb2])
  = Normal (CpuSample.boot,
            Nat.iter 3 (TestBench.break "invalid instruction") (CpuSample.bench [0xb2])).
Proof.
  apply (@invalid_opcode_stalls TestBench.World TestBench.environment 3 CpuSample.boot
           0xb2 CpuSample.or_d).
  - split; [reflexivity | repeat constructor; vm_compute; intuition discriminate].
  - reflexivity.
  - vm_compute. reflexivity.
  - reflexivity.
  - intros k.
    assert (TestBench.memory
              (Nat.iter k (TestBench.break "invalid instruction") (CpuSample.bench [0xb2]))
            = TestBench.memory (CpuSample.bench [0xb2])) as Hm
      by (induction k as [| k IH]; [reflexivity | exact IH]).
    change (TestBench.read 0x100
              (Nat.iter k (TestBench.break "invalid instruction") (CpuSample.bench [0xb2]))
            = (0xb2, Nat.iter k (TestBench.break "invalid instruction")
                       (CpuSample.bench [0xb2]))).
    unfold TestBench.read. change ((0 <=? 0x100) && (0x100 <? 0x8000)) with true.
    cbv iota. rewrite Hm. reflexivity.
Defined.

End CpuFacts.

(* --------------------------------------------------------------------- *)
(** ** The bus *)
(* --------------------------------------------------------------------- *)

Module BusFacts.
Import Js Bus.

(** *** The address in the messages *)

Lemma to_N_repeat_zero (n : nat) (s : string) :
  HexString.Raw.to_N (repeatChar n "0" s) 0 = HexString.Raw.to_N s 0.
Proof. induction n as [| n IH]; [reflexivity | exact IH]. Qed.

(** The four digits after [0x] are the address in hexadecimal. *)
Lemma hex4_decode (a : Z) : 0 <= a -> HexString.Raw.to_N (hex4 a) 0 = Z.to_N a.
Proof.
  intros Ha. unfold hex4, padStart. rewrite to_N_repeat_zero.
  destruct a as [| p | p]; [reflexivity | | lia].
  cbn [toString16 Z.to_N]. now rewrite HexString.Raw.to_N_of_pos.
Qed.

(** *** Assignments to the tables *)

Lemma arr_set_lookup_same {A : Type} (a : list (option A)) (i : nat) (x : A) :
  arr_set a i x !! i = Some (Some x).
Proof.
  unfold arr_set. destruct (Nat.ltb_spec i (length a)).
  - apply list_lookup_insert_eq. lia.
  - rewrite lookup_app_r by lia.
    rewrite lookup_app_r by (rewrite length_replicate; lia).
    rewrite length_replicate, Nat.sub_diag. reflexivity.
Qed.

Lemma arr_set_lookup_other {A : Type} (a : list (option A)) (i j : nat) (x : A) :
  i <> j -> (j < length a)%nat -> arr_set a i x !! j = a !! j.
Proof.
  intros Hne Hj. unfold arr_set. destruct (Nat.ltb_spec i (length a)).
  - apply list_lookup_insert_ne. exact Hne.
  - apply lookup_app_l. exact Hj.
Qed.

Lemma length_arr_set {A : Type} (a : list (option A)) (i : nat) (x : A) :
  (length a <= length (arr_set a i x))%nat.
Proof.
  unfold arr_set. destruct (Nat.ltb_spec i (length a)).
  - rewrite length_insert. lia.
  - rewrite length_app. lia.
Qed.

Section WithWorld.
Context {W : Type} `{SystemInterface W}.

(** *** The constructor's loop *)

Lemma fill_spec (n : nat) :
  forall (i : nat) (b : t W),
    (i + n <= length (readMap b))%nat ->
    (i + n <= length (writeMap b))%nat ->
    readMap (fill n i b)
    = take i (readMap b) ++ replicate n (Some invalidRead) ++ drop (i + n) (readMap b)
    /\ writeMap (fill n i b)
       = take i (writeMap b) ++ replicate n (Some invalidWrite) ++ drop (i + n) (writeMap b).
Proof.
  induction n as [| n IH]; intros i b Hr Hw.
  - cbn. rewrite Nat.add_0_r, !take_drop. split; reflexivity.
  - cbn [fill]. unfold arr_set.
    destruct (Nat.ltb_spec i (length (readMap b))); [| lia].
    destruct (Nat.ltb_spec i (length (writeMap b))); [| lia].
    match goal with
    | |- context [fill n (S i) ?b'] =>
        destruct (IH (S i) b') as [Hr' Hw']; cbn [readMap writeMap];
        rewrite ?length_insert; try lia
    end.
    rewrite Hr', Hw'. cbn [readMap writeMap].
    rewrite !(take_S_r _ i (Some _)) by (apply list_lookup_insert_eq; lia).
    rewrite !take_insert_ge by lia.
    rewrite !drop_insert_lt by lia.
    rewrite <- !app_assoc. cbn. rewrite !Nat.add_succ_r. split; reflexivity.
Qed.

Lemma constructor_tables :
  readMap (constructor (W := W)) = replicate size (Some invalidRead)
  /\ writeMap (constructor (W := W)) = replicate size (Some invalidWrite).
Proof.
  unfold constructor.
  destruct (fill_spec size 0 {| readMap := replicate size None;
                                writeMap := replicate size None |}) as [Hr Hw];
    cbn [readMap writeMap]; rewrite ?length_replicate; try lia.
  rewrite Hr, Hw. cbn [readMap writeMap take Nat.add].
  rewrite !drop_replicate, Nat.sub_diag. cbn [replicate].
  rewrite !app_nil_r. split; reflexivity.
Qed.


(** *** Unmapped addresses *)

Lemma constructor_complete : complete (constructor (W := W)).
Proof.
  unfold complete. destruct constructor_tables as [-> ->].
  rewrite !length_replicate. split; [lia |]. split; [lia |].
  intros j Hj. rewrite !lookup_replicate_2 by exact Hj. split; eexists; reflexivity.
Qed.

Lemma map_complete (a : Z) (r : ReadHandler W) (wr : WriteHandler W) (b : t W) :
  complete b -> complete (map a r wr b).
Proof.
  intros (Hlr & Hlw & Hall). unfold map. destruct (0 <=? a); [| now split].
  unfold complete. cbn [readMap writeMap].
  split; [pose proof (length_arr_set (readMap b) (Z.to_nat a) r); lia |].
  split; [pose proof (length_arr_set (writeMap b) (Z.to_nat a) wr); lia |].
  intros j Hj. destruct (Nat.eq_dec (Z.to_nat a) j) as [<- | Hne].
  - rewrite !arr_set_lookup_same. split; eexists; reflexivity.
  - rewrite !arr_set_lookup_other by (try exact Hne; lia). now apply Hall.
Qed.

Lemma map_other (a : Z) (r : ReadHandler W) (wr : WriteHandler W) (b : t W) (j : Z) :
  complete b -> 0 <= j < 0x10000 -> a <> j ->
  readMap (map a r wr b) !! Z.to_nat j = readMap b !! Z.to_nat j
  /\ writeMap (map a r wr b) !! Z.to_nat j = writeMap b !! Z.to_nat j.
Proof.
  intros (Hlr & Hlw & _) Hj Hne. unfold map.
  destruct (Z.leb_spec 0 a); [| now split]. cbn [readMap writeMap].
  unfold size in *. rewrite !arr_set_lookup_other by lia. now split.
Qed.

Lemma mapAll_complete (pairs : list (Z * (ReadHandler W * WriteHandler W))) :
  forall b : t W, complete b -> complete (mapAll pairs b).
Proof.
  induction pairs as [| m pairs IH]; intros b Hb; [exact Hb |].
  cbn [mapAll fold_left]. apply IH. now apply map_complete.
Qed.

Lemma mapAll_other (pairs : list (Z * (ReadHandler W * WriteHandler W))) (j : Z) :
  forall b : t W,
    complete b -> 0 <= j < 0x10000 -> ~ In j (List.map fst pairs) ->
    readMap (mapAll pairs b) !! Z.to_nat j = readMap b !! Z.to_nat j
    /\ writeMap (mapAll pairs b) !! Z.to_nat j = writeMap b !! Z.to_nat j.
Proof.
  induction pairs as [| m pairs IH]; intros b Hb Hj Hin; [now split |].
  cbn [mapAll fold_left List.map In] in *.
  destruct (IH (map (fst m) (fst (snd m)) (snd (snd m)) b)) as [Hr Hw];
    [now apply map_complete | exact Hj | tauto |].
  fold (mapAll pairs (map (fst m) (fst (snd m)) (snd (snd m)) b)).
  rewrite Hr, Hw. apply map_other; [exact Hb | exact Hj | tauto].
Qed.

Lemma read_at (b : t W) (a : Z) (w : W) (h : ReadHandler W) :
  0 <= a -> readMap b !! Z.to_nat a = Some (Some h) -> read b a w = Normal (h a w).
Proof.
  intros Ha Hl. unfold read. destruct (Z.leb_spec 0 a); [| lia].
  match goal with
  | |- match ?o with _ => _ end = _ => assert (o = Some (Some h)) as -> by exact Hl
  end.
  reflexivity.
Qed.

Lemma write_at (b : t W) (a v : Z) (w : W) (h : WriteHandler W) :
  0 <= a -> writeMap b !! Z.to_nat a = Some (Some h) -> write b a v w = Normal (h a v w).
Proof.
  intros Ha Hl. unfold write. destruct (Z.leb_spec 0 a); [| lia].
  match goal with
  | |- match ?o with _ => _ end = _ => assert (o = Some (Some h)) as -> by exact Hl
  end.
  reflexivity.
Qed.


End WithWorld.



End BusFacts.

(* --------------------------------------------------------------------- *)
(** ** The PPU: the STAT line, the registers and the frame buffers *)
(* --------------------------------------------------------------------- *)

Module PpuRegisterFacts.
Import Js Ppu PpuViews JsFacts BitFacts.

(** *** The STAT line *)

Section WithWorld.
Context {E : Type}.

Lemma updateStat_unfold (w : World E) :
  updateStat w
  = if statLine (ppu w) && negb (stat_line (ppu w)) && lcdEnabled (ppu w)
    then interrupt_raise irq_stat (with_ppu (with_stat_line (statLine (ppu w))) w)
    else with_ppu (with_stat_line (statLine (ppu w))) w.
Proof. reflexivity. Qed.

Lemma statLine_enabled (s : t) : statLine s = true -> lcdEnabled s = true.
Proof. unfold statLine. destruct (lcdEnabled s); [reflexivity | discriminate]. Qed.

(** X19: The STAT interrupt is raised on the rising edge of the STAT line only:
    [updateStat] raises it exactly when the line was low and is now high,
    and never with the LCD off; it changes nothing but the line and the
    list of raised interrupts, and recomputing the line a second time
    changes nothing at all. *)
Theorem stat_rising_edge (w : World E) :
  stat_line (ppu (updateStat w)) = statLine (ppu w)
  /\ (raised (updateStat w)
      = if negb (stat_line (ppu w)) && statLine (ppu w)
        then irq_stat :: raised w else raised w)
  /\ (lcdEnabled (ppu w) = false -> updateStat w = with_ppu (with_stat_line false) w)
  /\ outsideMachine (updateStat w) = outsideMachine w
  /\ timing (ppu (updateStat w)) = timing (ppu w)
  /\ video (ppu (updateStat w)) = video (ppu w)
  /\ updateStat (updateStat w) = updateStat w.
Proof.
  destruct w as [s locked r e].
  assert (updateStat (updateStat {| ppu := s; busLocked := locked; raised := r; ext := e |})
          = updateStat {| ppu := s; busLocked := locked; raised := r; ext := e |}) as Hagain.
  { rewrite (updateStat_unfold (updateStat _)).
    rewrite updateStat_unfold. cbn [ppu].
    pose proof (statLine_enabled s) as Hen.
    destruct (statLine s) eqn:Hline; destruct (stat_line s); destruct (lcdEnabled s) eqn:He;
      try (specialize (Hen eq_refl); discriminate);
      cbn [negb andb interrupt_raise with_ppu ppu];
      change (statLine (with_stat_line _ s)) with (statLine s);
      change (lcdEnabled (with_stat_line _ s)) with (lcdEnabled s);
      rewrite ?Hline, ?He; reflexivity. }
  rewrite Hagain. rewrite updateStat_unfold. cbn [ppu raised].
  pose proof (statLine_enabled s) as Hen.
  destruct (statLine s) eqn:Hline; destruct (stat_line s); destruct (lcdEnabled s) eqn:He;
    try (specialize (Hen eq_refl); discriminate);
    cbn [negb andb interrupt_raise with_ppu ppu raised with_stat_line stat_line timing video];
    unfold outsideMachine; cbn [ppu busLocked ext regs vram oam dmaInProgress dmaCycle];
    repeat split; try reflexivity; try discriminate; intros _; reflexivity.
Qed.

(** X20: With the LCD off and no transfer in progress the PPU stands still,
    however many clocks it is given. *)
Theorem lcd_off_stands_still `{Devices E} (fuel : nat) (n : Z) (w : World E) :
  lcdEnabled (ppu w) = false -> dmaInProgress (ppu w) = false ->
  cycle fuel n w = Some w.
Proof.
  intros Hoff Hdma. unfold cycle.
  assert (dmaLoop (Z.to_nat n) n w = (n, w)) as ->
    by (destruct (Z.to_nat n); cbn [dmaLoop]; [| rewrite Hdma]; reflexivity).
  now rewrite Hoff.
Qed.

End WithWorld.

(** *** LCDC *)

Lemma land_bound (a m : Z) : 0 <= m -> 0 <= Z.land a m <= m.
Proof.
  intros Hm. split; [apply Z.land_nonneg; lia |].
  assert (Z.land (Z.ldiff m a) (Z.land a m) = 0) as Hdisjoint
    by (rewrite Z.land_assoc, Z.land_ldiff; apply Z.land_0_l).
  assert (0 <= Z.ldiff m a) by (apply Z.ldiff_nonneg; lia).
  assert (0 <= Z.land a m) by (apply Z.land_nonneg; lia).
  pose proof (Z.lor_ldiff_and m a) as Hm'.
  rewrite (Z.land_comm m a), <- Z.lxor_lor, <- Z.add_nocarry_lxor in Hm' by assumption.
  lia.
Qed.

Lemma enabled_bit (x : Z) :
  0 <= x < 0x100 -> negb (bitand x lcdc_enable =? 0) = Z.testbit x 7.
Proof.
  intros Hx. rewrite bitand_small by (unfold lcdc_enable; lia).
  unfold lcdc_enable. change 0x80 with (2 ^ 7). rewrite land_pow2 by lia.
  destruct (Z.testbit x 7); reflexivity.
Qed.

Lemma switched_on_bit (o n : Z) :
  0 <= o < 0x100 -> 0 <= n < 0x100 ->
  negb (bitand (bitand (bitnot o) n) lcdc_enable =? 0)
  = negb (Z.testbit o 7) && Z.testbit n 7.
Proof.
  intros Ho Hn. unfold bitnot. rewrite (toInt32_small o) by lia.
  rewrite (bitand_small (Z.lnot o) n) by (unfold Z.lnot; lia).
  pose proof (land_bound (Z.lnot o) n ltac:(lia)) as Hb.
  rewrite bitand_small by (unfold lcdc_enable; lia).
  unfold lcdc_enable. change 0x80 with (2 ^ 7). rewrite land_pow2 by lia.
  rewrite Z.land_spec, Z.lnot_spec by lia.
  destruct (Z.testbit o 7); destruct (Z.testbit n 7); reflexivity.
Qed.

Lemma switched_off_bit (o n : Z) :
  0 <= o < 0x100 -> 0 <= n < 0x100 ->
  negb (bitand (bitand o (bitnot n)) lcdc_enable =? 0)
  = Z.testbit o 7 && negb (Z.testbit n 7).
Proof.
  intros Ho Hn. unfold bitnot. rewrite (toInt32_small n) by lia.
  rewrite (bitand_small o (Z.lnot n)) by (unfold Z.lnot; lia).
  pose proof (land_bound (Z.lnot n) o ltac:(lia)) as Hb.
  rewrite (Z.land_comm o) , bitand_small by (unfold lcdc_enable; lia).
  unfold lcdc_enable. change 0x80 with (2 ^ 7). rewrite land_pow2 by lia.
  rewrite Z.land_spec, Z.lnot_spec by lia.
  destruct (Z.testbit o 7); destruct (Z.testbit n 7); reflexivity.
Qed.

Lemma reg_set_same (r : reg) (v : Z) (f : Registers) : reg_set r v f r = v mod 0x100.
Proof. unfold reg_set. now rewrite Z.eqb_refl. Qed.

Lemma reg_set_other (r r' : reg) (v : Z) (f : Registers) :
  r' <> r -> reg_set r v f r' = f r'.
Proof.
  intros Hne. unfold reg_set.
  destruct (Z.eqb_spec (reg_index r') (reg_index r)) as [He | _]; [| reflexivity].
  destruct r, r'; try discriminate He; contradiction.
Qed.

Section WithPalette.
Context `{Palette}.

(** X21: Writing LCDC stores the byte. When the write switches the LCD off, the
    back buffer is blanked and presented at once, as one more frame. When
    it switches the LCD on, the frame that follows is marked to be
    skipped. Any other write leaves the video state alone. *)
Theorem lcd_switch (s : t) (a v : Z) :
  byteRegisters s ->
  regs (lcdcWrite a v s) lcdc = v mod 0x100
  /\ (forall r : reg, r <> lcdc -> regs (lcdcWrite a v s) r = regs s r)
  /\ with_video (video s) (with_regs (regs s) (lcdcWrite a v s)) = s
  /\ video (lcdcWrite a v s)
     = match lcdEnabled s, lcdEnabled (lcdcWrite a v s) with
       | true, false =>
           {| frame := toInt32 (frame (video s) + 1);
              skipFrame := skipFrame (video s);
              paletteBG := paletteBG (video s);
              frontBuffer := replicate (length (backBuffer (video s))) blank;
              backBuffer := frontBuffer (video s) |}
       | false, true => with_skipFrame true (video s)
       | _, _ => video s
       end.
Proof.
  intros Hbytes. pose proof (Hbytes lcdc) as Ho.
  pose proof (Z.mod_pos_bound v 0x100 ltac:(lia)) as Hn.
  assert (lcdEnabled s = Z.testbit (regs s lcdc) 7) as Hen
    by (unfold lcdEnabled; now apply enabled_bit).
  unfold lcdcWrite. cbn [regs with_regs].
  rewrite reg_set_same, switched_on_bit by assumption.
  rewrite Hen. unfold lcdEnabled.
  destruct (Z.testbit (regs s lcdc) 7) eqn:Hold;
    destruct (Z.testbit (v mod 0x100) 7) eqn:Hnew;
    cbn [negb andb regs with_regs with_video video with_skipFrame];
    rewrite reg_set_same, switched_off_bit, Hold, Hnew by assumption;
    cbn [negb andb regs with_regs with_video video with_skipFrame swapBuffers
         with_backBuffer frame skipFrame paletteBG frontBuffer backBuffer];
    rewrite ?reg_set_same, ?enabled_bit, ?Hnew by assumption;
    (split; [reflexivity |]);
    (split; [intros r Hr; now apply reg_set_other |]);
    (split; [destruct s as [tm [fr sk pal fb bb] vr oa st dip dc rg]; reflexivity |]);
    try reflexivity.
Qed.

(** *** BGP *)

Lemma shade_index (b i : Z) :
  0 <= b < 0x100 -> 0 <= i < 4 ->
  bitand (shr b (2 * i)) 0x03 = (b / 4 ^ i) mod 4.
Proof.
  intros Hb Hi. change 0x03 with (Z.ones 2). rewrite bitand_mask by lia.
  unfold shr. rewrite toInt32_small by lia.
  assert (i = 0 \/ i = 1 \/ i = 2 \/ i = 3) as [-> | [-> | [-> | ->]]] by lia;
    cbn [Z.mul Pos.mul]; unfold toUint32;
    rewrite Z.shiftr_div_pow2 by (vm_compute; congruence); reflexivity.
Qed.

Lemma ta_store_lookup (l : list Z) (i j x : Z) :
  0 <= i < Js.len l ->
  ta_get (ta_store l i x) j = if j =? i then Num x else ta_get l j.
Proof.
  intros Hi. unfold Js.len in Hi. unfold ta_get, ta_store.
  destruct (Z.leb_spec 0 i); [| lia].
  destruct (Z.eqb_spec j i) as [-> | Hne].
  - destruct (Z.leb_spec 0 i); [| lia]. now rewrite list_lookup_insert_eq by lia.
  - destruct (Z.leb_spec 0 j); [| reflexivity].
    now rewrite list_lookup_insert_ne by lia.
Qed.

(** X22: Writing BGP stores the byte and recomputes the background palette: the
    colour of index [i] is the classic shade that the bits [2i+1 .. 2i] of
    the byte name. The palette keeps its length and its other entries. *)
Theorem bgp_palette (s : t) (a v i : Z) :
  (4 <= length (paletteBG (video s)))%nat ->
  regs (bgpWrite a v s) bgp = v mod 0x100
  /\ length (paletteBG (video (bgpWrite a v s))) = length (paletteBG (video s))
  /\ ta_get (paletteBG (video (bgpWrite a v s))) i
     = if (0 <=? i) && (i <? 4)
       then Num (storeUint32 (ta_get PALETTE_CLASSIC ((v mod 0x100) / 4 ^ i mod 4)))
       else ta_get (paletteBG (video s)) i.
Proof.
  intros Hlen. pose proof (Z.mod_pos_bound v 0x100 ltac:(lia)) as Hb.
  unfold bgpWrite. cbn [regs with_regs video with_video paletteBG with_paletteBG].
  rewrite bitand_0xff. rewrite !(shade_index (v mod 0x100)) by lia.
  split; [rewrite reg_set_same; now rewrite Z.mod_mod by lia |].
  split; [now rewrite !RegisterFacts.length_ta_store |].
  rewrite !ta_store_lookup by (unfold Js.len; rewrite ?RegisterFacts.length_ta_store; lia).
  destruct (Z.eqb_spec i 3) as [-> | H3]; [reflexivity |].
  destruct (Z.eqb_spec i 2) as [-> | H2]; [reflexivity |].
  destruct (Z.eqb_spec i 1) as [-> | H1]; [reflexivity |].
  destruct (Z.eqb_spec i 0) as [-> | H0]; [reflexivity |].
  destruct (Z.leb_spec 0 i); destruct (Z.ltb_spec i 4); try reflexivity; lia.
Qed.

(** *** The register map *)

Lemma reg_of_index_index (r : reg) : reg_of_index (reg_index r) = Some r.
Proof. destruct r; reflexivity. Qed.

Lemma registerRead_at (r : reg) (s : t) :
  registerRead (reg_base + reg_index r) s = Num (regs s r).
Proof.
  unfold registerRead.
  replace (reg_base + reg_index r - reg_base) with (reg_index r) by lia.
  now rewrite reg_of_index_index.
Qed.

Lemma registerWrite_at {E : Type} (r : reg) (v : Z) (w : World E) :
  regs (ppu (registerWrite (reg_base + reg_index r) v w)) = reg_set r v (regs (ppu w))
  /\ timing (ppu (registerWrite (reg_base + reg_index r) v w)) = timing (ppu w).
Proof.
  unfold registerWrite.
  replace (reg_base + reg_index r - reg_base) with (reg_index r) by lia.
  rewrite reg_of_index_index, updateStat_unfold.
  destruct w as [s locked rs e].
  match goal with
  | |- context [if ?c then _ else _] => destruct c
  end; split; reflexivity.
Qed.

(** X23: Every PPU register has a handler pair. A register reads back the byte
    written to it, with two exceptions: LY ignores writes and reads as the
    current scanline; STAT keeps the upper five bits written, its low
    three bits being the LYC = LY flag and the mode. *)
Theorem register_map {E : Type} (r : reg) (v : Z) (w : World E) :
  exists (hr : Z -> t -> value) (hw : Z -> Z -> World E -> World E),
    installedRead (reg_base + reg_index r) = Some hr
    /\ installedWrite (reg_base + reg_index r) = Some hw
    /\ match r with
       | ly =>
           hw (reg_base + reg_index r) v w = w
           /\ hr (reg_base + reg_index r) (ppu w) = Num (scanline (timing (ppu w)))
       | stat =>
           hr (reg_base + reg_index r) (ppu (hw (reg_base + reg_index r) v w))
           = Num (bitor (bitor (bitand (v mod 0x100) 0xf8)
                               (if regs (ppu w) lyc =? scanline (timing (ppu w))
                                then 0x04 else 0))
                        (ppuMode_value (mode (timing (ppu w)))))
       | _ =>
           hr (reg_base + reg_index r) (ppu (hw (reg_base + reg_index r) v w))
           = Num (v mod 0x100)
       end.
Proof.
  assert (forall r' : reg,
            plain r' = true ->
            registerRead (reg_base + reg_index r')
              (ppu (registerWrite (reg_base + reg_index r') v w))
            = Num (v mod 0x100)) as Hplain.
  { intros r' _. rewrite registerRead_at.
    destruct (registerWrite_at r' v w) as [-> _]. now rewrite reg_set_same. }
  destruct r; eexists _, _;
    (split; [reflexivity |]); (split; [reflexivity |]); cbv beta;
    try (apply Hplain; reflexivity).
  - (* lcdc *)
    rewrite (registerRead_at lcdc). destruct w as [s locked rs e].
    cbn [ppu with_ppu]. f_equal. unfold lcdcWrite. cbn [regs with_regs].
    repeat match goal with
           | |- context [if ?c then _ else _] => destruct c
           end; cbn [regs with_regs with_video swapBuffers]; apply reg_set_same.
  - (* stat *)
    unfold statRead. destruct (registerWrite_at stat v w) as [-> ->].
    rewrite reg_set_same, !reg_set_other by discriminate. reflexivity.
  - (* ly *)
    split; reflexivity.
  - (* dma *)
    rewrite (registerRead_at dma). destruct w as [s locked rs e].
    unfold dmaWrite. cbn [ppu with_ppu bus_lock with_dma with_regs regs].
    now rewrite reg_set_same.
  - (* bgp *)
    rewrite (registerRead_at bgp). destruct w as [s locked rs e].
    cbn [ppu with_ppu]. f_equal. unfold bgpWrite. cbn [regs with_regs with_video].
    rewrite reg_set_same, bitand_0xff. apply Z.mod_mod. lia.
Qed.

(** *** Reset *)

(** X24: [reset] succeeds whenever the background palette has room for the four
    classic shades. It leaves the PPU at the start of a frame with the LCD
    on, no transfer in progress, both memories cleared and both buffers
    blank; resetting once more changes nothing. *)
Theorem reset_twice (s : t) :
  (length (take 4 PALETTE_CLASSIC) <= length (paletteBG (video s)))%nat ->
  exists s' : t,
    reset s = Normal s'
    /\ reset s' = Normal s'
    /\ timing s' = {| mode := oamScan; clockInMode := 0; scanline := 0 |}
    /\ lcdEnabled s' = true
    /\ dmaInProgress s' = false
    /\ vram s' = replicate (length (vram s)) 0
    /\ oam s' = replicate (length (oam s)) 0
    /\ frontBuffer (video s') = replicate (length (frontBuffer (video s))) blank
    /\ backBuffer (video s') = replicate (length (backBuffer (video s))) blank.
Proof.
  intros Hlen. unfold reset, ta_setAll.
  destruct (Nat.leb_spec (length (take 4 PALETTE_CLASSIC)) (length (paletteBG (video s))));
    [| lia].
  cbn [bind]. eexists. split; [reflexivity |].
  cbn [video paletteBG frontBuffer backBuffer vram oam timing dmaInProgress].
  rewrite !length_replicate, length_app, length_drop.
  destruct (Nat.leb_spec (length (take 4 PALETTE_CLASSIC))
              (length (take 4 PALETTE_CLASSIC)
               + (length (paletteBG (video s)) - length (take 4 PALETTE_CLASSIC))));
    [| lia].
  cbn [bind]. rewrite drop_app_length.
  repeat split; reflexivity.
Qed.

End WithPalette.

Lemma lcd_off_stands_still_witness :
  @cycle unit PpuSample.pattern 0 1000 PpuTiny.dark = Some PpuTiny.dark.
Proof.
  apply (@lcd_off_stands_still unit PpuSample.pattern 0 1000 PpuTiny.dark); reflexivity.
Defined.

Lemma lcd_switch_witness :
  video (@lcdcWrite PpuSample.palette 0xff40 0x00 PpuTiny.lit)
  = {| frame := 8; skipFrame := false; paletteBG := [1; 2; 3; 4];
       frontBuffer := [0xffd0f8e0; 0xffd0f8e0]; backBuffer := [10; 11] |}.
Proof.
  destruct (@lcd_switch PpuSample.palette PpuTiny.lit 0xff40 0x00) as (_ & _ & _ & Hv).
  - intros r. destruct r; vm_compute; split; congruence.
  - exact Hv.
Defined.

Lemma bgp_palette_witness :
  ta_get (paletteBG (video (@bgpWrite PpuSample.palette 0xff47 0xe4 PpuTiny.lit))) 2
  = Num 0xff555555.
Proof.
  destruct (@bgp_palette PpuSample.palette PpuTiny.lit 0xff47 0xe4 2) as (_ & _ & Hp).
  - cbn. lia.
  - exact Hp.
Defined.

Lemma reset_twice_witness :
  exists s' : t,
    @reset PpuSample.palette PpuTiny.lit = Normal s'
    /\ @reset PpuSample.palette s' = Normal s'
    /\ lcdEnabled s' = true.
Proof.
  destruct (@reset_twice PpuSample.palette PpuTiny.lit) as (s' & H1 & H2 & _ & Hen & _).
  - cbn. lia.
  - exists s'. split; [exact H1 | split; [exact H2 | exact Hen]].
Defined.

End PpuRegisterFacts.
(* --------------------------------------------------------------------- *)
(** ** The PPU: rendering a line *)
(* --------------------------------------------------------------------- *)

Module PpuRenderFacts.
Import Js Ppu PpuViews JsFacts BitFacts.

Lemma bit_of (d k : Z) :
  0 <= k < 31 -> bitand d (2 ^ k) = if Z.testbit (toInt32 d) k then 2 ^ k else 0.
Proof.
  intros Hk. unfold bitand. rewrite (toInt32_small (2 ^ k)).
  - apply land_pow2. lia.
  - assert (0 < 2 ^ k) by (apply Z.pow_pos_nonneg; lia).
    assert (2 ^ k <= 2 ^ 30) by (apply Z.pow_le_mono_r; lia). lia.
Qed.

(** The two bit planes of a pixel make an index into the palette. *)
Lemma indexedBG_range (d : Z) :
  0 <= bitor (ushr (bitand d 0x8000) 14) (ushr (bitand d 0x80) 7) < 4.
Proof.
  change 0x8000 with (2 ^ 15). change 0x80 with (2 ^ 7).
  rewrite !bit_of by lia.
  destruct (Z.testbit (toInt32 d) 15); destruct (Z.testbit (toInt32 d) 7);
    vm_compute; split; congruence.
Qed.

(** One pixel: the colour goes to [pixelAddress], which moves on by one. *)
Lemma renderPixel_spec (ny y : Z) (s : t) (l : LineState) :
  exists c : Z,
    0 <= c < 4
    /\ pixels (renderPixel ny y s l)
       = ta_store (pixels l) (pixelAddress l) (storeUint32 (ta_get (paletteBG (video s)) c))
    /\ pixelAddress (renderPixel ny y s l) = pixelAddress l + 1.
Proof.
  exists (bitor (ushr (bitand (asInt (bgTileData l)) 0x8000) 14)
                (ushr (bitand (asInt (bgTileData l)) 0x80) 7)).
  split; [apply indexedBG_range |].
  unfold renderPixel. destruct (bgTileX l =? 7); split; reflexivity.
Qed.

Lemma renderPixels_spec (ny y : Z) (s : t) (l0 : LineState) (k : nat) :
  pixelAddress (Nat.iter k (renderPixel ny y s) l0) = pixelAddress l0 + Z.of_nat k
  /\ length (pixels (Nat.iter k (renderPixel ny y s) l0)) = length (pixels l0)
  /\ (forall j : Z,
        j < pixelAddress l0 \/ pixelAddress l0 + Z.of_nat k <= j ->
        ta_get (pixels (Nat.iter k (renderPixel ny y s) l0)) j = ta_get (pixels l0) j)
  /\ (forall j : Z,
        pixelAddress l0 <= j < pixelAddress l0 + Z.of_nat k ->
        0 <= j < len (pixels l0) ->
        exists c : Z,
          0 <= c < 4
          /\ ta_get (pixels (Nat.iter k (renderPixel ny y s) l0)) j
             = Num (storeUint32 (ta_get (paletteBG (video s)) c))).
Proof.
  induction k as [| k (IHa & IHl & IHout & IHin)].
  - cbn [Nat.iter nat_rect]. split; [lia |]. split; [reflexivity |].
    split; [reflexivity |]. intros j Hj. lia.
  - change (Nat.iter (S k) (renderPixel ny y s) l0)
      with (renderPixel ny y s (Nat.iter k (renderPixel ny y s) l0)).
    destruct (renderPixel_spec ny y s (Nat.iter k (renderPixel ny y s) l0))
      as (c & Hc & -> & ->).
    rewrite IHa, RegisterFacts.length_ta_store, IHl.
    split; [lia |]. split; [reflexivity |]. split.
    + intros j Hj. rewrite RegisterFacts.ta_get_store_other by lia. apply IHout. lia.
    + intros j Hj Hlen.
      destruct (Z.eq_dec j (pixelAddress l0 + Z.of_nat k)) as [-> | Hne].
      * exists c. split; [exact Hc |].
        apply RegisterFacts.ta_get_store_same. unfold len in *. rewrite IHl. lia.
      * rewrite RegisterFacts.ta_get_store_other by lia. apply IHin; lia.
Qed.

(** X25: [renderLine] draws the 160 pixels of the current scanline into the back
    buffer and touches nothing else: the other lines of the back buffer,
    the front buffer and the rest of the PPU are as before, and every pixel
    it writes is one of the four colours of the background palette. *)
Theorem render_line (s : t) :
  with_video (video s) (renderLine s) = s
  /\ with_backBuffer (backBuffer (video s)) (video (renderLine s)) = video s
  /\ length (backBuffer (video (renderLine s))) = length (backBuffer (video s))
  /\ (forall j : Z,
        j < 160 * scanline (timing s) \/ 160 * scanline (timing s) + 160 <= j ->
        ta_get (backBuffer (video (renderLine s))) j = ta_get (backBuffer (video s)) j)
  /\ (forall j : Z,
        160 * scanline (timing s) <= j < 160 * scanline (timing s) + 160 ->
        0 <= j < len (backBuffer (video s)) ->
        exists c : Z,
          0 <= c < 4
          /\ ta_get (backBuffer (video (renderLine s))) j
             = Num (storeUint32 (ta_get (paletteBG (video s)) c))).
Proof.
  unfold renderLine.
  match goal with
  | |- context [Nat.iter 160 ?f ?l0] =>
      match f with
      | renderPixel ?ny ?y _ =>
          destruct (renderPixels_spec ny y s l0 160) as (_ & Hlen & Hout & Hin);
          set (l := Nat.iter 160 f l0) in *
      end
  end.
  cbn [pixelAddress pixels] in Hlen, Hout, Hin.
  cbn [video with_video with_backBuffer backBuffer].
  split; [destruct s as [tm [fr sk pal fb bb] vr oa st dip dc rg]; reflexivity |].
  split; [destruct s as [tm [fr sk pal fb bb] vr oa st dip dc rg]; reflexivity |].
  split; [exact Hlen |]. split.
  - intros j Hj. apply Hout. lia.
  - intros j Hj Hb. apply Hin; lia.
Qed.

Lemma renderLine_front (s : t) :
  with_backBuffer (backBuffer (video s)) (video (renderLine s)) = video s.
Proof.
  unfold renderLine. cbn [video with_video with_backBuffer backBuffer].
  destruct s as [tm [fr sk pal fb bb] vr oa st dip dc rg]. reflexivity.
Qed.

(** X26: A frame is presented at the end of VBlank and at no other time: any
    other step of the mode machine leaves the frame counter, the front
    buffer, the palette and the skip mark as they were. At the end of
    VBlank the skip mark is cleared; the buffers are swapped and the frame
    counter goes up by one, unless the frame was marked to be skipped, in
    which case nothing is presented. *)
Theorem frame_presentation {E : Type} (k : Z) (w : World E) :
  let v := video (ppu w) in
  let v' := video (ppu (snd (consumeClocks k w))) in
  paletteBG v' = paletteBG v
  /\ if ppuMode_eqb (mode (timing (ppu w))) vblank
        && (4560 <=? k + clockInMode (timing (ppu w)))
     then
       skipFrame v' = false
       /\ if skipFrame v
          then frame v' = frame v /\ frontBuffer v' = frontBuffer v
               /\ backBuffer v' = backBuffer v
          else frame v' = toInt32 (frame v + 1) /\ frontBuffer v' = backBuffer v
               /\ backBuffer v' = frontBuffer v
     else
       frame v' = frame v /\ frontBuffer v' = frontBuffer v
       /\ skipFrame v' = skipFrame v.
Proof.
  destruct w as [s locked rs e]. cbv zeta. unfold consumeClocks. cbn [ppu].
  destruct (mode (timing s)) eqn:Hmode; unfold ppuMode_eqb; cbn [ppuMode_value Z.eqb andb].
  - (* hblank *)
    destruct (204 <=? k + clockInMode (timing s));
      [destruct (scanline (timing s) + 1 =? 144) |];
      cbn [snd ppu with_ppu interrupt_raise set_timing with_timing video];
      repeat split; reflexivity.
  - (* vblank *)
    change (1 =? 1) with true. cbn [andb].
    destruct (4560 <=? k + clockInMode (timing s)).
    + cbn [snd ppu with_ppu set_timing with_timing video].
      destruct (skipFrame (video s)) eqn:Hskip; cbn [negb];
        cbn [snd ppu with_ppu set_timing with_timing video with_video swapBuffers
             with_skipFrame frame skipFrame paletteBG frontBuffer backBuffer];
        repeat split; reflexivity.
    + cbn [snd ppu with_ppu set_timing with_timing video]. repeat split; reflexivity.
  - (* oamScan *)
    destruct (80 <=? k + clockInMode (timing s));
      cbn [snd ppu with_ppu set_timing with_timing video];
      repeat split; reflexivity.
  - (* draw *)
    destruct (172 <=? k + clockInMode (timing s));
      cbn [snd ppu with_ppu set_timing with_timing video];
      [| repeat split; reflexivity].
    pose proof (renderLine_front (set_timing hblank 0 (scanline (timing s)) s)) as Hfront.
    cbn [video set_timing with_timing] in Hfront.
    destruct (video (renderLine (set_timing hblank 0 (scanline (timing s)) s)))
      as [fr sk pal fb bb].
    destruct (video s) as [fr0 sk0 pal0 fb0 bb0].
    cbn [with_backBuffer frame skipFrame paletteBG frontBuffer backBuffer] in *.
    injection Hfront as -> -> -> ->. repeat split; reflexivity.
Qed.

End PpuRenderFacts.

(* --------------------------------------------------------------------- *)
(** ** The MBC3 controller: the clock registers and the banks *)
(* --------------------------------------------------------------------- *)

Module Mbc3BankFacts.
Import Js Mbc3 Mbc3Runs JsFacts BitFacts Mbc3Facts.

Section WithHost.
Context `{Host}.

(** *** The latched clock *)

Lemma latched_latch (s : t) : latched (latch s) = latched s.
Proof. reflexivity. Qed.

Lemma latched_busWrite (a v : Z) (s s' : t) :
  busWrite a v s = Some (Normal s') -> latched s' = latched s.
Proof.
  unfold busWrite. destruct (install a) as [[] |]; try discriminate.
  - intros He. injection He as <-. reflexivity.
  - intros He. injection He as <-. reflexivity.
  - intros He. injection He as <-. unfold writeRamBankIndex.
    destruct (v <=? 0x03); reflexivity.
  - intros He. injection He as <-. unfold writeLatch.
    destruct ((v =? 0x01) && (lastLatch s =? 0x00)); reflexivity.
  - unfold writeBankRam. destruct (negb (ramEnable s)).
    + intros He. injection He as <-. reflexivity.
    + destruct (0 <? registerSelect s).
      * intros He. injection He as <-. apply latched_writeRegister.
      * destruct (ramBank (banks s)); [| discriminate].
        intros He. injection He as <-. reflexivity.
Qed.

Lemma latched_reset (saved : option (list Z)) (s s' : t) :
  reset saved s = Normal s' -> latched s' = latched s.
Proof.
  unfold reset.
  match goal with
  | |- bind ?c _ = _ -> _ => destruct c as [u | m] eqn:Hc; [| discriminate]
  end.
  cbn [bind]. intros He. injection He as <-. rewrite latched_latch.
  revert Hc. cbn [cart with_banks with_halt with_lastLatch with_ramEnable
                  with_registerSelect ram].
  destruct (isBattery (type (cart s))).
  - destruct saved as [saved |].
    + destruct (len saved =? len (ram s) + 4).
      * destruct (0 <? len (ram s)).
        -- destruct (ta_setAll (ram s) (take (Z.to_nat (len (ram s))) saved));
             [| discriminate].
           cbn [bind]. intros He. injection He as <-. reflexivity.
        -- cbn [bind]. intros He. injection He as <-. reflexivity.
      * intros He. injection He as <-. reflexivity.
    + intros He. injection He as <-. reflexivity.
  - intros He. injection He as <-. reflexivity.
Qed.

Lemma latched_constructor (c : CartridgeBase) (k : nat) (s : t) :
  constructor c k = Normal s -> latched s = (0, 0, 0, 0).
Proof.
  unfold constructor.
  repeat match goal with
         | |- (if ?b then _ else _) = _ -> _ => destruct b; [discriminate |]
         end.
  intros He. injection He as <-. reflexivity.
Qed.

Lemma latched_busWrites (ws : list (Z * Z)) :
  forall s s' : t, busWrites ws s = Some (Normal s') -> latched s' = latched s.
Proof.
  induction ws as [| [a v] ws IH]; intros s s' Hrun.
  - injection Hrun as <-. reflexivity.
  - cbn [busWrites] in Hrun.
    destruct (busWrite a v s) as [[u | m] |] eqn:Hw; try discriminate.
    rewrite (IH u s' Hrun). now apply (latched_busWrite a v).
Qed.

(** X27: The latched clock never moves. [latch] copies the latched fields into
    the running ones, so nothing ever assigns the latched fields: after
    construction, a reset and any sequence of bus writes they are still 0,
    and the registers 0x08..0x0B read 0 whenever they are selected. *)
Theorem clock_registers_read_zero (c : CartridgeBase) (k : nat)
  (saved : option (list Z)) (ws : list (Z * Z)) (s0 s1 s : t) (r a : Z) :
  constructor c k = Normal s0 ->
  reset saved s0 = Normal s1 ->
  busWrites ws s1 = Some (Normal s) ->
  latched s = (0, 0, 0, 0)
  /\ (0x08 <= r <= 0x0b -> readRegister r s = 0)
  /\ (0x08 <= r <= 0x0b -> ramEnable s = true -> registerSelect s = r ->
      0xa000 <= a < 0xc000 -> busRead a s = Some (Normal (Num 0))).
Proof.
  intros Hc Hr Hw.
  assert (latched s = (0, 0, 0, 0)) as Hl.
  { rewrite (latched_busWrites ws s1 s Hw), (latched_reset saved s0 s1 Hr).
    now apply (latched_constructor c k). }
  assert (0x08 <= r <= 0x0b -> readRegister r s = 0) as Hread.
  { intros Hrange. unfold latched in Hl. injection Hl as Hs Hm Hh Hd.
    unfold readRegister. rewrite Hs, Hm, Hh, Hd.
    repeat match goal with
           | |- context [?x =? ?y] => destruct (Z.eqb_spec x y)
           end; try reflexivity; lia. }
  split; [exact Hl |]. split; [exact Hread |].
  intros Hrange Hen Hsel Ha. unfold busRead. rewrite (install_bankRam a Ha).
  unfold readBankRam. rewrite Hen, Hsel. cbn [negb].
  destruct (Z.ltb_spec 0 r); [| lia]. now rewrite Hread.
Qed.

(** *** Cartridge RAM *)

Lemma view_get_store (l : list Z) (w : View) (i j x : Z) :
  0 <= v_off w -> 0 <= i < v_len w -> v_off w + i < len l ->
  view_get (ta_store l (v_off w + i) x) w j
  = if j =? i then Num x else view_get l w j.
Proof.
  intros Hoff Hi Hlen. unfold view_get.
  destruct (Z.eqb_spec j i) as [-> | Hne].
  - destruct (Z.leb_spec 0 i); [| lia]. destruct (Z.ltb_spec i (v_len w)); [| lia].
    cbn [andb]. apply RegisterFacts.ta_get_store_same. lia.
  - destruct ((0 <=? j) && (j <? v_len w)); [| reflexivity].
    apply RegisterFacts.ta_get_store_other. lia.
Qed.

(** X28: With RAM enabled and a RAM bank selected, a byte written into the
    window 0xA000..0xBFFF is read back from the same address, other
    addresses of the window read as before, and the write changes that one
    cell of the RAM and nothing else of the controller. *)
Theorem ram_write_read (s : t) (w : View) (a v : Z) :
  ramEnable s = true -> registerSelect s <= 0 -> ramBank (banks s) = Some w ->
  0xa000 <= a < 0xc000 -> a - 0xa000 < v_len w ->
  0 <= v_off w -> v_off w + (a - 0xa000) < len (ram s) ->
  exists s' : t,
    busWrite a v s = Some (Normal s')
    /\ busRead a s' = Some (Normal (Num (v mod 0x100)))
    /\ (forall a' : Z, 0xa000 <= a' < 0xc000 -> a' <> a -> busRead a' s' = busRead a' s)
    /\ (forall j : Z, j <> v_off w + (a - 0xa000) -> ta_get (ram s') j = ta_get (ram s) j)
    /\ with_ram (ram s) s' = s.
Proof.
  intros Hen Hsel Hbank Ha Hlen Hoff Hram.
  unfold busWrite, busRead. rewrite (install_bankRam a Ha).
  unfold writeBankRam. rewrite Hen. cbn [negb].
  destruct (Z.ltb_spec 0 (registerSelect s)); [lia |]. rewrite Hbank.
  eexists. split; [reflexivity |].
  unfold view_set8. destruct (Z.leb_spec 0 (a - 0xa000)); [| lia].
  destruct (Z.ltb_spec (a - 0xa000) (v_len w)); [| lia]. cbn [andb].
  unfold ta_set8. split; [| split; [| split]].
  - unfold readBankRam. cbn [ramEnable registerSelect banks ram with_ram]. rewrite Hen.
    cbn [negb]. destruct (Z.ltb_spec 0 (registerSelect s)); [lia |]. rewrite Hbank.
    rewrite view_get_store by lia. now rewrite Z.eqb_refl.
  - intros a' Ha' Hne. rewrite (install_bankRam a' Ha').
    unfold readBankRam. cbn [ramEnable registerSelect banks ram with_ram]. rewrite Hen.
    cbn [negb]. destruct (Z.ltb_spec 0 (registerSelect s)); [lia |]. rewrite Hbank.
    rewrite view_get_store by lia.
    destruct (Z.eqb_spec (a' - 0xa000) (a - 0xa000)); [lia | reflexivity].
  - intros j Hj. cbn [ram with_ram]. apply RegisterFacts.ta_get_store_other. lia.
  - destruct s. reflexivity.
Qed.

(** *** ROM banks *)

Lemma length_bankViews (total bank : Z) (n : nat) : length (bankViews total bank n) = n.
Proof. unfold bankViews. now rewrite length_map, length_seq. Qed.

Lemma bankViews_lookup (total bank : Z) (n : nat) (k : Z) :
  0 <= k < Z.of_nat n ->
  arr_get (bankViews total bank n) (Fin k)
  = Some (subarray total (k * bank) ((k + 1) * bank)).
Proof.
  intros Hk. unfold arr_get. destruct (Z.leb_spec 0 k); [| lia].
  unfold bankViews. change (@List.map nat View) with (@fmap list _ nat View).
  rewrite list_lookup_fmap, lookup_seq_lt by lia.
  cbn [fmap option_fmap option_map Nat.add]. now rewrite Z2Nat.id by lia.
Qed.

Lemma install_romBankIndex (a : Z) :
  0x2000 <= a < 0x4000 -> install a = Some RomBankIndexRegion.
Proof. intros Ha. unfold install. zcases; reflexivity. Qed.

Lemma install_bank1 (a : Z) :
  0x4000 <= a < 0x8000 ->
  install a = Some RamBankIndexRegion \/ install a = Some LatchRegion.
Proof. intros Ha. unfold install. zcases; auto. Qed.

(** X29: Writing [v] to 0x2000..0x3FFF maps a ROM bank into 0x4000..0x7FFF:
    bank 1 for [v = 0], and otherwise bank [v] modulo the number of banks,
    so a multiple of the number of banks maps bank 0. *)
Theorem rom_bank_select (s : t) (n a a' v : Z) :
  romLayout s n -> 0 <= v -> 0x2000 <= a < 0x4000 -> 0x4000 <= a' < 0x8000 ->
  exists s' : t,
    busWrite a v s = Some (Normal s')
    /\ romLayout s' n
    /\ busRead a' s'
       = Some (Normal (ta_get (image (cart s))
                         ((if v =? 0 then 1 else v mod n) * 0x4000 + (a' - 0x4000)))).
Proof.
  intros (Hn & Hbanks & Himage) Hv Ha Ha'.
  unfold busWrite, busRead. rewrite (install_romBankIndex a Ha).
  eexists. split; [reflexivity |].
  split.
  - unfold romLayout, writeRomBankIndex.
    cbn [banks with_banks set_rom romBanks cart]. repeat split; assumption.
  - assert (readBank1 a' (writeRomBankIndex a v s)
            = Normal (ta_get (image (cart s))
                        ((if v =? 0 then 1 else v mod n) * 0x4000 + (a' - 0x4000)))) as Hread.
    { unfold readBank1, writeRomBankIndex.
      cbn [banks with_banks set_rom romBank1 romBanks cart].
      assert (len (romBanks (banks s)) = n) as Hcount
        by (rewrite Hbanks; unfold len; rewrite length_bankViews; lia).
      rewrite Hcount.
      assert ((if v =? 0 then Fin 1 else rem v n)
              = Fin (if v =? 0 then 1 else v mod n)) as ->.
      { destruct (v =? 0); [reflexivity |]. unfold rem.
        destruct (Z.eqb_spec n 0); [lia |]. now rewrite Z.rem_mod_nonneg by lia. }
      assert (0 <= (if v =? 0 then 1 else v mod n) < n) as Hk
        by (destruct (v =? 0); [lia | apply Z.mod_pos_bound; lia]).
      rewrite Hbanks, bankViews_lookup by lia.
      change 0x3fff with (Z.ones 14). rewrite bitand_mask by lia.
      assert (a' mod 2 ^ 14 = a' - 0x4000) as ->.
      { symmetry. apply Z.mod_unique_pos with (q := 1); lia. }
      unfold view_get, subarray, clampIndex. cbn [v_off v_len].
      set (k := if v =? 0 then 1 else v mod n) in *.
      destruct (Z.ltb_spec (k * 0x4000) 0); [lia |].
      destruct (Z.ltb_spec ((k + 1) * 0x4000) 0); [lia |].
      rewrite !Z.min_l by nia. rewrite Z.max_l by lia.
      destruct (Z.leb_spec 0 (a' - 0x4000)); [| lia].
      destruct (Z.ltb_spec (a' - 0x4000) ((k + 1) * 0x4000 - k * 0x4000)); [| lia].
      reflexivity. }
    destruct (install_bank1 a' Ha') as [-> | ->]; now rewrite Hread.
Qed.

(** *** Reset without a battery *)

(** X30: A cartridge without a battery starts afresh at every reset: whatever
    is offered as saved RAM is ignored, the RAM is cleared, the clock
    restarts at the present second, and [getRam] has nothing to save. *)
Theorem reset_without_battery (saved : option (list Z)) (s : t) :
  isBattery (type (cart s)) = false ->
  exists s' : t,
    reset saved s = Normal s'
    /\ ram s' = replicate (length (ram s)) 0
    /\ referenceTimestamp s' = divTrunc (Date_now (clockReads s)) 1000
    /\ ramEnable s' = false
    /\ registerSelect s' = 0
    /\ getRam s' = None.
Proof.
  intros Hb. destruct s as [c b r clk h e sel l ref n]. cbn [cart] in Hb.
  unfold reset, getRam.
  cbn -[divTrunc isBattery replicate Z.ltb len arr_get whole].
  rewrite Hb.
  cbn -[divTrunc isBattery replicate Z.ltb len arr_get whole].
  eexists. split; [reflexivity |].
  cbn -[divTrunc isBattery replicate Z.ltb len arr_get whole].
  rewrite Hb. repeat split; reflexivity.
Qed.

End WithHost.

Lemma clock_registers_read_zero_witness :
  @busRead 0xa000 Mbc3RunSample.latchedOnce = Some (Normal (Num 0)).
Proof.
  destruct (@clock_registers_read_zero Mbc3Sample.host Mbc3Sample.cartridge 0 None
              Mbc3RunSample.latching Mbc3RunSample.built Mbc3Sample.fresh Mbc3RunSample.latchedOnce
              0x08 0xa000) as (_ & _ & Hread).
  - vm_compute. reflexivity.
  - vm_compute. reflexivity.
  - vm_compute. reflexivity.
  - apply Hread; [lia | vm_compute; reflexivity | vm_compute; reflexivity | lia].
Defined.

Lemma ram_write_read_witness :
  exists s' : t,
    @busWrite Mbc3Sample.host 0xa000 0x142 Mbc3Sample.ramOn = Some (Normal s')
    /\ busRead 0xa000 s' = Some (Normal (Num 0x42)).
Proof.
  destruct (@ram_write_read Mbc3Sample.host Mbc3Sample.ramOn
              {| v_off := 0; v_len := 0x2000 |} 0xa000 0x142)
    as (s' & Hw & Hr & _).
  - reflexivity.
  - vm_compute. congruence.
  - reflexivity.
  - lia.
  - vm_compute. reflexivity.
  - vm_compute. congruence.
  - vm_compute. reflexivity.
  - exists s'. split; [exact Hw | exact Hr].
Defined.

Lemma rom_bank_select_witness :
  exists s' : t,
    @busWrite Mbc3Sample.host 0x2000 0x02 Mbc3RunSample.twoBanksBuilt = Some (Normal s')
    /\ busRead 0x4000 s' = Some (Normal (Num 0x11)).
Proof.
  destruct (@rom_bank_select Mbc3Sample.host Mbc3RunSample.twoBanksBuilt 2 0x2000 0x4000 0x02)
    as (s' & Hw & _ & Hr).
  - split; [lia |]. split; [vm_compute; reflexivity | vm_compute; congruence].
  - lia.
  - lia.
  - lia.
  - exists s'. split; [exact Hw |]. rewrite Hr. vm_compute. reflexivity.
Defined.

Lemma reset_without_battery_witness :
  exists s' : t,
    @reset Mbc3Sample.host (Some [1; 2; 3; 4]) Mbc3RunSample.twoBanksBuilt = Normal s'
    /\ getRam s' = None.
Proof.
  destruct (@reset_without_battery Mbc3Sample.host (Some [1; 2; 3; 4])
              Mbc3RunSample.twoBanksBuilt) as (s' & Hr & _ & _ & _ & _ & Hg).
  - vm_compute. reflexivity.
  - exists s'. split; [exact Hr | exact Hg].
Defined.

End Mbc3BankFacts.

(* --------------------------------------------------------------------- *)
(** ** The CPU on the scenarios of the tests *)
(* --------------------------------------------------------------------- *)

Module ScenarioFacts.
Import Js Instruction Cpu Registers BitFacts.

Lemma lookup_nop :
  Instruction.lookup 0x00
  = Some {| opcode := 0x00; operation := Operation_nop;
            addressingMode := AddressingMode_implicit;
            par1 := 0; par2 := 0; cycles := 1; len := 1 |}.
Proof. vm_compute. reflexivity. Qed.

Lemma lookup_or_d :
  Instruction.lookup 0xb2
  = Some {| opcode := 0xb2; operation := Operation_or;
            addressingMode := AddressingMode_reg8;
            par1 := r8.d; par2 := 0; cycles := 1; len := 1 |}.
Proof. vm_compute. reflexivity. Qed.

Lemma lookup_jp :
  Instruction.lookup 0xc3
  = Some {| opcode := 0xc3; operation := Operation_jp;
            addressingMode := AddressingMode_imm16;
            par1 := 0; par2 := 0; cycles := 4; len := 3 |}.
Proof. vm_compute. reflexivity. Qed.

Section WithEnvironment.
Context {W : Type} `{Environment W}.

(** C1: a step does not service interrupts. Whatever the CPU and the rest
    of the machine hold, so also with interrupts enabled and an interrupt
    pending in IE and IF, a step at a NOP is the NOP and nothing else: PC
    moves on by one, the clock is given the one cycle of the NOP, and IME,
    SP and the rest of the machine are as the fetch of the opcode left
    them. Nothing is pushed, no vector is taken, no bit of IF is cleared. *)
Theorem interrupt_not_serviced (s : CpuState) (w w1 : W) :
  bus_read (p s) w = (0x00, w1) ->
  step 1 (s, w) = Normal (with_p ((p s + 1) mod 0x10000) s, clock_increment 1 w1).
Proof.
  intros Hread. cbn [step]. unfold decodeInstruction. rewrite Hread, lookup_nop.
  unfold dispatch, advance. cbn [operation cycles len bind step].
  rewrite bitand_0xffff. reflexivity.
Qed.

(** C2: not every instruction of the table moves PC on or jumps to its
    operand. OR D is in the table with a length of 1, but [dispatch] has
    no case for it: a step at OR D sends [invalid instruction] to the
    break sink and leaves the CPU, PC included, as it was, with no cycle
    given to the clock. JP a16 sets PC to the 16-bit value read at PC
    itself, where the opcode is, not at the two bytes after it. *)
Theorem table_instruction_not_executed (s : CpuState) (w w1 w2 : W) (target : Z) :
  (bus_read (p s) w = (0xb2, w1) ->
   step 1 (s, w) = Normal (s, system_break "invalid instruction" w1))
  /\ (bus_read (p s) w = (0xc3, w1) ->
      bus_read16 (p s mod 0x10000) (clock_increment 4 w1) = (target, w2) ->
      step 1 (s, w) = Normal (with_p target s, w2)).
Proof.
  split.
  - intros Hread. cbn [step]. unfold decodeInstruction. rewrite Hread, lookup_or_d.
    reflexivity.
  - intros Hread Hoperand. cbn [step]. unfold decodeInstruction. rewrite Hread, lookup_jp.
    unfold dispatch, getArg1. cbn [operation addressingMode cycles par1 bind].
    rewrite Z.add_0_r, bitand_0xffff, Hoperand. reflexivity.
Qed.

End WithEnvironment.

Lemma interrupt_not_serviced_witness :
  step 1 (CpuSample.armed, CpuSample.pendingVblank)
  = Normal (with_p 0x0101 CpuSample.armed,
            TestBench.increment 1 CpuSample.pendingVblank).
Proof.
  apply (@interrupt_not_serviced TestBench.World TestBench.environment
           CpuSample.armed CpuSample.pendingVblank CpuSample.pendingVblank).
  reflexivity.
Defined.

Lemma table_instruction_not_executed_witness :
  step 1 (CpuSample.beforeOr, CpuSample.bench [0xb2])
  = Normal (CpuSample.beforeOr,
            TestBench.break "invalid instruction" (CpuSample.bench [0xb2]))
  /\ step 1 (CpuSample.boot, CpuSample.bench [0xc3; 0x34; 0x12])
     = Normal (with_p 0x34c3 CpuSample.boot,
               TestBench.increment 4 (CpuSample.bench [0xc3; 0x34; 0x12])).
Proof.
  split.
  - apply (proj1 (@table_instruction_not_executed TestBench.World TestBench.environment
                    CpuSample.beforeOr (CpuSample.bench [0xb2]) (CpuSample.bench [0xb2])
                    (CpuSample.bench [0xb2]) 0)).
    reflexivity.
  - apply (proj2 (@table_instruction_not_executed TestBench.World TestBench.environment
                    CpuSample.boot (CpuSample.bench [0xc3; 0x34; 0x12])
                    (CpuSample.bench [0xc3; 0x34; 0x12])
                    (TestBench.increment 4 (CpuSample.bench [0xc3; 0x34; 0x12])) 0x34c3)).
    + reflexivity.
    + reflexivity.
Defined.

End ScenarioFacts.
